(** * Response validation and metrics recording of the k6 test suite

    A shallow embedding of
      - [src/services/validator.service.ts]  (ValidatorService),
      - [src/services/metrics.service.ts]    (MetricsService),
      - [src/services/logger.service.ts]     (LoggerService.error),
      - [src/constants], listed with [src/config/environments.ts]
                                             (HTTP_STATUS, TEST_CONFIG),
      - [src/utils/helpers.ts]               (checkResponse, checkErrorResponse),
    together with the pieces of the JavaScript runtime and of the k6 library
    these functions call: strings, numbers, truthiness, property reads,
    exceptions, [check], custom metrics and [console.error].

    The second half embeds the code around them: the rest of
    ValidatorService and LoggerService, [src/services/http.service.ts],
    [src/services/data-builder.service.ts], the API clients
    [src/api/user.api.ts] and [src/api/contact.api.ts], the flows of
    [src/helpers/auth.helper.ts] and [src/helpers/contact.helper.ts], and
    [src/utils/sleep.util.ts], run as scripts over a world that holds the
    requests sent, the lines logged and the sleeps taken. *)

From Stdlib Require Import ZArith NArith List String Ascii Bool Lia.
From Stdlib Require Import SpecFloat DecimalString.
From Stdlib Require DecimalFacts DecimalPos DecimalN.
Import ListNotations.

Local Open Scope Z_scope.

(* ================================================================== *)
(** * JavaScript values *)
(* ================================================================== *)

(** A JavaScript string is a finite sequence of 16-bit code units;
    [length], [substring] and [+] work on code units. *)
Definition jsstring := list N.

(** The code units of a source literal written in ASCII. *)
Definition lit (s : string) : jsstring :=
  List.map N_of_ascii (list_ascii_of_string s).

(** The same, with every apostrophe of [s] standing for a double quote
    (to write JSON texts). *)
Definition litq (s : string) : jsstring :=
  List.map (fun c => if N.eqb c 39 then 34%N else c) (lit s).

Fixpoint jsstring_eqb (a b : jsstring) : bool :=
  match a, b with
  | [], [] => true
  | x :: a', y :: b' => N.eqb x y && jsstring_eqb a' b'
  | _, _ => false
  end.

(** [s.substring(0, n)] for a non-negative integer [n]: the first [n] code
    units, the whole string when it is shorter. *)
Definition substring0 (n : nat) (s : jsstring) : jsstring := firstn n s.

(** A JavaScript number is an IEEE 754 binary64 value: 53 bits of
    precision, NaN, two infinities and two zeros.  Finite values are kept
    in the canonical form that [binary_normalize] produces. *)
Definition number := spec_float.

(** The number holding the integer [z] (rounded when [z] needs more than
    53 bits). *)
Definition number_of_Z (z : Z) : number := binary_normalize 53 1024 z 0 false.

(** [a < b] on numbers: false as soon as one side is NaN. *)
Definition number_ltb (a b : number) : bool := SFltb a b.

(** [String(z)] and [`${z}`] for a number holding the integer [z]: a minus
    sign when negative, then the decimal digits.  (JavaScript writes
    integers this way up to 10^21; status codes are far below.) *)
Definition Number_toString (z : Z) : jsstring :=
  lit (NilZero.string_of_int (Z.to_int z)).

#[local] Set Warnings "-register-all".

(** The values a check function or [JSON.parse] can produce.  An object is
    the list of its own properties in creation order, each key once. *)
Inductive JsValue : Type :=
| JsUndefined
| JsNull
| JsBool (b : bool)
| JsNumber (x : number)
| JsString (s : jsstring)
| JsArray (elements : list JsValue)
| JsObject (props : list (jsstring * JsValue)).

(** ToBoolean: [undefined], [null], [false], [0], [-0], [NaN] and the empty
    string are falsy, everything else is truthy. *)
Definition ToBoolean (v : JsValue) : bool :=
  match v with
  | JsUndefined | JsNull => false
  | JsBool b => b
  | JsNumber (S754_zero _) | JsNumber S754_nan => false
  | JsNumber _ => true
  | JsString s => negb (jsstring_eqb s [])
  | JsArray _ | JsObject _ => true
  end.

Fixpoint lookup {V : Type} (k : jsstring) (o : list (jsstring * V)) : option V :=
  match o with
  | [] => None
  | (k', v) :: o' => if jsstring_eqb k k' then Some v else lookup k o'
  end.

(** Defining property [k] on an object: an existing key keeps its place
    and takes the new value, a new key goes last. *)
Fixpoint define_property {V : Type} (k : jsstring) (v : V)
    (o : list (jsstring * V)) : list (jsstring * V) :=
  match o with
  | [] => [(k, v)]
  | (k', v') :: o' =>
      if jsstring_eqb k k' then (k', v) :: o'
      else (k', v') :: define_property k v o'
  end.

(** An object literal [{ [k1]: v1, [k2]: v2, ... }] with computed keys:
    the properties are defined from left to right.  (None of the keys built
    in this development is an array index, so enumeration order is
    creation order.) *)
Definition object_literal {V : Type} (props : list (jsstring * V))
  : list (jsstring * V) :=
  fold_left (fun o kv => define_property (fst kv) (snd kv) o) props [].

(* ================================================================== *)
(** * Exceptions *)
(* ================================================================== *)

Inductive JsError : Type := SyntaxError | TypeError | RangeError.

(** The outcome of evaluating an expression or running a function body. *)
Inductive Completion (A : Type) : Type :=
| Normal (a : A)
| Throw (e : JsError).
Arguments Normal {A} a.
Arguments Throw {A} e.

Class Monad (M : Type -> Type) : Type := {
  ret : forall {A : Type}, A -> M A;
  bind : forall {A B : Type}, M A -> (A -> M B) -> M B
}.

Declare Scope js_scope.
Delimit Scope js_scope with js.
Notation "x <- c ;; k" := (bind c (fun x => k))
  (at level 100, c at next level, right associativity) : js_scope.
Notation "c ;;; k" := (bind c (fun _ => k))
  (at level 100, right associativity) : js_scope.
Local Open Scope js_scope.

#[export] Instance Monad_Completion : Monad Completion := {
  ret := fun A a => Normal a;
  bind := fun A B c k =>
    match c with
    | Normal a => k a
    | Throw e => Throw e
    end
}.

(** [try { c } catch { h }] *)
Definition try_catch {A : Type} (c : Completion A) (h : JsError -> Completion A)
  : Completion A :=
  match c with
  | Normal a => Normal a
  | Throw e => h e
  end.

(** [v.k] for a property name [k] that no built-in prototype defines
    (such as [error] and [message]): reading from [null] or [undefined]
    throws a TypeError; primitives and arrays answer [undefined]; an object
    answers its own property, [undefined] when it has none. *)
Definition Get (v : JsValue) (k : jsstring) : Completion JsValue :=
  match v with
  | JsUndefined | JsNull => Throw TypeError
  | JsObject props =>
      match lookup k props with
      | Some x => Normal x
      | None => Normal JsUndefined
      end
  | _ => Normal JsUndefined
  end.

(* ================================================================== *)
(** * The k6 runtime *)
(* ================================================================== *)

(** [response.body] of a [RefinedResponse<ResponseType | undefined>]:
    [null], text, or an [ArrayBuffer]. *)
Inductive Body : Type :=
| BNull
| BString (s : jsstring)
| BArrayBuffer (bytes : list N).

Record Timings : Type := { duration : number }.

(** The fields of a response the validators read.  [status] is the HTTP
    status code, an integer; [timings.duration] is in milliseconds. *)
Record K6Response : Type := {
  status : Z;
  body : Body;
  timings : Timings
}.

(** [String(r.body)] *)
Definition String_ (b : Body) : jsstring :=
  match b with
  | BNull => lit "null"
  | BString s => s
  | BArrayBuffer _ => lit "[object ArrayBuffer]"
  end.

(** [r.body !== null] *)
Definition Body_not_null (b : Body) : bool :=
  match b with
  | BNull => false
  | _ => true
  end.

(** Truthiness of [r.body]: [null] and the empty string are falsy. *)
Definition Body_truthy (b : Body) : bool :=
  match b with
  | BNull => false
  | BString s => negb (jsstring_eqb s [])
  | BArrayBuffer _ => true
  end.

(** A sample of a custom metric: a rate takes booleans, a trend and a
    counter take numbers. *)
Inductive Sample : Type :=
| BoolSample (b : bool)
| NumSample (x : number).

(** A custom metric is known to k6 by its name: [new Rate('errors')]
    evaluated in two modules gives two handles on the one metric
    [errors].  A handle is modelled by the name, and the metrics of a run
    by the samples added so far under each name, oldest first. *)
Definition Metric : Type := jsstring.

Definition K6Metrics : Type := list (jsstring * list Sample).

(** The samples of the metric [name]. *)
Definition series (name : jsstring) (m : K6Metrics) : list Sample :=
  match lookup name m with
  | Some samples => samples
  | None => []
  end.

Fixpoint add_sample (name : jsstring) (v : Sample) (m : K6Metrics) : K6Metrics :=
  match m with
  | [] => [(name, [v])]
  | (name', samples) :: m' =>
      if jsstring_eqb name name' then (name', samples ++ [v]) :: m'
      else (name', samples) :: add_sample name v m'
  end.

(** What a run can observe of the runtime: the state of the custom
    metrics, and the output produced so far, that is the outcome of every
    named check reported to k6 and the lines written with [console.error].
    Nothing in the code below reads any of it back. *)
Record K6Runtime : Type := {
  metrics : K6Metrics;
  check_results : list (jsstring * bool);
  console_error : list jsstring
}.

(** Code running in a virtual user: it reads and updates the runtime and
    ends normally or by throwing.  Updates made before a throw stay. *)
Definition VU (A : Type) : Type := K6Runtime -> Completion A * K6Runtime.

#[export] Instance Monad_VU : Monad VU := {
  ret := fun A a w => (Normal a, w);
  bind := fun A B c k w =>
    match c w with
    | (Normal a, w') => k a w'
    | (Throw e, w') => (Throw e, w')
    end
}.

Definition throw {A : Type} (e : JsError) : VU A := fun w => (Throw e, w).

(** [metric.add(v)] *)
Definition Metric_add (metric : Metric) (v : Sample) : VU unit :=
  fun w => (Normal tt,
            {| metrics := add_sample metric v (metrics w);
               check_results := check_results w;
               console_error := console_error w |}).

Module Rate.
(** [new Rate(name)] *)
Definition new (name : jsstring) : Metric := name.
(** [rate.add(b)] *)
Definition add (rate : Metric) (b : bool) : VU unit :=
  Metric_add rate (BoolSample b).
End Rate.

Module Trend.
(** [new Trend(name)] *)
Definition new (name : jsstring) : Metric := name.
(** [trend.add(x)] *)
Definition add (trend : Metric) (x : number) : VU unit :=
  Metric_add trend (NumSample x).
End Trend.

Module Counter.
(** [new Counter(name)] *)
Definition new (name : jsstring) : Metric := name.
(** [counter.add(n)] for an integer [n] *)
Definition add (counter : Metric) (n : Z) : VU unit :=
  Metric_add counter (NumSample (number_of_Z n)).
End Counter.

Module console.
Definition error (line : jsstring) : VU unit :=
  fun w => (Normal tt,
            {| metrics := metrics w;
               check_results := check_results w;
               console_error := console_error w ++ [line] |}).
End console.

(** A check function: it reads the response and returns a value or throws. *)
Definition CheckFn : Type := K6Response -> Completion JsValue.

Definition report_check (name : jsstring) (ok : bool) : VU unit :=
  fun w => (Normal tt,
            {| metrics := metrics w;
               check_results := check_results w ++ [(name, ok)];
               console_error := console_error w |}).

(** k6's [check(val, sets)]: every function of [sets] is called on [val] in
    property order and its truthiness is reported under the property's
    name; the result is true when no check failed.  A function that throws
    is reported as failed and its exception is passed on to the caller. *)
Fixpoint check_from (succ : bool) (val : K6Response)
    (sets : list (jsstring * CheckFn)) : VU bool :=
  match sets with
  | [] => ret succ
  | (name, fn) :: rest =>
      match fn val with
      | Normal v =>
          report_check name (ToBoolean v) ;;;
          check_from (succ && ToBoolean v) val rest
      | Throw e =>
          report_check name false ;;;
          throw e
      end
  end.

Definition check (val : K6Response) (sets : list (jsstring * CheckFn)) : VU bool :=
  check_from true val sets.

(* ================================================================== *)
(** * Constants ([src/constants], listed with [src/config/environments.ts]) *)
(* ================================================================== *)

Module HTTP_STATUS.
Definition OK : Z := 200.
Definition CREATED : Z := 201.
Definition NO_CONTENT : Z := 204.
Definition BAD_REQUEST : Z := 400.
Definition UNAUTHORIZED : Z := 401.
Definition FORBIDDEN : Z := 403.
Definition NOT_FOUND : Z := 404.
Definition CONFLICT : Z := 409.
Definition INTERNAL_SERVER_ERROR : Z := 500.
End HTTP_STATUS.

Module TEST_CONFIG.
Definition MAX_RESPONSE_TIME_MS : Z := 500.
Definition LOG_BODY_PREVIEW_LENGTH : nat := 200.
End TEST_CONFIG.

(** A parameter [p: number = d]: the default is taken when the argument
    is left out. *)
Definition default_param (arg : option Z) (d : Z) : Z :=
  match arg with
  | Some z => z
  | None => d
  end.

(* ================================================================== *)
(** * LoggerService ([src/services/logger.service.ts]) *)
(* ================================================================== *)

Module LoggerService.

(** The cross mark U+274C, one code unit. *)
Definition cross_mark : jsstring := [10060%N].

(** [error(message, context?)] *)
Definition error (message : jsstring) (context : option jsstring) : VU unit :=
  let contextStr :=
    match context with
    | Some c => if negb (jsstring_eqb c []) then lit " [" ++ c ++ lit "]" else []
    | None => []
    end in
  console.error (contextStr ++ lit " " ++ cross_mark ++ lit " " ++ message).

End LoggerService.

(* ================================================================== *)
(** * MetricsService ([src/services/metrics.service.ts]) *)
(* ================================================================== *)

Module MetricsService.

Definition errorRate : Metric := Rate.new (lit "errors").
Definition successRate : Metric := Rate.new (lit "success").
Definition apiDuration : Metric := Trend.new (lit "api_duration").
Definition failedRequests : Metric := Counter.new (lit "failed_requests").

Definition recordError (isError : bool) : VU unit :=
  Rate.add errorRate isError.

Definition recordSuccess (isSuccess : bool) : VU unit :=
  Rate.add successRate isSuccess.

Definition recordApiDuration (d : number) : VU unit :=
  Trend.add apiDuration d.

Definition incrementFailedRequests : VU unit :=
  Counter.add failedRequests 1.

End MetricsService.

(* ================================================================== *)
(** * ValidatorService ([src/services/validator.service.ts]) *)
(* ================================================================== *)

(** [JSON.parse] is a built-in of the runtime: it returns the parsed value
    or throws.  The validators take it as a parameter. *)
Definition JSONParser : Type := jsstring -> Completion JsValue.

Module ValidatorService.

(** [(r) => r.status === expectedStatus] *)
Definition status_is (expectedStatus : Z) : CheckFn :=
  fun r => Normal (JsBool (status r =? expectedStatus)).

(** [(r) => r.timings.duration < TEST_CONFIG.MAX_RESPONSE_TIME_MS] *)
Definition response_time_ok : CheckFn :=
  fun r => Normal (JsBool (number_ltb (duration (timings r))
                             (number_of_Z TEST_CONFIG.MAX_RESPONSE_TIME_MS))).

(** [(r) => r.body !== null && String(r.body).length > 0] *)
Definition response_has_body : CheckFn :=
  fun r => Normal (JsBool
    (Body_not_null (body r) && (0 <? List.length (String_ (body r)))%nat)).

(** The body of the [has error message] check:
    [try { const body = JSON.parse(String(r.body));
           return Boolean(body.error || body.message); }
     catch { return false; }] *)
Definition has_error_message (JSON_parse : JSONParser) : CheckFn :=
  fun r =>
    try_catch
      (parsed <- JSON_parse (String_ (body r)) ;;
       e <- Get parsed (lit "error") ;;
       v <- (if ToBoolean e then ret e else Get parsed (lit "message")) ;;
       ret (JsBool (ToBoolean v)))
      (fun _ => ret (JsBool false)).

(** [logFailure(testName, response)] *)
Definition logFailure (testName : jsstring) (response : K6Response) : VU unit :=
  let bodyPreview :=
    if Body_truthy (body response)
    then substring0 TEST_CONFIG.LOG_BODY_PREVIEW_LENGTH (String_ (body response))
    else lit "No body" in
  LoggerService.error
    (testName ++ lit " failed: Status " ++ Number_toString (status response)
              ++ lit ", Body: " ++ bodyPreview)
    (Some (lit "Validation")).

(** [validateResponse(response, testName, expectedStatus = HTTP_STATUS.OK)] *)
Definition validateResponse (response : K6Response) (testName : jsstring)
    (expectedStatus : option Z) : VU bool :=
  let expectedStatus := default_param expectedStatus HTTP_STATUS.OK in
  let checks := object_literal
    [ (testName ++ lit ": status is " ++ Number_toString expectedStatus,
       status_is expectedStatus);
      (testName ++ lit ": response time < "
                ++ Number_toString TEST_CONFIG.MAX_RESPONSE_TIME_MS ++ lit "ms",
       response_time_ok);
      (testName ++ lit ": response has body",
       response_has_body) ] in
  success <- check response checks ;;
  MetricsService.recordError (negb success) ;;;
  MetricsService.recordSuccess success ;;;
  MetricsService.recordApiDuration (duration (timings response)) ;;;
  (if negb success
   then MetricsService.incrementFailedRequests ;;;
        logFailure testName response
   else ret tt) ;;;
  ret success.

(** [validateErrorResponse(response, testName,
                           expectedStatus = HTTP_STATUS.BAD_REQUEST)] *)
Definition validateErrorResponse (JSON_parse : JSONParser)
    (response : K6Response) (testName : jsstring)
    (expectedStatus : option Z) : VU bool :=
  let expectedStatus := default_param expectedStatus HTTP_STATUS.BAD_REQUEST in
  let checks := object_literal
    [ (testName ++ lit ": status is " ++ Number_toString expectedStatus,
       status_is expectedStatus);
      (testName ++ lit ": has error message",
       has_error_message JSON_parse) ] in
  check response checks.

End ValidatorService.

(* ================================================================== *)
(** * The earlier helpers ([src/utils/helpers.ts]) *)
(* ================================================================== *)

Module helpers.

Definition errorRate : Metric := Rate.new (lit "errors").
Definition successRate : Metric := Rate.new (lit "success").
Definition apiDuration : Metric := Trend.new (lit "api_duration").
Definition failedRequests : Metric := Counter.new (lit "failed_requests").

(** [(r) => r.status === expectedStatus] *)
Definition status_is (expectedStatus : Z) : CheckFn :=
  fun r => Normal (JsBool (status r =? expectedStatus)).

(** [(r) => r.timings.duration < 500] *)
Definition response_time_ok : CheckFn :=
  fun r => Normal (JsBool (number_ltb (duration (timings r)) (number_of_Z 500))).

(** [(r) => r.body !== null && String(r.body).length > 0] *)
Definition response_has_body : CheckFn :=
  fun r => Normal (JsBool
    (Body_not_null (body r) && (0 <? List.length (String_ (body r)))%nat)).

(** [try { const body = JSON.parse(String(r.body));
           return body.error || body.message; }
     catch (e) { return false; }] *)
Definition has_error_message (JSON_parse : JSONParser) : CheckFn :=
  fun r =>
    try_catch
      (parsed <- JSON_parse (String_ (body r)) ;;
       e <- Get parsed (lit "error") ;;
       if ToBoolean e then ret e else Get parsed (lit "message"))
      (fun _ => ret (JsBool false)).

(** [checkResponse(response, testName, expectedStatus = 200)] *)
Definition checkResponse (response : K6Response) (testName : jsstring)
    (expectedStatus : option Z) : VU bool :=
  let expectedStatus := default_param expectedStatus 200 in
  success <- check response (object_literal
    [ (testName ++ lit ": status is " ++ Number_toString expectedStatus,
       status_is expectedStatus);
      (testName ++ lit ": response time < 500ms",
       response_time_ok);
      (testName ++ lit ": response has body",
       response_has_body) ]) ;;
  Rate.add errorRate (negb success) ;;;
  Rate.add successRate success ;;;
  Trend.add apiDuration (duration (timings response)) ;;;
  (if negb success
   then Counter.add failedRequests 1 ;;;
        let bodyPreview :=
          if Body_truthy (body response)
          then substring0 200 (String_ (body response))
          else lit "No body" in
        console.error
          (LoggerService.cross_mark ++ lit " " ++ testName
             ++ lit " failed: Status " ++ Number_toString (status response)
             ++ lit ", Body: " ++ bodyPreview)
   else ret tt) ;;;
  ret success.

(** [checkErrorResponse(response, testName, expectedStatus = 400)] *)
Definition checkErrorResponse (JSON_parse : JSONParser)
    (response : K6Response) (testName : jsstring)
    (expectedStatus : option Z) : VU bool :=
  let expectedStatus := default_param expectedStatus 400 in
  success <- check response (object_literal
    [ (testName ++ lit ": status is " ++ Number_toString expectedStatus,
       status_is expectedStatus);
      (testName ++ lit ": has error message",
       has_error_message JSON_parse) ]) ;;
  ret success.

End helpers.

(* ================================================================== *)
(** * JSON.parse *)
(* ================================================================== *)

(** The runtime's [JSON.parse], following the JSON grammar of ECMA-404 as
    ECMAScript reads it: white space is tab, line feed, carriage return and
    space; a number becomes the nearest binary64 value; in an object a
    repeated key keeps its place and takes the later value.  It is used to
    run the validators on concrete bodies; the general statements below
    hold for every parser. *)
Module JSON.

Local Open Scope N_scope.

Definition is_ws (c : N) : bool :=
  (c =? 9) || (c =? 10) || (c =? 13) || (c =? 32).

Fixpoint skip_ws (s : jsstring) : jsstring :=
  match s with
  | c :: s' => if is_ws c then skip_ws s' else s
  | [] => []
  end.

Fixpoint strip_prefix (p s : jsstring) : option jsstring :=
  match p, s with
  | [], _ => Some s
  | x :: p', y :: s' => if x =? y then strip_prefix p' s' else None
  | _ :: _, [] => None
  end.

Definition is_digit (c : N) : bool := (48 <=? c) && (c <=? 57).

Definition hex_value (c : N) : option N :=
  if is_digit c then Some (c - 48)
  else if (97 <=? c) && (c <=? 102) then Some (c - 87)
  else if (65 <=? c) && (c <=? 70) then Some (c - 55)
  else None.

(** The characters of a string after its opening quote, up to the
    closing quote; [acc] holds the code units read so far, last first. *)
Fixpoint string_chars (s : jsstring) (acc : jsstring)
  : option (jsstring * jsstring) :=
  match s with
  | [] => None
  | c :: rest =>
      if c =? 34 then Some (rev acc, rest)
      else if c =? 92 then
        match rest with
        | e :: r =>
            if e =? 34 then string_chars r (34 :: acc)
            else if e =? 92 then string_chars r (92 :: acc)
            else if e =? 47 then string_chars r (47 :: acc)
            else if e =? 98 then string_chars r (8 :: acc)
            else if e =? 102 then string_chars r (12 :: acc)
            else if e =? 110 then string_chars r (10 :: acc)
            else if e =? 114 then string_chars r (13 :: acc)
            else if e =? 116 then string_chars r (9 :: acc)
            else if e =? 117 then
              match r with
              | h1 :: h2 :: h3 :: h4 :: r' =>
                  match hex_value h1, hex_value h2, hex_value h3, hex_value h4 with
                  | Some a, Some b, Some c, Some d =>
                      string_chars r' (((a * 16 + b) * 16 + c) * 16 + d :: acc)
                  | _, _, _, _ => None
                  end
              | _ => None
              end
            else None
        | [] => None
        end
      else if c <? 32 then None
      else string_chars rest (c :: acc)
  end.

(** A run of decimal digits: their value after [acc], how many were
    read, and the rest of the text. *)
Fixpoint digits (s : jsstring) (acc : N) (count : nat) : N * nat * jsstring :=
  match s with
  | c :: rest =>
      if is_digit c then digits rest (acc * 10 + (c - 48)) (S count)
      else (acc, count, s)
  | [] => (acc, count, [])
  end.

(** The binary64 value nearest to [(-1)^neg * m * 10^e], ties to even.
    For a negative exponent the quotient is computed with at least 57
    bits and a sticky last bit, then rounded once. *)
Definition decimal_to_number (neg : bool) (m : N) (e : Z) : number :=
  let m := Z.of_N m in
  if (m =? 0)%Z then S754_zero neg
  else if (0 <=? e)%Z then
    binary_normalize 53 1024 (cond_Zopp neg (m * 10 ^ e))%Z 0 false
  else
    let d := (10 ^ (- e))%Z in
    let k := (Z.log2_up d + 56)%Z in
    let q := ((m * 2 ^ k) / d)%Z in
    let sticky := (if (m * 2 ^ k) mod d =? 0 then 0 else 1)%Z in
    binary_normalize 53 1024 (cond_Zopp neg (2 * q + sticky))%Z (- k - 1)%Z false.

(** An optional minus sign. *)
Definition sign (s : jsstring) : bool * jsstring :=
  match s with
  | c :: r => if c =? 45 then (true, r) else (false, s)
  | [] => (false, s)
  end.

(** The integer part: a single 0, or a non-zero digit followed by
    digits. *)
Definition int_part (s : jsstring) : option (N * jsstring) :=
  match s with
  | c :: r =>
      if c =? 48 then Some (0, r)
      else if is_digit c then
        let '(m, _, r') := digits s 0 0%nat in Some (m, r')
      else None
  | [] => None
  end.

(** An optional fraction, a point and one or more digits: the digits
    extend the mantissa [m]; their number is returned with it. *)
Definition frac_part (m : N) (s : jsstring) : option (N * Z * jsstring) :=
  match s with
  | c :: r =>
      if c =? 46 then
        let '(m', n, r') := digits r m 0%nat in
        match n with
        | O => None
        | _ => Some (m', Z.of_nat n, r')
        end
      else Some (m, 0%Z, s)
  | [] => Some (m, 0%Z, s)
  end.

(** The sign of an exponent: an optional minus or plus. *)
Definition exp_sign (s : jsstring) : bool * jsstring :=
  match s with
  | c :: r =>
      if c =? 45 then (true, r)
      else if c =? 43 then (false, r)
      else (false, s)
  | [] => (false, s)
  end.

(** An optional exponent: e or E, an optional sign, one or more digits. *)
Definition exp_part (s : jsstring) : option (Z * jsstring) :=
  match s with
  | c :: r =>
      if (c =? 101) || (c =? 69) then
        let '(eneg, r1) := exp_sign r in
        let '(x, n, r2) := digits r1 0 0%nat in
        match n with
        | O => None
        | _ => Some (cond_Zopp eneg (Z.of_N x), r2)
        end
      else Some (0%Z, s)
  | [] => Some (0%Z, s)
  end.

(** A number literal: sign, integer part, fraction, exponent. *)
Definition number_literal (s : jsstring) : option (JsValue * jsstring) :=
  let '(neg, s1) := sign s in
  match int_part s1 with
  | None => None
  | Some (m, s2) =>
      match frac_part m s2 with
      | None => None
      | Some (m', nfrac, s3) =>
          match exp_part s3 with
          | None => None
          | Some (x, s4) =>
              Some (JsNumber (decimal_to_number neg m' (x - nfrac)%Z), s4)
          end
      end
  end.

(** A value at the head of [s] (white space already skipped) and the
    text after it.  [fuel] bounds the depth of the recursion; twice the
    length of the text is always enough ([JSONFacts.value_fuel]). *)
Fixpoint value (fuel : nat) (s : jsstring) : option (JsValue * jsstring) :=
  match fuel with
  | O => None
  | S fuel' =>
      match s with
      | [] => None
      | c :: rest =>
          if c =? 110 then
            option_map (pair JsNull) (strip_prefix (lit "null") s)
          else if c =? 116 then
            option_map (pair (JsBool true)) (strip_prefix (lit "true") s)
          else if c =? 102 then
            option_map (pair (JsBool false)) (strip_prefix (lit "false") s)
          else if c =? 34 then
            match string_chars rest [] with
            | Some (str, r) => Some (JsString str, r)
            | None => None
            end
          else if c =? 91 then
            match skip_ws rest with
            | [] => None
            | c' :: r => if c' =? 93 then Some (JsArray [], r)
                         else elements fuel' (c' :: r) []
            end
          else if c =? 123 then
            match skip_ws rest with
            | [] => None
            | c' :: r => if c' =? 125 then Some (JsObject [], r)
                         else members fuel' (c' :: r) []
            end
          else number_literal s
      end
  end
with elements (fuel : nat) (s : jsstring) (acc : list JsValue)
  : option (JsValue * jsstring) :=
  match fuel with
  | O => None
  | S fuel' =>
      match value fuel' s with
      | Some (v, r) =>
          match skip_ws r with
          | c :: r' =>
              if c =? 44 then elements fuel' (skip_ws r') (v :: acc)
              else if c =? 93 then Some (JsArray (rev (v :: acc)), r')
              else None
          | [] => None
          end
      | None => None
      end
  end
with members (fuel : nat) (s : jsstring) (acc : list (jsstring * JsValue))
  : option (JsValue * jsstring) :=
  match fuel with
  | O => None
  | S fuel' =>
      match s with
      | c :: r =>
          if c =? 34 then
            match string_chars r [] with
            | Some (k, r1) =>
                match skip_ws r1 with
                | c1 :: r2 =>
                    if c1 =? 58 then
                      match value fuel' (skip_ws r2) with
                      | Some (v, r3) =>
                          let acc' := define_property k v acc in
                          match skip_ws r3 with
                          | c3 :: r4 =>
                              if c3 =? 44 then members fuel' (skip_ws r4) acc'
                              else if c3 =? 125 then Some (JsObject acc', r4)
                              else None
                          | [] => None
                          end
                      | None => None
                      end
                    else None
                | [] => None
                end
            | None => None
            end
          else None
      | [] => None
      end
  end.

(** [JSON.parse(text)]: one value between optional white space, and
    nothing else; a SyntaxError otherwise. *)
Definition parse : JSONParser :=
  fun s =>
    match value (S (2 * List.length s)) (skip_ws s) with
    | Some (v, r) =>
        match skip_ws r with
        | [] => Normal v
        | _ :: _ => Throw SyntaxError
        end
    | None => Throw SyntaxError
    end.

End JSON.

(* ================================================================== *)
(** * Notions used by the statements *)
(* ================================================================== *)

(** [needle] occurs in [hay]. *)
Definition contains (needle hay : jsstring) : Prop :=
  exists pre post, hay = pre ++ needle ++ post.

(** The field [k] of a parsed body: only an object has fields. *)
Definition own_field (v : JsValue) (k : jsstring) : option JsValue :=
  match v with
  | JsObject props => lookup k props
  | _ => None
  end.

Definition truthy_field (v : JsValue) (k : jsstring) : Prop :=
  exists x, own_field v k = Some x /\ ToBoolean x = true.

(** The parsed body contains a truthy [error] or [message] field. *)
Definition has_error_indicator (v : JsValue) : Prop :=
  truthy_field v (lit "error") \/ truthy_field v (lit "message").

(** A runtime at the start of a run. *)
Definition fresh_runtime : K6Runtime :=
  {| metrics := [ (lit "errors", []); (lit "success", []);
                  (lit "api_duration", []); (lit "failed_requests", []) ];
     check_results := [];
     console_error := [] |}.

Definition response (st : Z) (b : Body) (ms : Z) : K6Response :=
  {| status := st; body := b; timings := {| duration := number_of_Z ms |} |}.

(** The responses of the example scenarios. *)
Definition ok_response : K6Response :=
  response 200 (BString (litq "{'ok':true}")) 120.

Definition not_found_response : K6Response :=
  response 404 (BString []) 50.

Definition email_in_use_response : K6Response :=
  response 400 (BString (litq "{'message':'Email in use'}")) 80.

Definition empty_object_response : K6Response :=
  response 400 (BString (lit "{}")) 80.

Definition slow_response : K6Response :=
  response 200 (BString (lit "ok")) 900.

Definition not_json_response : K6Response :=
  response 400 (BString (lit "not json")) 80.

Definition null_body_response : K6Response :=
  response 400 BNull 80.

Definition html_response : K6Response :=
  response 400 (BString (lit "<html>Bad Request</html>")) 80.

(** A server error with a body of 1000 characters. *)
Definition long_body : jsstring := repeat 120%N 1000.

Definition long_body_response : K6Response :=
  response 500 (BString long_body) 80.

(* ================================================================== *)
(** * More of the runtime: conversions, padding, plain objects *)
(* ================================================================== *)

(** [parts.join(sep)] *)
Fixpoint join (sep : jsstring) (parts : list jsstring) : jsstring :=
  match parts with
  | [] => []
  | [p] => p
  | p :: rest => p ++ sep ++ join sep rest
  end.

(** [String(v)] and [`${v}`] for any value made of what [JSON.parse] can
    return (no functions, no symbols).  How a number is written is left
    to the runtime ([num]).  An array joins the texts of its elements with
    commas, [null] and [undefined] elements giving nothing.  A plain
    object answers through the inherited [toString], unless it has an own
    property of that name: that property is no function, so the
    conversion goes on to [valueOf], which is either such an own property
    too or the inherited one, which returns the object itself, and ends
    in a TypeError. *)
Fixpoint ToString (num : number -> jsstring) (v : JsValue) : Completion jsstring :=
  match v with
  | JsUndefined => Normal (lit "undefined")
  | JsNull => Normal (lit "null")
  | JsBool true => Normal (lit "true")
  | JsBool false => Normal (lit "false")
  | JsNumber x => Normal (num x)
  | JsString s => Normal s
  | JsArray elements =>
      match
        (fix texts (es : list JsValue) : Completion (list jsstring) :=
           match es with
           | [] => Normal []
           | e :: rest =>
               match (match e with
                      | JsUndefined | JsNull => Normal []
                      | _ => ToString num e
                      end) with
               | Normal t =>
                   match texts rest with
                   | Normal ts => Normal (t :: ts)
                   | Throw err => Throw err
                   end
               | Throw err => Throw err
               end
           end) elements
      with
      | Normal ts => Normal (join (lit ",") ts)
      | Throw err => Throw err
      end
  | JsObject props =>
      match lookup (lit "toString") props with
      | Some _ => Throw TypeError
      | None => Normal (lit "[object Object]")
      end
  end.

(** [s.padStart(n, '0')] and [s.padEnd(n)]: a string already [n] long or
    longer is returned as it is. *)
Definition padStart0 (n : nat) (s : jsstring) : jsstring :=
  repeat 48%N (n - List.length s) ++ s.

Definition padEnd (n : nat) (s : jsstring) : jsstring :=
  s ++ repeat 32%N (n - List.length s).

(** [s.toLowerCase()] on the letters A to Z; it is applied below to the
    names of the constant tables only, which are ASCII. *)
Definition toLowerCase (s : jsstring) : jsstring :=
  List.map (fun c => if (65 <=? c)%N && (c <=? 90)%N then (c + 32)%N else c) s.

(** The names every plain object inherits from [Object.prototype]; each
    holds a function or, for [__proto__], the prototype itself: all
    truthy. *)
Definition Object_prototype_keys : list jsstring :=
  [ lit "constructor"; lit "hasOwnProperty"; lit "isPrototypeOf";
    lit "propertyIsEnumerable"; lit "toLocaleString"; lit "toString";
    lit "valueOf"; lit "__defineGetter__"; lit "__defineSetter__";
    lit "__lookupGetter__"; lit "__lookupSetter__"; lit "__proto__" ].

(** Truthiness of [data[field]] for a plain object [data] given by its own
    properties: the own property when there is one, else what
    [Object.prototype] provides, else [undefined]. *)
Definition truthy_at (data : list (jsstring * JsValue)) (field : jsstring) : bool :=
  match lookup field data with
  | Some v => ToBoolean v
  | None => existsb (jsstring_eqb field) Object_prototype_keys
  end.

(* ================================================================== *)
(** * More constants ([src/constants]) *)
(* ================================================================== *)

Module HTTP_HEADERS.
Definition CONTENT_TYPE : jsstring := lit "Content-Type".
Definition AUTHORIZATION : jsstring := lit "Authorization".
Definition ACCEPT : jsstring := lit "Accept".
End HTTP_HEADERS.

Module CONTENT_TYPE.
Definition JSON : jsstring := lit "application/json".
Definition TEXT : jsstring := lit "text/plain".
End CONTENT_TYPE.

Module API_ENDPOINTS.
Definition USERS : jsstring := lit "/users".
Definition USERS_LOGIN : jsstring := lit "/users/login".
Definition USERS_LOGOUT : jsstring := lit "/users/logout".
Definition USERS_ME : jsstring := lit "/users/me".
Definition CONTACTS : jsstring := lit "/contacts".
(** [(id: string) => `/contacts/${id}`] *)
Definition CONTACT_BY_ID (id : jsstring) : jsstring := lit "/contacts/" ++ id.
End API_ENDPOINTS.

Module TEST_CONFIG_more.
Definition DEFAULT_PASSWORD_LENGTH : Z := 12.
Definition DEFAULT_CONTACTS_COUNT : Z := 5.
(** 0.5 *)
Definition DEFAULT_SHORT_SLEEP : number := S754_finite false 4503599627370496 (-53).
Definition DEFAULT_MEDIUM_SLEEP : number := number_of_Z 1.
End TEST_CONFIG_more.

Module TEST_DATA.
Definition FIRST_NAMES : list jsstring :=
  [ lit "John"; lit "Jane"; lit "Michael"; lit "Sarah"; lit "David";
    lit "Emily"; lit "Robert"; lit "Lisa"; lit "James"; lit "Mary" ].
Definition LAST_NAMES : list jsstring :=
  [ lit "Smith"; lit "Johnson"; lit "Williams"; lit "Brown"; lit "Jones";
    lit "Garcia"; lit "Miller"; lit "Davis"; lit "Rodriguez"; lit "Martinez" ].
Definition CITIES : list jsstring :=
  [ lit "New York"; lit "Los Angeles"; lit "Chicago"; lit "Houston"; lit "Phoenix" ].
Definition STATES : list jsstring :=
  [ lit "NY"; lit "CA"; lit "IL"; lit "TX"; lit "AZ" ].
Definition PHONE_PREFIX : jsstring := lit "555".
Definition EMAIL_DOMAIN : jsstring := lit "@example.com".
Definition COUNTRY : jsstring := lit "USA".
End TEST_DATA.

Module VALIDATION_MESSAGES.
Definition MISSING_TOKEN : jsstring := lit "Authentication token is required".
Definition MISSING_CONTACT_ID : jsstring := lit "Contact ID is required".
Definition INVALID_RESPONSE_BODY : jsstring := lit "Response body is invalid or empty".
Definition FAILED_TO_PARSE_JSON : jsstring := lit "Failed to parse JSON response".
End VALIDATION_MESSAGES.

Module LOG_MESSAGES.
Definition USER_REGISTERED : jsstring := lit "User registered successfully".
Definition USER_LOGGED_IN : jsstring := lit "User logged in successfully".
Definition USER_LOGGED_OUT : jsstring := lit "User logged out successfully".
Definition CONTACT_CREATED : jsstring := lit "Contact created successfully".
Definition CONTACT_UPDATED : jsstring := lit "Contact updated successfully".
Definition CONTACT_DELETED : jsstring := lit "Contact deleted successfully".
Definition CONTACTS_RETRIEVED : jsstring := lit "Contacts retrieved successfully".
End LOG_MESSAGES.

(* ================================================================== *)
(** * ValidatorService, the validators of data
      ([src/services/validator.service.ts]) *)
(* ================================================================== *)

(** [interface ValidationResult { success: boolean; message?: string }] *)
Record ValidationResult : Type := {
  success : bool;
  message : option jsstring
}.

Module ValidatorServiceData.

(** [validateRequired(data, requiredFields)]: the loop returns at the
    first field whose value in [data] is falsy. *)
Fixpoint validateRequired (data : list (jsstring * JsValue))
    (requiredFields : list jsstring) : ValidationResult :=
  match requiredFields with
  | [] => {| success := true; message := None |}
  | field :: rest =>
      if negb (truthy_at data field)
      then {| success := false;
              message := Some (lit "Required field '" ++ field ++ lit "' is missing") |}
      else validateRequired data rest
  end.

(** [validateToken(token)] *)
Definition validateToken (token : JsValue) : ValidationResult :=
  if negb (ToBoolean token)
  then {| success := false; message := Some VALIDATION_MESSAGES.MISSING_TOKEN |}
  else {| success := true; message := None |}.

(** [validateResponseBody(response)] *)
Definition validateResponseBody (response : K6Response) : ValidationResult :=
  if negb (Body_truthy (body response))
     || (List.length (String_ (body response)) =? 0)%nat
  then {| success := false;
          message := Some VALIDATION_MESSAGES.INVALID_RESPONSE_BODY |}
  else {| success := true; message := None |}.

End ValidatorServiceData.

(* ================================================================== *)
(** * A test script and its environment *)
(* ================================================================== *)

Inductive Method : Type := GET | POST | PUT | PATCH | DELETE.

(** A request as handed to k6's [http]: the body is a string, or [null]
    or [undefined] for none. *)
Record Request : Type := {
  method : Method;
  url : jsstring;
  payload : JsValue;
  headers : list (jsstring * jsstring)
}.

(** What a run takes from outside: environment variables and
    configuration, the clock, the random generator, the server, and the
    built-ins whose results are not computed here.  A reading of the clock
    or of the generator is given by its rank among the readings of the
    run; the answer of the server by the requests made so far, so that it
    may depend on everything the script has sent. *)
Record Environment : Type := {
  (** [__ENV.DEBUG], when it is set *)
  ENV_DEBUG : option jsstring;
  (** [config.baseUrl] *)
  config_baseUrl : jsstring;
  (** [new Date().toISOString()] *)
  Date_toISOString : nat -> jsstring;
  (** [Date.now()], in milliseconds *)
  Date_now : nat -> Z;
  (** [Math.random()] is at least 0 and below 1, so that
      [Math.floor(Math.random() * n)] is an integer from 0 to [n - 1]:
      the draw is this number modulo [n] *)
  Math_random : nat -> N;
  (** [Math.random().toString(36)] *)
  Math_random_toString36 : nat -> jsstring;
  (** the response to the last of the requests, after the others *)
  http_response : list Request -> K6Response;
  JSON_parse_builtin : JSONParser;
  (** [JSON.stringify(v)] and [JSON.stringify(v, null, 2)]: a string, or
      [undefined] *)
  JSON_stringify : JsValue -> JsValue;
  JSON_stringify_indented : JsValue -> option jsstring;
  (** [String(x)] for a number *)
  Number_to_string : number -> jsstring
}.

(** What a virtual user does that takes time: a request, a pause. *)
Inductive Event : Type :=
| Sent (req : Request)
| Slept (t : number).

(** The state of a run: the k6 runtime of the validators, what was written
    to the other two streams of the console, the requests sent, the pauses
    taken, how often the clock and the random generator were read, and
    the requests and pauses once more in the order they happened. *)
Record World : Type := {
  runtime : K6Runtime;
  console_log : list jsstring;
  console_warn : list jsstring;
  requests : list Request;
  sleeps : list number;
  clock_reads : nat;
  random_draws : nat;
  events : list Event
}.

(** A piece of a test script. *)
Definition Script (A : Type) : Type := World -> Completion A * World.

#[export] Instance Monad_Script : Monad Script := {
  ret := fun A a w => (Normal a, w);
  bind := fun A B c k w =>
    match c w with
    | (Normal a, w') => k a w'
    | (Throw e, w') => (Throw e, w')
    end
}.

Definition raise {A : Type} (e : JsError) : Script A := fun w => (Throw e, w).

(** Code of the validators run inside a script. *)
Definition in_runtime {A : Type} (c : VU A) : Script A :=
  fun w =>
    let '(a, k') := c (runtime w) in
    (a, {| runtime := k'; console_log := console_log w;
           console_warn := console_warn w; requests := requests w;
           sleeps := sleeps w; clock_reads := clock_reads w;
           random_draws := random_draws w;
       events := events w |}).

(** An expression that may throw, evaluated inside a script. *)
Definition eval {A : Type} (c : Completion A) : Script A :=
  fun w => (c, w).

Module console_more.
Definition log (line : jsstring) : Script unit :=
  fun w => (Normal tt,
    {| runtime := runtime w; console_log := console_log w ++ [line];
       console_warn := console_warn w; requests := requests w;
       sleeps := sleeps w; clock_reads := clock_reads w;
       random_draws := random_draws w;
       events := events w |}).
Definition warn (line : jsstring) : Script unit :=
  fun w => (Normal tt,
    {| runtime := runtime w; console_log := console_log w;
       console_warn := console_warn w ++ [line]; requests := requests w;
       sleeps := sleeps w; clock_reads := clock_reads w;
       random_draws := random_draws w;
       events := events w |}).
End console_more.

(** k6's [sleep(t)] *)
Definition sleep (t : number) : Script unit :=
  fun w => (Normal tt,
    {| runtime := runtime w; console_log := console_log w;
       console_warn := console_warn w; requests := requests w;
       sleeps := sleeps w ++ [t]; clock_reads := clock_reads w;
       random_draws := random_draws w;
       events := events w ++ [Slept t] |}).

Definition tick_clock : Script nat :=
  fun w => (Normal (clock_reads w),
    {| runtime := runtime w; console_log := console_log w;
       console_warn := console_warn w; requests := requests w;
       sleeps := sleeps w; clock_reads := S (clock_reads w);
       random_draws := random_draws w;
       events := events w |}).

Definition tick_random : Script nat :=
  fun w => (Normal (random_draws w),
    {| runtime := runtime w; console_log := console_log w;
       console_warn := console_warn w; requests := requests w;
       sleeps := sleeps w; clock_reads := clock_reads w;
       random_draws := S (random_draws w);
       events := events w |}).

(** [Math.floor(Math.random() * n)] *)
Definition random_below (env : Environment) (n : N) : Script N :=
  i <- tick_random ;;
  ret (if n =? 0 then 0 else Math_random env i mod n)%N.

(** k6's [http.get], [http.post], [http.put], [http.patch], [http.del]:
    the request goes out and the response of the server comes back. *)
Definition http_request (env : Environment) (req : Request) : Script K6Response :=
  fun w =>
    let sent := requests w ++ [req] in
    (Normal (http_response env sent),
     {| runtime := runtime w; console_log := console_log w;
        console_warn := console_warn w; requests := sent;
        sleeps := sleeps w; clock_reads := clock_reads w;
        random_draws := random_draws w;
        events := events w ++ [Sent req] |}).

(* ================================================================== *)
(** * LoggerService, the other methods
      ([src/services/logger.service.ts]) *)
(* ================================================================== *)

Module LoggerServiceLog.

Definition information_mark : jsstring := [8505%N; 65039%N].
Definition check_mark : jsstring := [9989%N].
Definition warning_mark : jsstring := [9888%N; 65039%N].
Definition test_tube : jsstring := [55358%N; 56810%N].
Definition magnifier : jsstring := [55357%N; 56589%N].
Definition double_line : jsstring := [9552%N].
Definition double_bar : jsstring := [9553%N].
Definition play_mark : jsstring := [9654%N; 65039%N].
Definition light_line : jsstring := [9472%N].

(** [context ? ` [${context}]` : ''] *)
Definition contextStr (context : option jsstring) : jsstring :=
  match context with
  | Some c => if negb (jsstring_eqb c []) then lit " [" ++ c ++ lit "]" else []
  | None => []
  end.

(** [getTimestamp()] *)
Definition getTimestamp (env : Environment) : Script jsstring :=
  n <- tick_clock ;;
  ret (Date_toISOString env n).

(** [info(message, context?)] *)
Definition info (env : Environment) (message : jsstring)
    (context : option jsstring) : Script unit :=
  timestamp <- getTimestamp env ;;
  console_more.log (lit "[" ++ timestamp ++ lit "]" ++ contextStr context
                      ++ lit " " ++ information_mark ++ lit "  " ++ message).

(** [success(message, context?)] *)
Definition success (message : jsstring) (context : option jsstring) : Script unit :=
  console_more.log (contextStr context ++ lit " " ++ check_mark ++ lit " " ++ message).

(** [error(message, context?)], inside a script *)
Definition error (message : jsstring) (context : option jsstring) : Script unit :=
  in_runtime (LoggerService.error message context).

(** [warn(message, context?)] *)
Definition warn (message : jsstring) (context : option jsstring) : Script unit :=
  console_more.warn (contextStr context ++ lit " " ++ warning_mark ++ lit "  " ++ message).

(** [test(testName, details?)] *)
Definition test (env : Environment) (testName : jsstring)
    (details : option jsstring) : Script unit :=
  timestamp <- getTimestamp env ;;
  let detailsStr :=
    match details with
    | Some d => if negb (jsstring_eqb d []) then lit " " ++ d else []
    | None => []
    end in
  console_more.log (lit "[" ++ timestamp ++ lit "] " ++ test_tube ++ lit " "
                      ++ testName ++ detailsStr).

(** [console.log(text)] for the result of [JSON.stringify]: the string,
    or the word [undefined] *)
Definition log_value (text : option jsstring) : Script unit :=
  console_more.log (match text with
                    | Some t => t
                    | None => lit "undefined"
                    end).

(** [debug(message, data?)] *)
Definition debug (env : Environment) (message : jsstring)
    (data : option JsValue) : Script unit :=
  match ENV_DEBUG env with
  | Some d =>
      if jsstring_eqb d (lit "true") then
        timestamp <- getTimestamp env ;;
        console_more.log (lit "[" ++ timestamp ++ lit "] " ++ magnifier
                            ++ lit " " ++ message) ;;;
        match data with
        | Some v =>
            if ToBoolean v then log_value (JSON_stringify_indented env v)
            else ret tt
        | None => ret tt
        end
      else ret tt
  | None => ret tt
  end.

(** [char.repeat(length)] for an integer [length]: a negative count is a
    RangeError. *)
Definition String_repeat (char : jsstring) (length : Z) : Completion jsstring :=
  if (length <? 0)%Z then Throw RangeError
  else Normal (List.concat (repeat char (Z.to_nat length))).

(** [separator(char = double line, length = 60)] *)
Definition separator (char : option jsstring) (length : option Z) : Script unit :=
  let char := match char with Some c => c | None => double_line end in
  let length := default_param length 60 in
  line <- eval (String_repeat char length) ;;
  console_more.log line.

(** [header(title)] *)
Definition header (title : jsstring) : Script unit :=
  separator (Some double_line) None ;;;
  console_more.log (double_bar ++ lit "  " ++ padEnd 56 title ++ lit "  " ++ double_bar) ;;;
  separator (Some double_line) None.

(** [section(title)] *)
Definition section (title : jsstring) : Script unit :=
  console_more.log [] ;;;
  console_more.log (play_mark ++ lit "  " ++ title) ;;;
  line <- eval (String_repeat light_line 60) ;;
  console_more.log line.

End LoggerServiceLog.

(* ================================================================== *)
(** * SleepUtil ([src/utils/sleep.util.ts]) *)
(* ================================================================== *)

Module SleepUtil.
(** [short()] *)
Definition short : Script unit := sleep TEST_CONFIG_more.DEFAULT_SHORT_SLEEP.
(** [medium()] *)
Definition medium : Script unit := sleep TEST_CONFIG_more.DEFAULT_MEDIUM_SLEEP.
(** [for(seconds)] *)
Definition for_ (seconds : number) : Script unit := sleep seconds.
End SleepUtil.

(* ================================================================== *)
(** * HttpService ([src/services/http.service.ts]) *)
(* ================================================================== *)

Module HttpService.

(** [getStandardHeaders()] *)
Definition getStandardHeaders : list (jsstring * jsstring) :=
  object_literal [ (HTTP_HEADERS.CONTENT_TYPE, CONTENT_TYPE.JSON) ].

(** [getAuthHeaders(token)]: the standard headers spread, then the
    authorization. *)
Definition getAuthHeaders (token : jsstring) : list (jsstring * jsstring) :=
  object_literal
    (getStandardHeaders
       ++ [ (HTTP_HEADERS.AUTHORIZATION, lit "Bearer " ++ token) ]).

(** [token ? this.getAuthHeaders(token) : this.getStandardHeaders()] for
    an optional string [token] *)
Definition headers_for (token : option jsstring) : list (jsstring * jsstring) :=
  match token with
  | Some t => if negb (jsstring_eqb t []) then getAuthHeaders t
              else getStandardHeaders
  | None => getStandardHeaders
  end.

(** The headers as a value, for [{ headers }] and [{ headers, body }]. *)
Definition headers_value (h : list (jsstring * jsstring)) : JsValue :=
  JsObject (List.map (fun kv => (fst kv, JsString (snd kv))) h).

(** [get(url, token?)] *)
Definition get (env : Environment) (url : jsstring) (token : option jsstring)
  : Script K6Response :=
  let headers := headers_for token in
  LoggerServiceLog.debug env (lit "GET " ++ url)
    (Some (JsObject (object_literal [ (lit "headers", headers_value headers) ]))) ;;;
  http_request env
    {| method := GET; url := url; payload := JsUndefined; headers := headers |}.

(** [post(url, payload, token?)]: a falsy payload is sent as [null]. *)
Definition post (env : Environment) (url : jsstring) (payload : JsValue)
    (token : option jsstring) : Script K6Response :=
  let headers := headers_for token in
  let body := if ToBoolean payload then JSON_stringify env payload else JsNull in
  LoggerServiceLog.debug env (lit "POST " ++ url)
    (Some (JsObject (object_literal [ (lit "headers", headers_value headers);
                                      (lit "body", body) ]))) ;;;
  http_request env
    {| method := POST; url := url; payload := body; headers := headers |}.

(** [put(url, payload, token?)] *)
Definition put (env : Environment) (url : jsstring) (payload : JsValue)
    (token : option jsstring) : Script K6Response :=
  let headers := headers_for token in
  let body := JSON_stringify env payload in
  LoggerServiceLog.debug env (lit "PUT " ++ url)
    (Some (JsObject (object_literal [ (lit "headers", headers_value headers);
                                      (lit "body", body) ]))) ;;;
  http_request env
    {| method := PUT; url := url; payload := body; headers := headers |}.

(** [patch(url, payload, token?)] *)
Definition patch (env : Environment) (url : jsstring) (payload : JsValue)
    (token : option jsstring) : Script K6Response :=
  let headers := headers_for token in
  let body := JSON_stringify env payload in
  LoggerServiceLog.debug env (lit "PATCH " ++ url)
    (Some (JsObject (object_literal [ (lit "headers", headers_value headers);
                                      (lit "body", body) ]))) ;;;
  http_request env
    {| method := PATCH; url := url; payload := body; headers := headers |}.

(** [delete(url, token?)] *)
Definition delete (env : Environment) (url : jsstring) (token : option jsstring)
  : Script K6Response :=
  let headers := headers_for token in
  LoggerServiceLog.debug env (lit "DELETE " ++ url)
    (Some (JsObject (object_literal [ (lit "headers", headers_value headers) ]))) ;;;
  http_request env
    {| method := DELETE; url := url; payload := JsNull; headers := headers |}.

(** [parseJsonResponse(response)]:
    [try { return JSON.parse(String(response.body)); }
     catch (error) { LoggerService.error(...); return null; }] *)
Definition parseJsonResponse (JSON_parse : JSONParser) (response : K6Response)
  : VU JsValue :=
  match JSON_parse (String_ (body response)) with
  | Normal v => ret v
  | Throw _ =>
      LoggerService.error
        (lit "Failed to parse JSON response: " ++ String_ (body response)) None ;;;
      ret JsNull
  end.

End HttpService.

(* ================================================================== *)
(** * The API clients ([src/api/user.api.ts], [src/api/contact.api.ts]) *)
(* ================================================================== *)

Module UserAPI.

(** [register(userData)] *)
Definition register (env : Environment) (userData : JsValue) : Script K6Response :=
  HttpService.post env (config_baseUrl env ++ API_ENDPOINTS.USERS) userData None.

(** [login(email, password)] *)
Definition login (env : Environment) (email password : jsstring)
  : Script K6Response :=
  let credentials :=
    JsObject (object_literal [ (lit "email", JsString email);
                               (lit "password", JsString password) ]) in
  HttpService.post env (config_baseUrl env ++ API_ENDPOINTS.USERS_LOGIN)
    credentials None.

(** [getProfile(token)] *)
Definition getProfile (env : Environment) (token : jsstring) : Script K6Response :=
  HttpService.get env (config_baseUrl env ++ API_ENDPOINTS.USERS_ME) (Some token).

(** [updateProfile(token, userData)] *)
Definition updateProfile (env : Environment) (token : jsstring)
    (userData : JsValue) : Script K6Response :=
  HttpService.patch env (config_baseUrl env ++ API_ENDPOINTS.USERS_ME) userData
    (Some token).

(** [logout(token)] *)
Definition logout (env : Environment) (token : jsstring) : Script K6Response :=
  HttpService.post env (config_baseUrl env ++ API_ENDPOINTS.USERS_LOGOUT) JsNull
    (Some token).

(** [deleteAccount(token)] *)
Definition deleteAccount (env : Environment) (token : jsstring)
  : Script K6Response :=
  HttpService.delete env (config_baseUrl env ++ API_ENDPOINTS.USERS_ME) (Some token).

End UserAPI.

Module ContactAPI.

(** The URL of one contact; the identifier is written into the path as
    a template literal writes any value, which throws for a value that
    has no text. *)
Definition contact_url (env : Environment) (contactId : JsValue)
  : Completion jsstring :=
  id <- ToString (Number_to_string env) contactId ;;
  ret (config_baseUrl env ++ API_ENDPOINTS.CONTACT_BY_ID id).

(** [getAll(token)] *)
Definition getAll (env : Environment) (token : jsstring) : Script K6Response :=
  HttpService.get env (config_baseUrl env ++ API_ENDPOINTS.CONTACTS) (Some token).

(** [getById(token, contactId)] *)
Definition getById (env : Environment) (token : jsstring) (contactId : JsValue)
  : Script K6Response :=
  url <- eval (contact_url env contactId) ;;
  HttpService.get env url (Some token).

(** [create(token, contactData)] *)
Definition create (env : Environment) (token : jsstring) (contactData : JsValue)
  : Script K6Response :=
  HttpService.post env (config_baseUrl env ++ API_ENDPOINTS.CONTACTS) contactData
    (Some token).

(** [update(token, contactId, contactData)] *)
Definition update (env : Environment) (token : jsstring) (contactId : JsValue)
    (contactData : JsValue) : Script K6Response :=
  url <- eval (contact_url env contactId) ;;
  HttpService.put env url contactData (Some token).

(** [partialUpdate(token, contactId, contactData)] *)
Definition partialUpdate (env : Environment) (token : jsstring)
    (contactId : JsValue) (contactData : JsValue) : Script K6Response :=
  url <- eval (contact_url env contactId) ;;
  HttpService.patch env url contactData (Some token).

(** [delete(token, contactId)] *)
Definition delete (env : Environment) (token : jsstring) (contactId : JsValue)
  : Script K6Response :=
  url <- eval (contact_url env contactId) ;;
  HttpService.delete env url (Some token).

End ContactAPI.

(* ================================================================== *)
(** * DataBuilderService ([src/services/data-builder.service.ts]) *)
(* ================================================================== *)

Module DataBuilderService.

(** [generateEmail(prefix?)]: the clock and the generator are read even
    when a prefix is given. *)
Definition generateEmail (env : Environment) (prefix : option jsstring)
  : Script jsstring :=
  n <- tick_clock ;;
  let timestamp := Date_now env n in
  i <- tick_random ;;
  let randomStr := skipn 7 (Math_random_toString36 env i) in
  let generated :=
    lit "test_" ++ Number_toString timestamp ++ lit "_" ++ randomStr in
  let emailPrefix :=
    match prefix with
    | Some p => if negb (jsstring_eqb p []) then p else generated
    | None => generated
    end in
  ret (emailPrefix ++ TEST_DATA.EMAIL_DOMAIN).

Definition chars : jsstring :=
  lit "ABCDEFGHIJKLMNOPQRSTUVWXYZabcdefghijklmnopqrstuvwxyz0123456789!@#$%^&*".

(** [s.charAt(i)] *)
Definition charAt (s : jsstring) (i : N) : jsstring :=
  match nth_error s (N.to_nat i) with
  | Some c => [c]
  | None => []
  end.

(** The loop of [generatePassword], with [n] rounds to go. *)
Fixpoint generatePassword_loop (env : Environment) (n : nat) (password : jsstring)
  : Script jsstring :=
  match n with
  | O => ret password
  | S n' =>
      i <- random_below env (N.of_nat (List.length chars)) ;;
      generatePassword_loop env n' (password ++ charAt chars i)
  end.

(** [generatePassword(length = DEFAULT_PASSWORD_LENGTH)] for an integer
    [length] *)
Definition generatePassword (env : Environment) (length : option Z)
  : Script jsstring :=
  let length := default_param length TEST_CONFIG_more.DEFAULT_PASSWORD_LENGTH in
  generatePassword_loop env (Z.to_nat length) [].

(** [getRandomItem(array)] *)
Definition getRandomItem (env : Environment) (array : list jsstring)
  : Script JsValue :=
  i <- random_below env (N.of_nat (List.length array)) ;;
  ret (match nth_error array (N.to_nat i) with
       | Some s => JsString s
       | None => JsUndefined
       end).

(** [generateBirthdate()] *)
Definition generateBirthdate (env : Environment) : Script jsstring :=
  y <- random_below env 50 ;;
  let year := 1950 + Z.of_N y in
  m <- random_below env 12 ;;
  let month := padStart0 2 (Number_toString (Z.of_N m + 1)) in
  d <- random_below env 28 ;;
  let day := padStart0 2 (Number_toString (Z.of_N d + 1)) in
  ret (Number_toString year ++ lit "-" ++ month ++ lit "-" ++ day).

(** [generatePhoneNumber()] *)
Definition generatePhoneNumber (env : Environment) : Script jsstring :=
  n <- random_below env 10000000 ;;
  let number := padStart0 7 (Number_toString (Z.of_N n)) in
  ret (TEST_DATA.PHONE_PREFIX ++ number).

(** [generateStreetAddress()] *)
Definition generateStreetAddress (env : Environment) : Script jsstring :=
  n <- random_below env 9999 ;;
  ret (Number_toString (Z.of_N n + 1) ++ lit " Main St").

(** [generateApartment()] *)
Definition generateApartment (env : Environment) : Script jsstring :=
  n <- random_below env 999 ;;
  ret (lit "Apt " ++ Number_toString (Z.of_N n + 1)).

(** [generatePostalCode()] *)
Definition generatePostalCode (env : Environment) : Script jsstring :=
  n <- random_below env 90000 ;;
  ret (Number_toString (Z.of_N n + 10000)).

(** [...overrides]: the own properties of the overrides, none when they
    are left out. *)
Definition spread (overrides : option (list (jsstring * JsValue)))
  : list (jsstring * JsValue) :=
  match overrides with
  | Some props => props
  | None => []
  end.

(** [name.toLowerCase()] for an item drawn from a table *)
Definition lower (name : JsValue) : Completion jsstring :=
  match name with
  | JsString s => Normal (toLowerCase s)
  | _ => Throw TypeError
  end.

(** [buildUser(overrides?)] *)
Definition buildUser (env : Environment)
    (overrides : option (list (jsstring * JsValue))) : Script JsValue :=
  firstName <- getRandomItem env TEST_DATA.FIRST_NAMES ;;
  lastName <- getRandomItem env TEST_DATA.LAST_NAMES ;;
  email <- generateEmail env None ;;
  password <- generatePassword env None ;;
  ret (JsObject (object_literal
         ([ (lit "firstName", firstName);
            (lit "lastName", lastName);
            (lit "email", JsString email);
            (lit "password", JsString password) ]
          ++ spread overrides))).

(** [buildContact(overrides?)] *)
Definition buildContact (env : Environment)
    (overrides : option (list (jsstring * JsValue))) : Script JsValue :=
  firstName <- getRandomItem env TEST_DATA.FIRST_NAMES ;;
  lastName <- getRandomItem env TEST_DATA.LAST_NAMES ;;
  birthdate <- generateBirthdate env ;;
  first <- eval (lower firstName) ;;
  last <- eval (lower lastName) ;;
  let email := first ++ lit "." ++ last ++ TEST_DATA.EMAIL_DOMAIN in
  phone <- generatePhoneNumber env ;;
  street1 <- generateStreetAddress env ;;
  street2 <- generateApartment env ;;
  city <- getRandomItem env TEST_DATA.CITIES ;;
  stateProvince <- getRandomItem env TEST_DATA.STATES ;;
  postalCode <- generatePostalCode env ;;
  ret (JsObject (object_literal
         ([ (lit "firstName", firstName);
            (lit "lastName", lastName);
            (lit "birthdate", JsString birthdate);
            (lit "email", JsString email);
            (lit "phone", JsString phone);
            (lit "street1", JsString street1);
            (lit "street2", JsString street2);
            (lit "city", city);
            (lit "stateProvince", stateProvince);
            (lit "postalCode", JsString postalCode);
            (lit "country", JsString TEST_DATA.COUNTRY) ]
          ++ spread overrides))).

(** [Array.from({ length: count }, () => this.buildContact())] with
    [n] items to go *)
Fixpoint buildContacts_from (env : Environment) (n : nat) : Script (list JsValue) :=
  match n with
  | O => ret []
  | S n' =>
      c <- buildContact env None ;;
      rest <- buildContacts_from env n' ;;
      ret (c :: rest)
  end.

(** [buildContacts(count)] for an integer [count].  [Array.from] first
    makes an array of that length, none for a negative count, and an
    array cannot be longer than 2^32 - 1: a RangeError, before any
    contact is built. *)
Definition buildContacts (env : Environment) (count : Z) : Script (list JsValue) :=
  if 4294967295 <? count then raise RangeError
  else buildContacts_from env (Z.to_nat count).

End DataBuilderService.

(* ================================================================== *)
(** * AuthHelper ([src/helpers/auth.helper.ts]) *)
(* ================================================================== *)

Module AuthHelper.

(** [interface AuthResult] *)
Record AuthResult : Type := {
  success : bool;
  token : JsValue;
  userId : JsValue;
  user : option JsValue
}.

Definition failed : AuthResult :=
  {| success := false; token := JsNull; userId := JsNull; user := None |}.

(** [registerAndLogin(userData?)] *)
Definition registerAndLogin (env : Environment) (userData : option JsValue)
  : Script AuthResult :=
  user <- match userData with
          | Some u => if ToBoolean u then ret u
                      else DataBuilderService.buildUser env None
          | None => DataBuilderService.buildUser env None
          end ;;
  email <- eval (Get user (lit "email")) ;;
  emailText <- eval (ToString (Number_to_string env) email) ;;
  LoggerServiceLog.test env (lit "User Registration")
    (Some (lit "- Email: " ++ emailText)) ;;;
  registerResponse <- UserAPI.register env user ;;
  ok <- in_runtime (ValidatorService.validateResponse registerResponse
                      (lit "User Registration") (Some HTTP_STATUS.CREATED)) ;;
  if negb ok then
    LoggerServiceLog.error (lit "Failed to register user") None ;;;
    ret failed
  else
    responseData <- in_runtime (HttpService.parseJsonResponse
                                  (JSON_parse_builtin env) registerResponse) ;;
    missing <- (if negb (ToBoolean responseData) then ret true
                else t <- eval (Get responseData (lit "token")) ;;
                     ret (negb (ToBoolean t))) ;;
    if (missing : bool) then
      LoggerServiceLog.error (lit "Registration response missing token") None ;;;
      ret failed
    else
      u <- eval (Get responseData (lit "user")) ;;
      id <- eval (Get u (lit "_id")) ;;
      idText <- eval (ToString (Number_to_string env) id) ;;
      LoggerServiceLog.success
        (LOG_MESSAGES.USER_REGISTERED ++ lit " - ID: " ++ idText) None ;;;
      t <- eval (Get responseData (lit "token")) ;;
      u' <- eval (Get responseData (lit "user")) ;;
      id' <- eval (Get u' (lit "_id")) ;;
      ret {| success := true; token := t; userId := id'; user := Some user |}.

(** [login(email, password)] *)
Definition login (env : Environment) (email password : jsstring)
  : Script AuthResult :=
  LoggerServiceLog.test env (lit "User Login") (Some (lit "- Email: " ++ email)) ;;;
  loginResponse <- UserAPI.login env email password ;;
  ok <- in_runtime (ValidatorService.validateResponse loginResponse
                      (lit "User Login") (Some HTTP_STATUS.OK)) ;;
  if negb ok then
    LoggerServiceLog.error (lit "Failed to login user") None ;;;
    ret failed
  else
    responseData <- in_runtime (HttpService.parseJsonResponse
                                  (JSON_parse_builtin env) loginResponse) ;;
    missing <- (if negb (ToBoolean responseData) then ret true
                else t <- eval (Get responseData (lit "token")) ;;
                     ret (negb (ToBoolean t))) ;;
    if (missing : bool) then
      LoggerServiceLog.error (lit "Login response missing token") None ;;;
      ret failed
    else
      LoggerServiceLog.success LOG_MESSAGES.USER_LOGGED_IN None ;;;
      t <- eval (Get responseData (lit "token")) ;;
      u <- eval (Get responseData (lit "user")) ;;
      id <- eval (Get u (lit "_id")) ;;
      ret {| success := true; token := t; userId := id; user := None |}.

(** [logout(token)] *)
Definition logout (env : Environment) (token : jsstring) : Script bool :=
  LoggerServiceLog.test env (lit "User Logout") None ;;;
  logoutResponse <- UserAPI.logout env token ;;
  ok <- in_runtime (ValidatorService.validateResponse logoutResponse
                      (lit "User Logout") (Some HTTP_STATUS.OK)) ;;
  if negb ok then
    LoggerServiceLog.warn (lit "Logout failed but continuing") None ;;;
    ret false
  else
    LoggerServiceLog.success LOG_MESSAGES.USER_LOGGED_OUT None ;;;
    ret true.

End AuthHelper.

(* ================================================================== *)
(** * ContactHelper ([src/helpers/contact.helper.ts]) *)
(* ================================================================== *)

Module ContactHelper.

(** [interface ContactCreationResult] *)
Record ContactCreationResult : Type := {
  success : bool;
  contactIds : list JsValue;
  count : Z
}.

(** [contactData || DataBuilderService.buildContact()] *)
Definition contact_or_built (env : Environment) (contactData : option JsValue)
  : Script JsValue :=
  match contactData with
  | Some c => if ToBoolean c then ret c
              else DataBuilderService.buildContact env None
  | None => DataBuilderService.buildContact env None
  end.

(** [createOne(token, contactData?)]: the identifier, or [null] *)
Definition createOne (env : Environment) (token : jsstring)
    (contactData : option JsValue) : Script JsValue :=
  contact <- contact_or_built env contactData ;;
  response <- ContactAPI.create env token contact ;;
  ok <- in_runtime (ValidatorService.validateResponse response
                      (lit "Create Contact") (Some HTTP_STATUS.CREATED)) ;;
  if negb ok then ret JsNull
  else
    responseData <- in_runtime (HttpService.parseJsonResponse
                                  (JSON_parse_builtin env) response) ;;
    if negb (ToBoolean responseData) then ret JsNull
    else
      id <- eval (Get responseData (lit "_id")) ;;
      if negb (ToBoolean id) then ret JsNull
      else ret id.

(** The loop of [createMultiple], with [n] rounds to go. *)
Fixpoint createMultiple_loop (env : Environment) (token : jsstring) (n : nat)
    (contactIds : list JsValue) : Script (list JsValue) :=
  match n with
  | O => ret contactIds
  | S n' =>
      contactId <- createOne env token None ;;
      let contactIds :=
        if ToBoolean contactId then contactIds ++ [contactId] else contactIds in
      SleepUtil.short ;;;
      createMultiple_loop env token n' contactIds
  end.

(** [createMultiple(token, count = DEFAULT_CONTACTS_COUNT)] for an integer
    [count] *)
Definition createMultiple (env : Environment) (token : jsstring)
    (count : option Z) : Script ContactCreationResult :=
  let count := default_param count TEST_CONFIG_more.DEFAULT_CONTACTS_COUNT in
  LoggerServiceLog.test env (lit "Creating multiple contacts")
    (Some (lit "- Count: " ++ Number_toString count)) ;;;
  contactIds <- createMultiple_loop env token (Z.to_nat count) [] ;;
  let created := Z.of_nat (List.length contactIds) in
  let success := created =? count in
  (if success
   then LoggerServiceLog.success
          (LOG_MESSAGES.CONTACT_CREATED ++ lit " - Created "
             ++ Number_toString created ++ lit " contacts") None
   else LoggerServiceLog.warn
          (lit "Created " ++ Number_toString created ++ lit "/"
             ++ Number_toString count ++ lit " contacts") None) ;;;
  ret {| success := success; contactIds := contactIds; count := created |}.

(** [Array.isArray(v)] *)
Definition Array_isArray (v : JsValue) : bool :=
  match v with
  | JsArray _ => true
  | _ => false
  end.

(** [getAll(token)]: the array of contacts, or [null] *)
Definition getAll (env : Environment) (token : jsstring) : Script JsValue :=
  LoggerServiceLog.test env (lit "Get All Contacts") None ;;;
  response <- ContactAPI.getAll env token ;;
  ok <- in_runtime (ValidatorService.validateResponse response
                      (lit "Get All Contacts") (Some HTTP_STATUS.OK)) ;;
  if negb ok then ret JsNull
  else
    contacts <- in_runtime (HttpService.parseJsonResponse
                              (JSON_parse_builtin env) response) ;;
    match contacts with
    | JsArray items =>
        LoggerServiceLog.success
          (LOG_MESSAGES.CONTACTS_RETRIEVED ++ lit " - Count: "
             ++ Number_toString (Z.of_nat (List.length items))) None ;;;
        ret contacts
    | _ =>
        LoggerServiceLog.error (lit "Invalid contacts response") None ;;;
        ret JsNull
    end.

(** [getById(token, contactId)]: the contact, or [null] *)
Definition getById (env : Environment) (token : jsstring) (contactId : JsValue)
  : Script JsValue :=
  response <- ContactAPI.getById env token contactId ;;
  ok <- in_runtime (ValidatorService.validateResponse response
                      (lit "Get Contact by ID") (Some HTTP_STATUS.OK)) ;;
  if negb ok then ret JsNull
  else
    contact <- in_runtime (HttpService.parseJsonResponse
                             (JSON_parse_builtin env) response) ;;
    if negb (ToBoolean contact) then
      LoggerServiceLog.error (lit "Invalid contact response") None ;;;
      ret JsNull
    else ret contact.

(** [update(token, contactId, contactData?)] *)
Definition update (env : Environment) (token : jsstring) (contactId : JsValue)
    (contactData : option JsValue) : Script bool :=
  contact <- contact_or_built env contactData ;;
  response <- ContactAPI.update env token contactId contact ;;
  ok <- in_runtime (ValidatorService.validateResponse response
                      (lit "Update Contact (PUT)") (Some HTTP_STATUS.OK)) ;;
  if negb ok then ret false
  else
    LoggerServiceLog.success LOG_MESSAGES.CONTACT_UPDATED None ;;;
    ret true.

(** [partialUpdate(token, contactId, updates)] *)
Definition partialUpdate (env : Environment) (token : jsstring)
    (contactId : JsValue) (updates : JsValue) : Script bool :=
  response <- ContactAPI.partialUpdate env token contactId updates ;;
  ok <- in_runtime (ValidatorService.validateResponse response
                      (lit "Update Contact (PATCH)") (Some HTTP_STATUS.OK)) ;;
  if negb ok then ret false
  else
    LoggerServiceLog.success LOG_MESSAGES.CONTACT_UPDATED None ;;;
    ret true.

(** [deleteOne(token, contactId)] *)
Definition deleteOne (env : Environment) (token : jsstring) (contactId : JsValue)
  : Script bool :=
  response <- ContactAPI.delete env token contactId ;;
  ok <- in_runtime (ValidatorService.validateResponse response
                      (lit "Delete Contact") (Some HTTP_STATUS.OK)) ;;
  if negb ok then ret false else ret true.

(** The loop of [deleteMultiple] over the identifiers still to go. *)
Fixpoint deleteMultiple_loop (env : Environment) (token : jsstring)
    (contactIds : list JsValue) (deletedCount : Z) : Script Z :=
  match contactIds with
  | [] => ret deletedCount
  | contactId :: rest =>
      deleted <- deleteOne env token contactId ;;
      let deletedCount := if (deleted : bool) then deletedCount + 1
                          else deletedCount in
      SleepUtil.short ;;;
      deleteMultiple_loop env token rest deletedCount
  end.

(** [deleteMultiple(token, contactIds)] *)
Definition deleteMultiple (env : Environment) (token : jsstring)
    (contactIds : list JsValue) : Script Z :=
  LoggerServiceLog.test env (lit "Deleting contacts")
    (Some (lit "- Count: "
             ++ Number_toString (Z.of_nat (List.length contactIds)))) ;;;
  deletedCount <- deleteMultiple_loop env token contactIds 0 ;;
  LoggerServiceLog.success
    (LOG_MESSAGES.CONTACT_DELETED ++ lit " - Deleted "
       ++ Number_toString deletedCount ++ lit " contact(s)") None ;;;
  ret deletedCount.

(** [contacts.map(c => c._id)]: reading [_id] of [null] or [undefined]
    throws. *)
Fixpoint ids_of (contacts : list JsValue) : Completion (list JsValue) :=
  match contacts with
  | [] => Normal []
  | c :: rest =>
      id <- Get c (lit "_id") ;;
      ids <- ids_of rest ;;
      ret (id :: ids)
  end.

(** [deleteAll(token)] *)
Definition deleteAll (env : Environment) (token : jsstring) : Script Z :=
  contacts <- getAll env token ;;
  match contacts with
  | JsArray (c :: items) =>
      contactIds <- eval (ids_of (c :: items)) ;;
      deleteMultiple env token contactIds
  | _ =>
      LoggerServiceLog.info env (lit "No contacts to delete") None ;;;
      ret 0
  end.

End ContactHelper.

(* ================================================================== *)
(** * The earlier helpers, continued ([src/utils/helpers.ts]) *)
(* ================================================================== *)

Module helpers_more.

(** [parseJsonResponse(response)]:
    [try { return JSON.parse(String(response.body)); }
     catch (e) { console.error(`Failed to parse JSON: ${response.body}`);
                 return null; }] *)
Definition parseJsonResponse (JSON_parse : JSONParser) (response : K6Response)
  : VU JsValue :=
  match JSON_parse (String_ (body response)) with
  | Normal v => ret v
  | Throw _ =>
      console.error (lit "Failed to parse JSON: " ++ String_ (body response)) ;;;
      ret JsNull
  end.

(** [getAuthHeaders(token)] *)
Definition getAuthHeaders (token : jsstring) : list (jsstring * jsstring) :=
  object_literal [ (lit "Content-Type", lit "application/json");
                   (lit "Authorization", lit "Bearer " ++ token) ].

(** [getHeaders()] *)
Definition getHeaders : list (jsstring * jsstring) :=
  object_literal [ (lit "Content-Type", lit "application/json") ].

End helpers_more.

(* ================================================================== *)
(** * Notions used by the statements about scripts *)
(* ================================================================== *)

(** The three criteria of [validateResponse] for an expected status. *)
Definition accepted (r : K6Response) (expectedStatus : Z) : bool :=
  (status r =? expectedStatus)
  && number_ltb (duration (timings r)) (number_of_Z 500)
  && (Body_not_null (body r) && (0 <? List.length (String_ (body r)))%nat).

(** [__ENV.DEBUG === 'true'] *)
Definition debug_on (env : Environment) : bool :=
  match ENV_DEBUG env with
  | Some d => jsstring_eqb d (lit "true")
  | None => false
  end.

(** The runtime after [validateResponse] has run on it. *)
Definition validated (r : K6Response) (name : jsstring) (expectedStatus : Z)
    (k : K6Runtime) : K6Runtime :=
  snd (ValidatorService.validateResponse r name (Some expectedStatus) k).

(** A world at the start of a run. *)
Definition fresh_world : World :=
  {| runtime := fresh_runtime; console_log := []; console_warn := [];
     requests := []; sleeps := []; clock_reads := 0; random_draws := 0;
     events := [] |}.


(** The request HttpService builds for a method, a path under the base
    URL, a body and an optional token. *)
Definition request_to (env : Environment) (m : Method) (path : jsstring)
    (body : JsValue) (token : option jsstring) : Request :=
  {| method := m;
     url := config_baseUrl env ++ path;
     payload := body;
     headers := HttpService.headers_for token |}.

(** ** A sample environment

    Debugging is off, the clock and the random generator are fixed, and
    the server answers every request with the same response.  The JSON
    text written by [sample_stringify] is exact for values made of
    strings without control characters, booleans, [null], arrays and
    objects; the samples hold no numbers. *)
Definition sample_quote (s : jsstring) : jsstring :=
  [34%N]
    ++ List.concat (List.map (fun c => if (c =? 34)%N || (c =? 92)%N
                                       then [92%N; c] else [c]) s)
    ++ [34%N].

Fixpoint sample_stringify (v : JsValue) : jsstring :=
  match v with
  | JsUndefined | JsNull | JsNumber _ => lit "null"
  | JsBool true => lit "true"
  | JsBool false => lit "false"
  | JsString s => sample_quote s
  | JsArray elements =>
      lit "[" ++ join (lit ",") (List.map sample_stringify elements) ++ lit "]"
  | JsObject props =>
      lit "{"
        ++ join (lit ",")
             (List.map (fun kv => sample_quote (fst kv) ++ lit ":"
                                    ++ sample_stringify (snd kv)) props)
        ++ lit "}"
  end.

Definition sample_env (answer : K6Response) : Environment :=
  {| ENV_DEBUG := None;
     config_baseUrl := lit "https://thinking-tester-contact-list.herokuapp.com";
     Date_toISOString := fun _ => lit "2024-01-01T00:00:00.000Z";
     Date_now := fun _ => 1704067200000;
     Math_random := fun n => N.of_nat (7 * n + 3);
     Math_random_toString36 := fun _ => lit "0.4fzyo82mvyr";
     http_response := fun _ => answer;
     JSON_parse_builtin := JSON.parse;
     JSON_stringify := fun v => JsString (sample_stringify v);
     JSON_stringify_indented := fun v => Some (sample_stringify v);
     Number_to_string := fun _ => lit "0" |}.

(** Answers of the server in the examples. *)
Definition login_ok_response : K6Response :=
  response 200 (BString (litq "{'user':{'_id':'u1','email':'a@b.c'},'token':'tok123'}")) 90.

Definition token_without_user_response : K6Response :=
  response 200 (BString (litq "{'token':'tok123'}")) 90.

Definition server_error_response : K6Response :=
  response 500 (BString (litq "{'error':'boom'}")) 90.

Definition contacts_with_null_response : K6Response :=
  response 200 (BString (litq "[{'_id':'c1'},null]")) 90.


(** The request of [AuthHelper.login]. *)
Definition register_ok_response : K6Response :=
  response 201 (BString (litq "{'user':{'_id':'u1','email':'a@b.c'},'token':'tok123'}")) 90.

(** The request that registers a user. *)
Definition register_request (env : Environment) (user : JsValue) : Request :=
  request_to env POST API_ENDPOINTS.USERS (JSON_stringify env user) None.

Definition two_contacts_response : K6Response :=
  response 200 (BString (litq "[{'_id':'c1'},{'_id':'c2'}]")) 90.

Definition login_request (env : Environment) (email password : jsstring) : Request :=
  request_to env POST API_ENDPOINTS.USERS_LOGIN
    (JSON_stringify env
       (JsObject (object_literal [ (lit "email", JsString email);
                                   (lit "password", JsString password) ])))
    None.

(** The request of [AuthHelper.logout]. *)
Definition logout_request (env : Environment) (token : jsstring) : Request :=
  request_to env POST API_ENDPOINTS.USERS_LOGOUT JsNull (Some token).

(** The request that deletes the contact whose identifier reads
    [contactId]. *)
Definition delete_request (env : Environment) (token : jsstring)
    (contactId : jsstring) : Request :=
  request_to env DELETE (API_ENDPOINTS.CONTACT_BY_ID contactId) JsNull (Some token).

(** The texts of a list of identifiers, as the URLs need them: the first
    identifier without a text makes the whole fail. *)
Fixpoint texts_of (env : Environment) (contactIds : list JsValue)
  : Completion (list jsstring) :=
  match contactIds with
  | [] => Normal []
  | contactId :: rest =>
      t <- ToString (Number_to_string env) contactId ;;
      ts <- texts_of env rest ;;
      ret (t :: ts)
  end.


(** The answers of the server to the DELETE requests for the identifiers
    [contactIds], sent one after the other once [sent] has gone out. *)
Fixpoint delete_answers (env : Environment) (token : jsstring)
    (contactIds : list jsstring) (sent : list Request) : list K6Response :=
  match contactIds with
  | [] => []
  | contactId :: rest =>
      let sent' := sent ++ [delete_request env token contactId] in
      http_response env sent' :: delete_answers env token rest sent'
  end.

(** The runtime after [validateResponse] has run on each of [answers] in
    turn. *)
Definition validated_all (answers : list K6Response) (name : jsstring)
    (expectedStatus : Z) (k : K6Runtime) : K6Runtime :=
  fold_left (fun k r => validated r name expectedStatus k) answers k.

(** How many of [answers] meet the three criteria. *)
Definition count_accepted (answers : list K6Response) (expectedStatus : Z) : nat :=
  List.length (filter (fun r => accepted r expectedStatus) answers).

(** [w'] differs from [w] at most in how often the clock and the random
    generator have been read: nothing was sent, logged, recorded or slept. *)
Definition only_draws (w w' : World) : Prop :=
  runtime w' = runtime w /\
  console_log w' = console_log w /\
  console_warn w' = console_warn w /\
  requests w' = requests w /\
  sleeps w' = sleeps w /\
  events w' = events w.

(** [w] after [n] more reads of the random generator. *)
Definition drew (n : nat) (w : World) : World :=
  {| runtime := runtime w; console_log := console_log w;
     console_warn := console_warn w; requests := requests w;
     sleeps := sleeps w; clock_reads := clock_reads w;
     random_draws := n + random_draws w;
     events := events w |}.

(** The decimal digits of [z] on exactly [width] places, leading zeros
    included. *)
Fixpoint decimal (width : nat) (z : Z) : jsstring :=
  match width with
  | O => []
  | S width' => decimal width' (z / 10) ++ [Z.to_N (48 + z mod 10)]
  end.

(** What is sent for the optional data of a caller, [data || build()]:
    the data when they are given and truthy, otherwise what [build]
    returns, run in the world [w]. *)
Definition given_or_built (data : option JsValue) (build : Script JsValue)
    (w : World) (sent : JsValue) : Prop :=
  match data with
  | Some d => if ToBoolean d then sent = d else fst (build w) = Normal sent
  | None => fst (build w) = Normal sent
  end.

(** The request that creates a contact. *)
Definition create_request (env : Environment) (token : jsstring)
    (contact : JsValue) : Request :=
  request_to env POST API_ENDPOINTS.CONTACTS (JSON_stringify env contact)
    (Some token).

(** The request that lists the contacts. *)
Definition get_all_request (env : Environment) (token : jsstring) : Request :=
  {| method := GET;
     url := config_baseUrl env ++ API_ENDPOINTS.CONTACTS;
     payload := JsUndefined;
     headers := HttpService.headers_for (Some token) |}.

(** The contacts an answer lists: the items of the array its body holds
    when it meets the three criteria with status 200, none otherwise. *)
Definition listed_contacts (env : Environment) (resp : K6Response) : list JsValue :=
  if accepted resp 200 then
    match JSON_parse_builtin env (String_ (body resp)) with
    | Normal (JsArray items) => items
    | _ => []
    end
  else [].

(** The digit [k] put in front of the digits [d]. *)
Definition digit (k : Z) (d : Decimal.uint) : Decimal.uint :=
  match k with
  | 0 => Decimal.D0 d | 1 => Decimal.D1 d | 2 => Decimal.D2 d
  | 3 => Decimal.D3 d | 4 => Decimal.D4 d | 5 => Decimal.D5 d
  | 6 => Decimal.D6 d | 7 => Decimal.D7 d | 8 => Decimal.D8 d
  | _ => Decimal.D9 d
  end.

(** The last [width] decimal digits of [z], the lowest first. *)
Fixpoint little_digits (width : nat) (z : Z) : Decimal.uint :=
  match width with
  | O => Decimal.Nil
  | S width' => digit (z mod 10) (little_digits width' (z / 10))
  end.

(** The requests about the contact whose identifier reads [contactId]:
    read, replace, amend. *)
Definition get_by_id_request (env : Environment) (token : jsstring)
    (contactId : jsstring) : Request :=
  request_to env GET (API_ENDPOINTS.CONTACT_BY_ID contactId) JsUndefined
    (Some token).

Definition update_request (env : Environment) (token : jsstring)
    (contactId : jsstring) (contact : JsValue) : Request :=
  request_to env PUT (API_ENDPOINTS.CONTACT_BY_ID contactId)
    (JSON_stringify env contact) (Some token).

Definition patch_request (env : Environment) (token : jsstring)
    (contactId : jsstring) (updates : JsValue) : Request :=
  request_to env PATCH (API_ENDPOINTS.CONTACT_BY_ID contactId)
    (JSON_stringify env updates) (Some token).

(** ** ContactAPI, continued ([src/api/contact.api.ts]) *)

Module ContactAPI_more.

(** [deleteMultiple(token, contactIds)]:
    [contactIds.map(id => this.delete(token, id))] *)
Fixpoint deleteMultiple (env : Environment) (token : jsstring)
    (contactIds : list JsValue) : Script (list K6Response) :=
  match contactIds with
  | [] => ret []
  | id :: rest =>
      response <- ContactAPI.delete env token id ;;
      responses <- deleteMultiple env token rest ;;
      ret (response :: responses)
  end.

End ContactAPI_more.

(* ================================================================== *)
(** * Strings and object literals *)
(* ================================================================== *)

Lemma jsstring_eqb_eq (a b : jsstring) : jsstring_eqb a b = true <-> a = b.
Proof.
  revert b; induction a as [|x a IH]; intros [|y b]; simpl;
    try (split; [discriminate | congruence]); try tauto.
  rewrite andb_true_iff, N.eqb_eq, IH.
  split; [intros [-> ->]; reflexivity | intros H; inversion H; auto].
Qed.

Lemma jsstring_eqb_refl (a : jsstring) : jsstring_eqb a a = true.
Proof. apply jsstring_eqb_eq; reflexivity. Qed.

Lemma jsstring_eqb_app (p a b : jsstring) :
  jsstring_eqb (p ++ a) (p ++ b) = jsstring_eqb a b.
Proof.
  induction p as [|x p IH]; simpl; [reflexivity|].
  rewrite N.eqb_refl; exact IH.
Qed.

Lemma nonempty_not_eqb_nil (s : jsstring) :
  negb (jsstring_eqb s []) = (0 <? List.length s)%nat.
Proof. destruct s; reflexivity. Qed.

Lemma object_literal_2 {V : Type} (k1 k2 : jsstring) (v1 v2 : V) :
  jsstring_eqb k2 k1 = false ->
  object_literal [(k1, v1); (k2, v2)] = [(k1, v1); (k2, v2)].
Proof. intros H; unfold object_literal; simpl; rewrite H; reflexivity. Qed.

Lemma object_literal_3 {V : Type} (k1 k2 k3 : jsstring) (v1 v2 v3 : V) :
  jsstring_eqb k2 k1 = false ->
  jsstring_eqb k3 k1 = false ->
  jsstring_eqb k3 k2 = false ->
  object_literal [(k1, v1); (k2, v2); (k3, v3)] = [(k1, v1); (k2, v2); (k3, v3)].
Proof.
  intros H21 H31 H32; unfold object_literal; simpl.
  rewrite H21; simpl; rewrite H31, H32; reflexivity.
Qed.

(** The labels of the checks of one call differ from one another, whatever
    the test name and the expected status: no check overwrites another. *)
Lemma time_label_not_status_label (name : jsstring) (e : Z) :
  jsstring_eqb (name ++ lit ": response time < " ++ Number_toString 500 ++ lit "ms")
               (name ++ lit ": status is " ++ Number_toString e) = false.
Proof. rewrite jsstring_eqb_app; reflexivity. Qed.

Lemma body_label_not_status_label (name : jsstring) (e : Z) :
  jsstring_eqb (name ++ lit ": response has body")
               (name ++ lit ": status is " ++ Number_toString e) = false.
Proof. rewrite jsstring_eqb_app; reflexivity. Qed.

Lemma body_label_not_time_label (name : jsstring) :
  jsstring_eqb (name ++ lit ": response has body")
               (name ++ lit ": response time < " ++ Number_toString 500 ++ lit "ms")
  = false.
Proof. rewrite jsstring_eqb_app; reflexivity. Qed.

Lemma message_label_not_status_label (name : jsstring) (e : Z) :
  jsstring_eqb (name ++ lit ": has error message")
               (name ++ lit ": status is " ++ Number_toString e) = false.
Proof. rewrite jsstring_eqb_app; reflexivity. Qed.

Lemma time_label_500 (name : jsstring) :
  name ++ lit ": response time < "
       ++ Number_toString TEST_CONFIG.MAX_RESPONSE_TIME_MS ++ lit "ms"
  = name ++ lit ": response time < 500ms".
Proof. reflexivity. Qed.

(* ================================================================== *)
(** * JSON.parse never runs out of fuel *)
(* ================================================================== *)

Module JSONFacts.
Import JSON.

Lemma skip_ws_length (s : jsstring) :
  (List.length (skip_ws s) <= List.length s)%nat.
Proof.
  induction s as [|c s IH]; simpl; [lia|].
  destruct (is_ws c); simpl; lia.
Qed.

Lemma strip_prefix_length (p s r : jsstring) :
  strip_prefix p s = Some r ->
  List.length s = (List.length p + List.length r)%nat.
Proof.
  revert s; induction p as [|x p IH]; intros [|y s]; simpl; intros H;
    try discriminate; try (inversion H; reflexivity).
  destruct (x =? y)%N; [|discriminate].
  rewrite (IH _ H). reflexivity.
Qed.

Ltac break_string IH :=
  repeat match goal with
  | H : None = Some _ |- _ => discriminate H
  | H : Some _ = Some _ |- _ => inversion H; subst; clear H
  | H : string_chars _ _ = Some _ |- _ => apply IH in H; [|simpl in *; lia]
  | H : (if ?b then _ else _) = Some _ |- _ => destruct b
  | H : match ?x with _ => _ end = Some _ |- _ => destruct x eqn:?
  end.

(** A string literal ends with its closing quote: at least one character
    is read. *)
Lemma string_chars_length_le (n : nat) :
  forall s acc str r,
    (List.length s <= n)%nat ->
    string_chars s acc = Some (str, r) ->
    (List.length r < List.length s)%nat.
Proof.
  induction n as [|n IH]; intros s acc str r Hn H.
  - destruct s; [discriminate | simpl in Hn; lia].
  - destruct s as [|c rest]; [discriminate|].
    simpl in H.
    break_string IH; simpl in *; try lia.
Qed.

Lemma string_chars_length (s acc str r : jsstring) :
  string_chars s acc = Some (str, r) ->
  (List.length r < List.length s)%nat.
Proof. apply (string_chars_length_le (List.length s)); lia. Qed.

Lemma digits_length (s : jsstring) :
  forall acc count a n r,
    digits s acc count = (a, n, r) ->
    (List.length s + count = List.length r + n /\ count <= n)%nat.
Proof.
  induction s as [|c s IH]; simpl; intros acc count a n r H.
  - inversion H; subst. simpl. lia.
  - destruct (is_digit c).
    + pose proof (IH _ _ _ _ _ H). lia.
    + inversion H; subst. simpl. lia.
Qed.

Lemma sign_length (s s1 : jsstring) (neg : bool) :
  sign s = (neg, s1) -> (List.length s1 <= List.length s)%nat.
Proof.
  unfold sign. destruct s as [|c r]; [intros H; inversion H; simpl; lia|].
  destruct (c =? 45)%N; intros H; inversion H; simpl; lia.
Qed.

Lemma int_part_length (s s2 : jsstring) (m : N) :
  int_part s = Some (m, s2) -> (List.length s2 < List.length s)%nat.
Proof.
  unfold int_part. destruct s as [|c r]; [discriminate|].
  destruct (c =? 48)%N; [intros H; inversion H; simpl; lia|].
  destruct (is_digit c) eqn:Hd; [|discriminate].
  destruct (digits (c :: r) 0 0) as [[m' n] r'] eqn:Hdig.
  intros H; inversion H; subst.
  simpl in Hdig. rewrite Hd in Hdig.
  pose proof (digits_length _ _ _ _ _ _ Hdig) as Hlen. simpl. lia.
Qed.

Lemma frac_part_length (m m' : N) (s s3 : jsstring) (nfrac : Z) :
  frac_part m s = Some (m', nfrac, s3) ->
  (List.length s3 <= List.length s)%nat.
Proof.
  unfold frac_part. destruct s as [|c r]; [intros H; inversion H; simpl; lia|].
  destruct (c =? 46)%N; [|intros H; inversion H; simpl; lia].
  destruct (digits r m 0) as [[a n] r'] eqn:Hdig.
  pose proof (digits_length _ _ _ _ _ _ Hdig) as Hlen.
  destruct n; [discriminate|]. intros H; inversion H; subst. simpl. lia.
Qed.

Lemma exp_sign_length (s r : jsstring) (eneg : bool) :
  exp_sign s = (eneg, r) -> (List.length r <= List.length s)%nat.
Proof.
  unfold exp_sign. destruct s as [|c s']; [intros H; inversion H; simpl; lia|].
  destruct (c =? 45)%N; [intros H; inversion H; simpl; lia|].
  destruct (c =? 43)%N; intros H; inversion H; simpl; lia.
Qed.

Lemma exp_part_length (s s4 : jsstring) (x : Z) :
  exp_part s = Some (x, s4) -> (List.length s4 <= List.length s)%nat.
Proof.
  unfold exp_part. destruct s as [|c r]; [intros H; inversion H; simpl; lia|].
  destruct ((c =? 101) || (c =? 69))%N; [|intros H; inversion H; simpl; lia].
  destruct (exp_sign r) as [eneg r1] eqn:Hr1.
  apply exp_sign_length in Hr1.
  destruct (digits r1 0 0) as [[a n] r2] eqn:Hdig.
  pose proof (digits_length _ _ _ _ _ _ Hdig) as Hlen.
  destruct n; [discriminate|]. intros H; inversion H; subst. simpl. lia.
Qed.

Lemma number_literal_length (s : jsstring) (v : JsValue) (r : jsstring) :
  number_literal s = Some (v, r) -> (List.length r < List.length s)%nat.
Proof.
  unfold number_literal.
  destruct (sign s) as [neg s1] eqn:Hs. apply sign_length in Hs.
  destruct (int_part s1) as [[m s2]|] eqn:Hi; [|discriminate].
  apply int_part_length in Hi.
  destruct (frac_part m s2) as [[[m' nfrac] s3]|] eqn:Hf; [|discriminate].
  apply frac_part_length in Hf.
  destruct (exp_part s3) as [[x s4]|] eqn:He; [|discriminate].
  apply exp_part_length in He.
  intros H; inversion H; subst. lia.
Qed.

Lemma option_map_pair_length (v0 v : JsValue) (p s r : jsstring) :
  option_map (pair v0) (strip_prefix p s) = Some (v, r) ->
  (0 < List.length p)%nat ->
  (List.length r < List.length s)%nat.
Proof.
  destruct (strip_prefix p s) as [r'|] eqn:Hp; [|discriminate].
  apply strip_prefix_length in Hp.
  simpl. intros H; inversion H; subst. lia.
Qed.

(** Every value, every list of elements and every list of members that is
    read takes at least one character. *)
Lemma value_length (fuel : nat) :
  (forall s v r,
     value fuel s = Some (v, r) -> (List.length r < List.length s)%nat) /\
  (forall s acc v r,
     elements fuel s acc = Some (v, r) -> (List.length r < List.length s)%nat) /\
  (forall s acc v r,
     members fuel s acc = Some (v, r) -> (List.length r < List.length s)%nat).
Proof.
  induction fuel as [|fuel [IHv [IHe IHm]]].
  - repeat split; intros; discriminate.
  - split; [|split].
    + intros [|c rest] v r; [discriminate|]. cbn [value elements members].
      destruct (c =? 110)%N;
        [intros H; apply option_map_pair_length in H; [exact H | vm_compute; lia]|].
      destruct (c =? 116)%N;
        [intros H; apply option_map_pair_length in H; [exact H | vm_compute; lia]|].
      destruct (c =? 102)%N;
        [intros H; apply option_map_pair_length in H; [exact H | vm_compute; lia]|].
      destruct (c =? 34)%N.
      { destruct (string_chars rest []) as [[str r']|] eqn:Hs; [|discriminate].
        apply string_chars_length in Hs.
        intros H; inversion H; subst. cbn [List.length]; lia. }
      pose proof (skip_ws_length rest) as Hws.
      destruct (c =? 91)%N.
      { destruct (skip_ws rest) as [|c' r']; [discriminate|].
        destruct (c' =? 93)%N.
        - intros H; inversion H; subst. cbn [List.length] in *; lia.
        - intros H; apply IHe in H. cbn [List.length] in *; lia. }
      destruct (c =? 123)%N.
      { destruct (skip_ws rest) as [|c' r']; [discriminate|].
        destruct (c' =? 125)%N.
        - intros H; inversion H; subst. cbn [List.length] in *; lia.
        - intros H; apply IHm in H. cbn [List.length] in *; lia. }
      intros H. apply number_literal_length in H. exact H.
    + intros s acc v r. cbn [value elements members].
      destruct (value fuel s) as [[v1 r1]|] eqn:Hv; [|discriminate].
      apply IHv in Hv.
      pose proof (skip_ws_length r1) as Hws.
      destruct (skip_ws r1) as [|c r']; [discriminate|].
      destruct (c =? 44)%N.
      { intros H. apply IHe in H.
        pose proof (skip_ws_length r'). cbn [List.length] in *; lia. }
      destruct (c =? 93)%N; [|discriminate].
      intros H; inversion H; subst. cbn [List.length] in *; lia.
    + intros [|c r0] acc v r; [discriminate|]. cbn [value elements members].
      destruct (c =? 34)%N; [|discriminate].
      destruct (string_chars r0 []) as [[k r1]|] eqn:Hs; [|discriminate].
      apply string_chars_length in Hs.
      pose proof (skip_ws_length r1) as Hws1.
      destruct (skip_ws r1) as [|c1 r2]; [discriminate|].
      destruct (c1 =? 58)%N; [|discriminate].
      pose proof (skip_ws_length r2) as Hws2.
      destruct (value fuel (skip_ws r2)) as [[v1 r3]|] eqn:Hv; [|discriminate].
      apply IHv in Hv.
      pose proof (skip_ws_length r3) as Hws3.
      destruct (skip_ws r3) as [|c3 r4]; [discriminate|].
      destruct (c3 =? 44)%N.
      { intros H. apply IHm in H.
        pose proof (skip_ws_length r4). cbn [List.length] in *; lia. }
      destruct (c3 =? 125)%N; [|discriminate].
      intros H; inversion H; subst. cbn [List.length] in *; lia.
Qed.

(** Beyond twice the length of the text, more fuel changes nothing. *)
Lemma fuel_stable (f1 : nat) :
  forall f2,
    (forall s,
       (2 * List.length s + 1 <= f1)%nat -> (2 * List.length s + 1 <= f2)%nat ->
       value f1 s = value f2 s) /\
    (forall s acc,
       (2 * List.length s + 2 <= f1)%nat -> (2 * List.length s + 2 <= f2)%nat ->
       elements f1 s acc = elements f2 s acc) /\
    (forall s acc,
       (2 * List.length s + 2 <= f1)%nat -> (2 * List.length s + 2 <= f2)%nat ->
       members f1 s acc = members f2 s acc).
Proof.
  induction f1 as [|f1 IH]; intros f2.
  - repeat split; intros; lia.
  - destruct f2 as [|f2]; [repeat split; intros; lia|].
    destruct (IH f2) as [IHv [IHe IHm]].
    destruct (value_length f1) as [Lv _].
    split; [|split].
    + intros [|c rest] H1 H2; [reflexivity|]. cbn [List.length] in H1, H2. cbn [value elements members].
      pose proof (skip_ws_length rest) as Hws.
      destruct (skip_ws rest) as [|c' r'].
      { reflexivity. }
      rewrite (IHe (c' :: r') []) by (cbn [List.length] in *; lia).
      rewrite (IHm (c' :: r') []) by (cbn [List.length] in *; lia).
      reflexivity.
    + intros s acc H1 H2. cbn [value elements members].
      rewrite (IHv s) by lia.
      destruct (value f2 s) as [[v1 r1]|] eqn:Hv; [|reflexivity].
      rewrite <- (IHv s) in Hv by lia. apply Lv in Hv.
      pose proof (skip_ws_length r1) as Hws.
      destruct (skip_ws r1) as [|c r']; [reflexivity|].
      pose proof (skip_ws_length r').
      rewrite (IHe (skip_ws r')) by (cbn [List.length] in *; lia).
      reflexivity.
    + intros [|c r0] acc H1 H2; [reflexivity|]. cbn [List.length] in H1, H2. cbn [value elements members].
      destruct (c =? 34)%N; [|reflexivity].
      destruct (string_chars r0 []) as [[k r1]|] eqn:Hs; [|reflexivity].
      apply string_chars_length in Hs.
      pose proof (skip_ws_length r1) as Hws1.
      destruct (skip_ws r1) as [|c1 r2]; [reflexivity|].
      destruct (c1 =? 58)%N; [|reflexivity].
      pose proof (skip_ws_length r2) as Hws2.
      rewrite (IHv (skip_ws r2)) by (cbn [List.length] in *; lia).
      destruct (value f2 (skip_ws r2)) as [[v1 r3]|] eqn:Hv; [|reflexivity].
      rewrite <- (IHv (skip_ws r2)) in Hv by (cbn [List.length] in *; lia). apply Lv in Hv.
      pose proof (skip_ws_length r3) as Hws3.
      destruct (skip_ws r3) as [|c3 r4]; [reflexivity|].
      pose proof (skip_ws_length r4).
      rewrite (IHm (skip_ws r4)) by (cbn [List.length] in *; lia).
      reflexivity.
Qed.

(** The fuel [JSON.parse] gives itself is enough: with any larger amount
    the same value is read. *)
Lemma value_fuel (s : jsstring) (fuel : nat) :
  (S (2 * List.length s) <= fuel)%nat ->
  value fuel (skip_ws s) = value (S (2 * List.length s)) (skip_ws s).
Proof.
  intros H. pose proof (skip_ws_length s) as Hws.
  destruct (fuel_stable fuel (S (2 * List.length s))) as [Hv _].
  apply Hv; lia.
Qed.

End JSONFacts.

(* ================================================================== *)
(** * Metrics *)
(* ================================================================== *)

(** Adding a sample to a metric extends its series by that sample and
    leaves every other series as it was. *)
Lemma series_add_sample (n n' : jsstring) (v : Sample) (m : K6Metrics) :
  series n (add_sample n' v m) =
  if jsstring_eqb n n' then series n m ++ [v] else series n m.
Proof.
  unfold series.
  induction m as [|[k l] m IH]; simpl.
  - destruct (jsstring_eqb n n'); reflexivity.
  - destruct (jsstring_eqb n' k) eqn:Hk; simpl.
    + apply jsstring_eqb_eq in Hk; subst k.
      destruct (jsstring_eqb n n'); reflexivity.
    + destruct (jsstring_eqb n k) eqn:Hn.
      * apply jsstring_eqb_eq in Hn; subst k.
        destruct (jsstring_eqb n n') eqn:Hnn; [|reflexivity].
        apply jsstring_eqb_eq in Hnn; subst n'.
        rewrite jsstring_eqb_refl in Hk. discriminate.
      * exact IH.
Qed.

Lemma series_add_sample_app (n n' : jsstring) (v : Sample) (m : K6Metrics) :
  series n (add_sample n' v m) =
  series n m ++ (if jsstring_eqb n n' then [v] else []).
Proof.
  rewrite series_add_sample.
  destruct (jsstring_eqb n n'); [reflexivity | symmetry; apply app_nil_r].
Qed.

Ltac series_after_adds := rewrite ?series_add_sample; reflexivity.

(* ================================================================== *)
(** * What one call does to the runtime *)
(* ================================================================== *)

Import ValidatorService.

Lemma check_three (r : K6Response) (k1 k2 k3 : jsstring) (b1 b2 b3 : bool)
    (f1 f2 f3 : CheckFn) (w : K6Runtime) :
  f1 r = Normal (JsBool b1) ->
  f2 r = Normal (JsBool b2) ->
  f3 r = Normal (JsBool b3) ->
  check r [(k1, f1); (k2, f2); (k3, f3)] w =
  (Normal (b1 && b2 && b3),
   {| metrics := metrics w;
      check_results := check_results w ++ [(k1, b1); (k2, b2); (k3, b3)];
      console_error := console_error w |}).
Proof.
  intros H1 H2 H3. unfold check. simpl. rewrite H1, H2, H3. simpl.
  rewrite <- !app_assoc. reflexivity.
Qed.

Lemma check_two (r : K6Response) (k1 k2 : jsstring) (v1 v2 : JsValue)
    (f1 f2 : CheckFn) (w : K6Runtime) :
  f1 r = Normal v1 ->
  f2 r = Normal v2 ->
  check r [(k1, f1); (k2, f2)] w =
  (Normal (ToBoolean v1 && ToBoolean v2),
   {| metrics := metrics w;
      check_results :=
        check_results w ++ [(k1, ToBoolean v1); (k2, ToBoolean v2)];
      console_error := console_error w |}).
Proof.
  intros H1 H2. unfold check. simpl. rewrite H1, H2. simpl.
  rewrite <- !app_assoc. reflexivity.
Qed.

(** The complete effect of [validateResponse]. *)
Lemma validateResponse_run (r : K6Response) (name : jsstring)
    (expected : option Z) (w : K6Runtime) :
  let e := default_param expected HTTP_STATUS.OK in
  let c1 := status r =? e in
  let c2 := number_ltb (duration (timings r)) (number_of_Z 500) in
  let c3 := Body_not_null (body r) && (0 <? List.length (String_ (body r)))%nat in
  let ok := c1 && c2 && c3 in
  let recorded :=
    add_sample (lit "api_duration") (NumSample (duration (timings r)))
      (add_sample (lit "success") (BoolSample ok)
         (add_sample (lit "errors") (BoolSample (negb ok)) (metrics w))) in
  validateResponse r name expected w =
  (Normal ok,
   {| metrics :=
        if ok then recorded
        else add_sample (lit "failed_requests") (NumSample (number_of_Z 1)) recorded;
      check_results :=
        check_results w ++
          [ (name ++ lit ": status is " ++ Number_toString e, c1);
            (name ++ lit ": response time < 500ms", c2);
            (name ++ lit ": response has body", c3) ];
      console_error :=
        console_error w ++
          (if ok then []
           else [ lit " [Validation] " ++ LoggerService.cross_mark ++ lit " "
                    ++ name ++ lit " failed: Status " ++ Number_toString (status r)
                    ++ lit ", Body: "
                    ++ (if Body_truthy (body r)
                        then firstn 200 (String_ (body r))
                        else lit "No body") ]) |}).
Proof.
  intros e c1 c2 c3 ok recorded.
  unfold validateResponse. fold e.
  rewrite object_literal_3
    by (apply time_label_not_status_label || apply body_label_not_status_label
        || apply body_label_not_time_label).
  cbn [bind Monad_VU].
  rewrite (check_three r _ _ _ c1 c2 c3) by reflexivity.
  fold ok. subst recorded. destruct ok; cbn; rewrite ?app_nil_r; reflexivity.
Qed.

(** The complete effect of [checkResponse]. *)
Lemma checkResponse_run (r : K6Response) (name : jsstring)
    (expected : option Z) (w : K6Runtime) :
  let e := default_param expected 200 in
  let c1 := status r =? e in
  let c2 := number_ltb (duration (timings r)) (number_of_Z 500) in
  let c3 := Body_not_null (body r) && (0 <? List.length (String_ (body r)))%nat in
  let ok := c1 && c2 && c3 in
  let recorded :=
    add_sample (lit "api_duration") (NumSample (duration (timings r)))
      (add_sample (lit "success") (BoolSample ok)
         (add_sample (lit "errors") (BoolSample (negb ok)) (metrics w))) in
  helpers.checkResponse r name expected w =
  (Normal ok,
   {| metrics :=
        if ok then recorded
        else add_sample (lit "failed_requests") (NumSample (number_of_Z 1)) recorded;
      check_results :=
        check_results w ++
          [ (name ++ lit ": status is " ++ Number_toString e, c1);
            (name ++ lit ": response time < 500ms", c2);
            (name ++ lit ": response has body", c3) ];
      console_error :=
        console_error w ++
          (if ok then []
           else [ LoggerService.cross_mark ++ lit " "
                    ++ name ++ lit " failed: Status " ++ Number_toString (status r)
                    ++ lit ", Body: "
                    ++ (if Body_truthy (body r)
                        then firstn 200 (String_ (body r))
                        else lit "No body") ]) |}).
Proof.
  intros e c1 c2 c3 ok recorded.
  unfold helpers.checkResponse. fold e.
  rewrite object_literal_3
    by (apply time_label_not_status_label || apply body_label_not_status_label
        || apply body_label_not_time_label).
  cbn [bind Monad_VU].
  rewrite (check_three r _ _ _ c1 c2 c3) by reflexivity.
  fold ok. subst recorded. destruct ok; cbn; rewrite ?app_nil_r; reflexivity.
Qed.

(** Reading [error] or else [message] from a parsed body gives a truthy
    value exactly when the body has a truthy field of one of the names;
    on [null] the read throws. *)
Lemma error_or_message_truthy (v : JsValue) :
  match (e <- Get v (lit "error") ;;
         if ToBoolean e then ret e else Get v (lit "message")) with
  | Normal x => ToBoolean x = true <-> has_error_indicator v
  | Throw _ => ~ has_error_indicator v
  end.
Proof.
  unfold has_error_indicator, truthy_field.
  destruct v; simpl;
    try (intros [[? [H _]] | [? [H _]]]; discriminate);
    try (split; [discriminate | intros [[? [H _]] | [? [H _]]]; discriminate]).
  destruct (lookup (lit "error") props) as [x|] eqn:He; simpl.
  - destruct (ToBoolean x) eqn:Hx; simpl.
    + rewrite Hx. split; [intros _; left; exists x; auto | reflexivity].
    + destruct (lookup (lit "message") props) as [y|] eqn:Hm; simpl.
      * split.
        -- intros Hy; right; exists y; auto.
        -- intros [[x' [H1 H2]] | [y' [H1 H2]]]; congruence.
      * split; [discriminate|].
        intros [[x' [H1 H2]] | [y' [H1 H2]]]; congruence.
  - destruct (lookup (lit "message") props) as [y|] eqn:Hm; simpl.
    + split.
      * intros Hy; right; exists y; auto.
      * intros [[x' [H1 H2]] | [y' [H1 H2]]]; congruence.
    + split; [discriminate|].
      intros [[x' [H1 H2]] | [y' [H1 H2]]]; congruence.
Qed.

Section ErrorIndicator.

Variable JSON_parse : JSONParser.
Variable r : K6Response.

(** The [has error message] check always returns a boolean: true exactly
    when the body parses to a value with an error indicator. *)
Lemma has_error_message_spec :
  exists b,
    has_error_message JSON_parse r = Normal (JsBool b) /\
    (b = true <->
     exists v, JSON_parse (String_ (body r)) = Normal v /\ has_error_indicator v).
Proof.
  unfold has_error_message.
  destruct (JSON_parse (String_ (body r))) as [v|err] eqn:Hp;
    cbn [bind ret Monad_Completion].
  - pose proof (error_or_message_truthy v) as H.
    cbn [bind Monad_Completion ret] in H.
    destruct (Get v (lit "error")) as [x|err] eqn:Hg.
    + destruct (if ToBoolean x then Normal x else Get v (lit "message"))
        as [y|err] eqn:Hy; cbn [try_catch].
      * exists (ToBoolean y). split; [reflexivity|].
        rewrite H. split.
        -- intros Hi; exists v; auto.
        -- intros [v' [Hv Hi]]; congruence.
      * exists false. split; [reflexivity|].
        split; [discriminate|]. intros [v' [Hv Hi]].
        assert (v' = v) by congruence; subst; contradiction.
    + cbn [try_catch]. exists false. split; [reflexivity|].
      split; [discriminate|]. intros [v' [Hv Hi]].
      assert (v' = v) by congruence; subst; contradiction.
  - cbn [try_catch]. exists false. split; [reflexivity|].
    split; [discriminate|]. intros [v' [Hv _]]; discriminate.
Qed.

(** When [JSON.parse] throws, the check answers false. *)
Lemma has_error_message_unparsable (err : JsError) :
  JSON_parse (String_ (body r)) = Throw err ->
  has_error_message JSON_parse r = Normal (JsBool false).
Proof. intros H. unfold has_error_message. rewrite H. reflexivity. Qed.

(** The check of the earlier helper returns the value itself; its
    truthiness is the boolean the service's check returns. *)
Lemma helpers_has_error_message_spec :
  exists v b,
    helpers.has_error_message JSON_parse r = Normal v /\
    has_error_message JSON_parse r = Normal (JsBool b) /\
    ToBoolean v = b.
Proof.
  unfold helpers.has_error_message, has_error_message.
  destruct (JSON_parse (String_ (body r))) as [p|err];
    cbn [bind ret Monad_Completion].
  - destruct (Get p (lit "error")) as [x|err].
    + destruct (ToBoolean x) eqn:Hx; cbn [try_catch].
      * exists x, (ToBoolean x). auto.
      * destruct (Get p (lit "message")) as [y|err]; cbn [try_catch].
        -- exists y, (ToBoolean y). auto.
        -- exists (JsBool false), false. auto.
    + cbn [try_catch]. exists (JsBool false), false. auto.
  - cbn [try_catch]. exists (JsBool false), false. auto.
Qed.

Variable name : jsstring.
Variable expected : option Z.
Variable w : K6Runtime.

(** The complete effect of [validateErrorResponse]. *)
Lemma validateErrorResponse_run :
  let e := default_param expected HTTP_STATUS.BAD_REQUEST in
  exists c2,
    has_error_message JSON_parse r = Normal (JsBool c2) /\
    validateErrorResponse JSON_parse r name expected w =
    (Normal ((status r =? e) && c2),
     {| metrics := metrics w;
        check_results :=
          check_results w ++
            [ (name ++ lit ": status is " ++ Number_toString e, status r =? e);
              (name ++ lit ": has error message", c2) ];
        console_error := console_error w |}).
Proof.
  intros e.
  destruct has_error_message_spec as [c2 [Hc2 _]].
  exists c2. split; [exact Hc2|].
  unfold validateErrorResponse. fold e.
  rewrite object_literal_2 by apply message_label_not_status_label.
  rewrite (check_two r _ _ (JsBool (status r =? e)) (JsBool c2))
    by (reflexivity || exact Hc2).
  reflexivity.
Qed.

(** The complete effect of [checkErrorResponse]. *)
Lemma checkErrorResponse_run :
  let e := default_param expected 400 in
  exists c2,
    has_error_message JSON_parse r = Normal (JsBool c2) /\
    helpers.checkErrorResponse JSON_parse r name expected w =
    (Normal ((status r =? e) && c2),
     {| metrics := metrics w;
        check_results :=
          check_results w ++
            [ (name ++ lit ": status is " ++ Number_toString e, status r =? e);
              (name ++ lit ": has error message", c2) ];
        console_error := console_error w |}).
Proof.
  intros e.
  destruct helpers_has_error_message_spec as [v [c2 [Hv [Hc2 Hb]]]].
  exists c2. split; [exact Hc2|].
  unfold helpers.checkErrorResponse. fold e.
  rewrite object_literal_2 by apply message_label_not_status_label.
  cbn [bind Monad_VU].
  rewrite (check_two r _ _ (JsBool (status r =? e)) v)
    by (reflexivity || exact Hv).
  rewrite Hb. reflexivity.
Qed.

End ErrorIndicator.

Lemma contains_intro (pre needle post : jsstring) :
  contains needle (pre ++ needle ++ post).
Proof. exists pre, post; reflexivity. Qed.

Lemma has_body_false_iff (b : Body) :
  Body_not_null b && (0 <? List.length (String_ b))%nat = false <->
  b = BNull \/ b = BString [].
Proof.
  destruct b as [|s|bytes]; simpl.
  - split; auto.
  - destruct s; simpl; split; auto; try discriminate.
    intros [H|H]; discriminate.
  - split; [discriminate | intros [H|H]; discriminate].
Qed.

(* ================================================================== *)
(** * The response validator *)
(* ================================================================== *)

(** C1.  A response with the expected status, a duration strictly below
    500 ms and a body that is neither null nor the empty string is
    accepted: [validateResponse] returns true and the failed-request
    counter receives nothing. *)
Theorem validateResponse_accepts (r : K6Response) (name : jsstring) (e : Z)
    (w : K6Runtime) :
  status r = e ->
  number_ltb (duration (timings r)) (number_of_Z 500) = true ->
  body r <> BNull ->
  body r <> BString [] ->
  exists w',
    validateResponse r name (Some e) w = (Normal true, w') /\
    series MetricsService.failedRequests (metrics w')
      = series MetricsService.failedRequests (metrics w).
Proof.
  intros Hs Ht Hn He.
  rewrite validateResponse_run; cbn [default_param].
  assert (Hb : Body_not_null (body r)
               && (0 <? List.length (String_ (body r)))%nat = true).
  { destruct (Body_not_null (body r) && (0 <? List.length (String_ (body r)))%nat)
      eqn:Hb; [reflexivity|].
    apply has_body_false_iff in Hb. tauto. }
  apply Z.eqb_eq in Hs. rewrite Hs, Ht, Hb. cbn [andb negb].
  eexists; split; [reflexivity|]. cbn [metrics]. series_after_adds.
Qed.

Lemma validateResponse_accepts_witness :
  exists w',
    validateResponse ok_response (lit "Login") (Some 200) fresh_runtime
      = (Normal true, w') /\
    series MetricsService.failedRequests (metrics w')
      = series MetricsService.failedRequests (metrics fresh_runtime).
Proof.
  apply (validateResponse_accepts ok_response (lit "Login") 200 fresh_runtime).
  - reflexivity.
  - reflexivity.
  - discriminate.
  - discriminate.
Defined.

(** C2.  A response that misses at least one of the three criteria is
    rejected: [validateResponse] returns false, the failed-request counter
    receives exactly one increment, and exactly one line is written to the
    error log, which contains the test name. *)
Theorem validateResponse_rejects (r : K6Response) (name : jsstring) (e : Z)
    (w : K6Runtime) :
  status r <> e \/
  number_ltb (duration (timings r)) (number_of_Z 500) = false \/
  body r = BNull \/ body r = BString [] ->
  exists w' line,
    validateResponse r name (Some e) w = (Normal false, w') /\
    series MetricsService.failedRequests (metrics w')
      = series MetricsService.failedRequests (metrics w)
          ++ [NumSample (number_of_Z 1)] /\
    console_error w' = console_error w ++ [line] /\
    contains name line.
Proof.
  intros H.
  rewrite validateResponse_run; cbn [default_param].
  assert (Hok : (status r =? e)
                && number_ltb (duration (timings r)) (number_of_Z 500)
                && (Body_not_null (body r)
                    && (0 <? List.length (String_ (body r)))%nat) = false).
  { destruct H as [H | [H | H]].
    - apply Z.eqb_neq in H. rewrite H. reflexivity.
    - rewrite H. apply andb_false_iff. left. apply andb_false_r.
    - apply has_body_false_iff in H. rewrite H. apply andb_false_r. }
  rewrite Hok. cbn [negb].
  eexists; eexists. split; [reflexivity|]. cbn [metrics console_error].
  split; [series_after_adds|]. split; [reflexivity|].
  apply (contains_intro (lit " [Validation] " ++ LoggerService.cross_mark ++ lit " ")).
Qed.

Lemma validateResponse_rejects_witness :
  exists w' line,
    validateResponse not_found_response (lit "Get contact") (Some 200) fresh_runtime
      = (Normal false, w') /\
    series MetricsService.failedRequests (metrics w')
      = series MetricsService.failedRequests (metrics fresh_runtime)
          ++ [NumSample (number_of_Z 1)] /\
    console_error w' = console_error fresh_runtime ++ [line] /\
    contains (lit "Get contact") line.
Proof.
  apply (validateResponse_rejects not_found_response (lit "Get contact") 200
           fresh_runtime).
  left. simpl. lia.
Defined.

(** C4.  Every call of [validateResponse] adds exactly one sample to the
    error rate and one to the success rate, and the two are complementary:
    the success rate receives the outcome, the error rate its negation. *)
Theorem validateResponse_records_complementary (r : K6Response)
    (name : jsstring) (expected : option Z) (w : K6Runtime) :
  exists ok w',
    validateResponse r name expected w = (Normal ok, w') /\
    series MetricsService.errorRate (metrics w')
      = series MetricsService.errorRate (metrics w) ++ [BoolSample (negb ok)] /\
    series MetricsService.successRate (metrics w')
      = series MetricsService.successRate (metrics w) ++ [BoolSample ok].
Proof.
  rewrite validateResponse_run.
  eexists; eexists. split; [reflexivity|]. cbn [metrics].
  match goal with |- context [if ?b then _ else _] => destruct b end;
    split; series_after_adds.
Qed.

(** C7.  When [validateResponse] rejects a response whose body is a text
    of at least 200 characters, the line it logs ends with a preview that
    is exactly the first 200 characters of the body
    (LOG_BODY_PREVIEW_LENGTH). *)
Theorem validateResponse_logs_preview (r : K6Response) (name : jsstring)
    (expected : option Z) (w : K6Runtime) (s : jsstring) :
  body r = BString s ->
  (200 <= List.length s)%nat ->
  fst (validateResponse r name expected w) = Normal false ->
  let preview := firstn TEST_CONFIG.LOG_BODY_PREVIEW_LENGTH s in
  exists w',
    validateResponse r name expected w = (Normal false, w') /\
    console_error w' =
      console_error w ++
        [ lit " [Validation] " ++ LoggerService.cross_mark ++ lit " "
            ++ name ++ lit " failed: Status " ++ Number_toString (status r)
            ++ lit ", Body: " ++ preview ] /\
    List.length preview = 200%nat /\
    exists rest, s = preview ++ rest.
Proof.
  intros Hb Hlen Hfail preview.
  rewrite validateResponse_run in Hfail |- *. cbn [fst] in Hfail.
  match type of Hfail with
  | Normal ?ok = _ => destruct ok; [discriminate|]
  end.
  eexists. split; [reflexivity|]. cbn [console_error].
  rewrite Hb. cbn [Body_truthy String_].
  assert (Hne : negb (jsstring_eqb s []) = true).
  { destruct s; [simpl in Hlen; lia | reflexivity]. }
  rewrite Hne. split; [reflexivity|]. split.
  - unfold preview, TEST_CONFIG.LOG_BODY_PREVIEW_LENGTH.
    rewrite length_firstn. lia.
  - exists (skipn TEST_CONFIG.LOG_BODY_PREVIEW_LENGTH s).
    symmetry. apply firstn_skipn.
Qed.

Lemma validateResponse_logs_preview_witness :
  exists w',
    validateResponse long_body_response (lit "Add contact") (Some 201) fresh_runtime
      = (Normal false, w') /\
    console_error w' =
      console_error fresh_runtime ++
        [ lit " [Validation] " ++ LoggerService.cross_mark ++ lit " "
            ++ lit "Add contact" ++ lit " failed: Status "
            ++ Number_toString (status long_body_response)
            ++ lit ", Body: " ++ firstn 200 long_body ] /\
    List.length (firstn 200 long_body) = 200%nat /\
    exists rest, long_body = firstn 200 long_body ++ rest.
Proof.
  apply (validateResponse_logs_preview long_body_response (lit "Add contact")
           (Some 201) fresh_runtime long_body).
  - reflexivity.
  - unfold long_body. rewrite repeat_length. lia.
  - vm_compute. reflexivity.
Defined.

(** C8.  With [expectedStatus] left out, [validateResponse] expects
    HTTP_STATUS.OK, which is 200: the status of the response is compared
    with 200, the check is reported under the name [status is 200], and
    the call does what the call with 200 does.  In the same way
    [validateErrorResponse] expects HTTP_STATUS.BAD_REQUEST, which is
    400: it compares the status with 400, reports the check as [status is
    400], and returns true exactly for a response of status 400 whose
    body parses to a value with a truthy [error] or [message]. *)
Theorem default_expected_status (JSON_parse : JSONParser) (r : K6Response)
    (name : jsstring) (w : K6Runtime) :
  (validateResponse r name None w
     = validateResponse r name (Some HTTP_STATUS.OK) w /\
   HTTP_STATUS.OK = 200 /\
   exists ok w',
     validateResponse r name None w = (Normal ok, w') /\
     ok = (status r =? 200)
          && number_ltb (duration (timings r)) (number_of_Z 500)
          && (Body_not_null (body r) && (0 <? List.length (String_ (body r)))%nat) /\
     (ok = true -> status r = 200) /\
     check_results w' =
       check_results w ++
         [ (name ++ lit ": status is 200", status r =? 200);
           (name ++ lit ": response time < 500ms",
            number_ltb (duration (timings r)) (number_of_Z 500));
           (name ++ lit ": response has body",
            Body_not_null (body r)
            && (0 <? List.length (String_ (body r)))%nat) ]) /\
  (validateErrorResponse JSON_parse r name None w
     = validateErrorResponse JSON_parse r name (Some HTTP_STATUS.BAD_REQUEST) w /\
   HTTP_STATUS.BAD_REQUEST = 400 /\
   exists b w' c2,
     validateErrorResponse JSON_parse r name None w = (Normal b, w') /\
     (b = true <->
      status r = 400 /\
      exists v, JSON_parse (String_ (body r)) = Normal v /\ has_error_indicator v) /\
     check_results w' =
       check_results w ++
         [ (name ++ lit ": status is 400", status r =? 400);
           (name ++ lit ": has error message", c2) ]).
Proof.
  split.
  - split; [reflexivity|]. split; [reflexivity|].
    rewrite validateResponse_run. cbn [default_param].
    change HTTP_STATUS.OK with 200.
    eexists; eexists. split; [reflexivity|]. split; [reflexivity|].
    split.
    + intros H. apply andb_true_iff in H. destruct H as [H _].
      apply andb_true_iff in H. destruct H as [H _].
      apply Z.eqb_eq. exact H.
    + cbn [check_results]. reflexivity.
  - split; [reflexivity|]. split; [reflexivity|].
    destruct (validateErrorResponse_run JSON_parse r name None w)
      as [c2 [Hc2 Hrun]].
    cbn [default_param] in Hrun. change HTTP_STATUS.BAD_REQUEST with 400 in Hrun.
    destruct (has_error_message_spec JSON_parse r) as [c2' [Hc2' Hiff]].
    assert (c2' = c2) by congruence; subst c2'.
    eexists; eexists; exists c2. split; [exact Hrun|]. split.
    + rewrite andb_true_iff, Z.eqb_eq, Hiff. reflexivity.
    + reflexivity.
Qed.

(** C9, as amended.  Two successive calls of [validateResponse] on the
    same arguments return the same boolean, and that boolean is the same
    from every runtime: it depends on no state.  The metrics series are
    not all that changes between the calls.  Each call adds one sample to
    the error rate, to the success rate and to the duration trend, and
    one to the failed-request counter when the outcome is false; each
    call also reports its three named check results to k6 and, when the
    outcome is false, writes one error line.  Both calls add the same
    entries, and nothing else changes. *)
Theorem validateResponse_idempotent (r : K6Response) (name : jsstring)
    (expected : option Z) (w : K6Runtime) :
  let e := default_param expected HTTP_STATUS.OK in
  let c1 := status r =? e in
  let c2 := number_ltb (duration (timings r)) (number_of_Z 500) in
  let c3 := Body_not_null (body r) && (0 <? List.length (String_ (body r)))%nat in
  let ok := c1 && c2 && c3 in
  let samples (metric : jsstring) :=
    (if jsstring_eqb metric (lit "errors") then [BoolSample (negb ok)] else [])
    ++ (if jsstring_eqb metric (lit "success") then [BoolSample ok] else [])
    ++ (if jsstring_eqb metric (lit "api_duration")
        then [NumSample (duration (timings r))] else [])
    ++ (if ok then []
        else if jsstring_eqb metric (lit "failed_requests")
             then [NumSample (number_of_Z 1)] else []) in
  let reports :=
    [ (name ++ lit ": status is " ++ Number_toString e, c1);
      (name ++ lit ": response time < 500ms", c2);
      (name ++ lit ": response has body", c3) ] in
  let lines :=
    if ok then []
    else [ lit " [Validation] " ++ LoggerService.cross_mark ++ lit " "
             ++ name ++ lit " failed: Status " ++ Number_toString (status r)
             ++ lit ", Body: "
             ++ (if Body_truthy (body r)
                 then firstn 200 (String_ (body r))
                 else lit "No body") ] in
  exists w1 w2,
    validateResponse r name expected w = (Normal ok, w1) /\
    validateResponse r name expected w1 = (Normal ok, w2) /\
    (forall w0, fst (validateResponse r name expected w0) = Normal ok) /\
    (forall metric,
       series metric (metrics w1) = series metric (metrics w) ++ samples metric /\
       series metric (metrics w2) = series metric (metrics w1) ++ samples metric) /\
    check_results w1 = check_results w ++ reports /\
    check_results w2 = check_results w1 ++ reports /\
    check_results w1 <> check_results w /\
    check_results w2 <> check_results w1 /\
    console_error w1 = console_error w ++ lines /\
    console_error w2 = console_error w1 ++ lines.
Proof.
  intros e c1 c2 c3 ok samples reports lines.
  eexists; eexists.
  split; [apply validateResponse_run|].
  split; [apply validateResponse_run|].
  split; [intros w0; rewrite validateResponse_run; reflexivity|].
  cbn [metrics check_results console_error].
  fold e. fold c1. fold c2. fold c3. fold ok. fold reports. fold lines.
  assert (Hgrow : forall l : list (jsstring * bool), l ++ reports <> l).
  { intros l H. apply (f_equal (@List.length _)) in H.
    rewrite length_app in H. subst reports. cbn [List.length] in H. lia. }
  split; [|repeat split; try reflexivity; apply Hgrow].
  intros metric. subst samples. cbv beta.
  destruct ok; rewrite ?series_add_sample_app, <- ?app_assoc, ?app_nil_r;
    split; reflexivity.
Qed.

(** C9 as stated fails: a call changes more than the metrics series.  For
    an accepted response the check results reported to k6 are not what
    they were before the call, and for a rejected one the error log has
    grown as well. *)
Lemma validateResponse_reports_at_each_call :
  check_results
    (snd (validateResponse ok_response (lit "Login") (Some 200) fresh_runtime))
  <> check_results fresh_runtime /\
  console_error
    (snd (validateResponse not_found_response (lit "Get contact") (Some 200)
            fresh_runtime))
  <> console_error fresh_runtime.
Proof. split; vm_compute; discriminate. Qed.

(* ================================================================== *)
(** * The error-response validator *)
(* ================================================================== *)

(** C3.  [validateErrorResponse] returns true exactly when the status is
    the expected one and the body, parsed as JSON, contains a truthy
    [error] or [message] field; when the body does not parse, the second
    check is false and the function returns false instead of throwing. *)
Theorem validateErrorResponse_iff (JSON_parse : JSONParser) (r : K6Response)
    (name : jsstring) (e : Z) (w : K6Runtime) :
  exists b w',
    validateErrorResponse JSON_parse r name (Some e) w = (Normal b, w') /\
    (b = true <->
     status r = e /\
     exists v, JSON_parse (String_ (body r)) = Normal v /\ has_error_indicator v) /\
    ((exists err, JSON_parse (String_ (body r)) = Throw err) ->
     b = false /\
     check_results w' =
       check_results w ++
         [ (name ++ lit ": status is " ++ Number_toString e, status r =? e);
           (name ++ lit ": has error message", false) ]).
Proof.
  destruct (validateErrorResponse_run JSON_parse r name (Some e) w)
    as [c2 [Hc2 Hrun]].
  cbn [default_param] in Hrun.
  destruct (has_error_message_spec JSON_parse r) as [c2' [Hc2' Hiff]].
  assert (c2' = c2) by congruence; subst c2'.
  eexists; eexists. split; [exact Hrun|]. split.
  - rewrite andb_true_iff, Z.eqb_eq, Hiff. reflexivity.
  - intros [err Herr].
    rewrite (has_error_message_unparsable JSON_parse r err Herr) in Hc2.
    assert (c2 = false) by congruence; subst c2.
    split; [apply andb_false_r | reflexivity].
Qed.

Lemma validateErrorResponse_iff_witness :
  exists w',
    validateErrorResponse JSON.parse not_json_response (lit "Register")
      (Some 400) fresh_runtime = (Normal false, w').
Proof.
  destruct (validateErrorResponse_iff JSON.parse not_json_response
              (lit "Register") 400 fresh_runtime) as [b [w' [Hrun [_ Hthrow]]]].
  assert (Hb : b = false).
  { apply Hthrow. exists SyntaxError. vm_compute. reflexivity. }
  subst b. exists w'. exact Hrun.
Defined.

(** C5.  Neither validator throws: whatever the response and whatever
    [JSON.parse] does with the body, each returns a boolean; a body that
    does not parse makes the [has error message] check fail and
    [validateErrorResponse] return false. *)
Theorem validators_never_throw (JSON_parse : JSONParser) (r : K6Response)
    (name : jsstring) (expected : option Z) (w : K6Runtime) :
  (exists b w', validateResponse r name expected w = (Normal b, w')) /\
  (exists b w',
     validateErrorResponse JSON_parse r name expected w = (Normal b, w')) /\
  ((exists err, JSON_parse (String_ (body r)) = Throw err) ->
   exists w',
     validateErrorResponse JSON_parse r name expected w = (Normal false, w') /\
     In (name ++ lit ": has error message", false) (check_results w')).
Proof.
  split; [|split].
  - eexists; eexists. apply validateResponse_run.
  - destruct (validateErrorResponse_run JSON_parse r name expected w)
      as [c2 [_ Hrun]].
    eexists; eexists. exact Hrun.
  - intros [err Herr].
    destruct (validateErrorResponse_run JSON_parse r name expected w)
      as [c2 [Hc2 Hrun]].
    rewrite (has_error_message_unparsable JSON_parse r err Herr) in Hc2.
    assert (c2 = false) by congruence; subst c2.
    rewrite andb_false_r in Hrun.
    eexists. split; [exact Hrun|].
    cbn [check_results]. apply in_or_app. right. right. left. reflexivity.
Qed.

Lemma validators_never_throw_witness :
  exists w',
    validateErrorResponse JSON.parse html_response (lit "Register")
      None fresh_runtime = (Normal false, w') /\
    In (lit "Register" ++ lit ": has error message", false) (check_results w').
Proof.
  apply (validators_never_throw JSON.parse html_response
           (lit "Register") None fresh_runtime).
  exists SyntaxError. vm_compute. reflexivity.
Defined.

(** C6.  [validateErrorResponse] touches no metric and logs nothing: it
    reports its two named checks and returns their conjunction; the four
    metrics series and the error log are as before. *)
Theorem validateErrorResponse_frame (JSON_parse : JSONParser) (r : K6Response)
    (name : jsstring) (expected : option Z) (w : K6Runtime) :
  exists c1 c2 w',
    validateErrorResponse JSON_parse r name expected w = (Normal (c1 && c2), w') /\
    metrics w' = metrics w /\
    console_error w' = console_error w /\
    check_results w' =
      check_results w ++
        [ (name ++ lit ": status is "
                ++ Number_toString (default_param expected HTTP_STATUS.BAD_REQUEST),
           c1);
          (name ++ lit ": has error message", c2) ].
Proof.
  destruct (validateErrorResponse_run JSON_parse r name expected w)
    as [c2 [_ Hrun]].
  eexists; eexists; eexists. split; [exact Hrun|].
  repeat split; reflexivity.
Qed.

(* ================================================================== *)
(** * The earlier helpers against the service *)
(* ================================================================== *)

(** C10, as amended.  [checkErrorResponse] and [validateErrorResponse] do
    the same thing.  [checkResponse] and [validateResponse] return the
    same boolean, report the same named checks with the same outcomes and
    add the same samples to the four metrics.  When the outcome is true
    neither logs anything; when it is false each logs exactly one line.
    Both lines carry the same message, made of the test name, the status
    and a preview of the body of at most 200 characters, and the line
    of the service has the context tag [ [Validation] ] in front, which
    the line of the helper does not have. *)
Theorem helpers_agree_with_service (JSON_parse : JSONParser) (r : K6Response)
    (name : jsstring) (expected : option Z) (w : K6Runtime) :
  let preview :=
    if Body_truthy (body r) then firstn 200 (String_ (body r)) else lit "No body" in
  let message :=
    LoggerService.cross_mark ++ lit " " ++ name ++ lit " failed: Status "
      ++ Number_toString (status r) ++ lit ", Body: " ++ preview in
  helpers.checkErrorResponse JSON_parse r name expected w
    = validateErrorResponse JSON_parse r name expected w /\
  (List.length preview <= 200)%nat /\
  exists ok w1 w2,
    helpers.checkResponse r name expected w = (Normal ok, w1) /\
    validateResponse r name expected w = (Normal ok, w2) /\
    metrics w1 = metrics w2 /\
    check_results w1 = check_results w2 /\
    console_error w1 = console_error w ++ (if ok then [] else [message]) /\
    console_error w2 =
      console_error w ++ (if ok then [] else [lit " [Validation] " ++ message]).
Proof.
  intros preview message. split; [|split].
  - destruct (checkErrorResponse_run JSON_parse r name expected w)
      as [c2 [Hc2 Hold]].
    destruct (validateErrorResponse_run JSON_parse r name expected w)
      as [c2' [Hc2' Hnew]].
    assert (c2' = c2) by congruence; subst c2'.
    rewrite Hold, Hnew. destruct expected; reflexivity.
  - subst preview. destruct (Body_truthy (body r)).
    + rewrite length_firstn. lia.
    + cbn. lia.
  - rewrite checkResponse_run, validateResponse_run.
    assert (He : default_param expected 200 = default_param expected HTTP_STATUS.OK)
      by (destruct expected; reflexivity).
    rewrite He.
    destruct ((status r =? default_param expected HTTP_STATUS.OK)
              && number_ltb (duration (timings r)) (number_of_Z 500)
              && (Body_not_null (body r)
                  && (0 <? List.length (String_ (body r)))%nat)).
    + exists true. eexists; eexists.
      repeat split; reflexivity.
    + exists false. eexists; eexists.
      split; [reflexivity|]. split; [reflexivity|].
      cbn [metrics check_results console_error].
      repeat split; reflexivity.
Qed.

(** C10 as stated fails: for a response that is rejected, the line logged
    by [checkResponse] is not the line logged by [validateResponse]. *)
Lemma helpers_log_line_differs :
  console_error
    (snd (helpers.checkResponse not_found_response (lit "Get contact")
            (Some 200) fresh_runtime))
  <>
  console_error
    (snd (validateResponse not_found_response (lit "Get contact")
            (Some 200) fresh_runtime)).
Proof. vm_compute. discriminate. Qed.

(* ================================================================== *)
(** * The example scenarios *)
(* ================================================================== *)

(** Status 200, a JSON body, 120 ms: accepted; the error rate receives
    false and the success rate true. *)
Example scenario_accepted :
  exists w',
    validateResponse ok_response (lit "Login") (Some 200) fresh_runtime
      = (Normal true, w') /\
    series (lit "errors") (metrics w') = [BoolSample false] /\
    series (lit "success") (metrics w') = [BoolSample true] /\
    series (lit "api_duration") (metrics w') = [NumSample (number_of_Z 120)] /\
    series (lit "failed_requests") (metrics w') = [].
Proof. eexists. vm_compute. repeat split; reflexivity. Qed.

(** Status 404 with an empty body against an expected 200: rejected, the
    status check and the body check both fail, one failed request. *)
Example scenario_not_found :
  exists w',
    validateResponse not_found_response (lit "Get contact") (Some 200) fresh_runtime
      = (Normal false, w') /\
    check_results w' =
      [ (lit "Get contact: status is 200", false);
        (lit "Get contact: response time < 500ms", true);
        (lit "Get contact: response has body", false) ] /\
    series (lit "failed_requests") (metrics w') = [NumSample (number_of_Z 1)] /\
    console_error w' =
      [ lit " [Validation] " ++ LoggerService.cross_mark
          ++ lit " Get contact failed: Status 404, Body: No body" ].
Proof. eexists. vm_compute. repeat split; reflexivity. Qed.

(** Status 200 and a body, but 900 ms: only the latency check fails. *)
Example scenario_slow :
  exists w',
    validateResponse slow_response (lit "Login") (Some 200) fresh_runtime
      = (Normal false, w') /\
    List.map snd (check_results w') = [true; false; true].
Proof. eexists. vm_compute. repeat split; reflexivity. Qed.

(** Status 400 with a [message] field: the error validator accepts. *)
Example scenario_email_in_use :
  fst (validateErrorResponse JSON.parse email_in_use_response (lit "Register")
         (Some 400) fresh_runtime) = Normal true.
Proof. vm_compute. reflexivity. Qed.

(** Status 400 with the body [{}]: no [error] and no [message] key. *)
Example scenario_empty_object :
  fst (validateErrorResponse JSON.parse empty_object_response (lit "Register")
         (Some 400) fresh_runtime) = Normal false.
Proof. vm_compute. reflexivity. Qed.

(** The body [not json] with the expected status: false, nothing thrown. *)
Example scenario_not_json :
  JSON.parse (lit "not json") = Throw SyntaxError /\
  fst (validateErrorResponse JSON.parse not_json_response (lit "Register")
         (Some 400) fresh_runtime) = Normal false.
Proof. split; vm_compute; reflexivity. Qed.

(** A null body reads as the text [null], which parses; reading [error]
    from the result throws inside the check, which answers false. *)
Example scenario_null_body :
  JSON.parse (String_ BNull) = Normal JsNull /\
  Get JsNull (lit "error") = Throw TypeError /\
  fst (validateErrorResponse JSON.parse null_body_response (lit "Register")
         (Some 400) fresh_runtime) = Normal false.
Proof. repeat split; vm_compute; reflexivity. Qed.

(** An empty body is not JSON either. *)
Example scenario_empty_body :
  JSON.parse (String_ (BString [])) = Throw SyntaxError /\
  fst (validateErrorResponse JSON.parse (response 400 (BString []) 80)
         (lit "Register") (Some 400) fresh_runtime) = Normal false.
Proof. split; vm_compute; reflexivity. Qed.

(** A [message] that is present but empty is falsy: the check fails. *)
Example scenario_empty_message :
  fst (validateErrorResponse JSON.parse
         (response 400 (BString (litq "{'message':''}")) 80) (lit "Register")
         (Some 400) fresh_runtime) = Normal false.
Proof. vm_compute. reflexivity. Qed.

(** A binary body is not null and reads as a non-empty text. *)
Example scenario_binary_body :
  fst (validateResponse (response 200 (BArrayBuffer [1%N; 2%N]) 10) (lit "Export")
         None fresh_runtime) = Normal true.
Proof. vm_compute. reflexivity. Qed.

(* ================================================================== *)
(** * The validators of data *)
(* ================================================================== *)

Import ValidatorServiceData.

(** X1.  [validateRequired] succeeds exactly when every required field
    has a truthy value in the data; otherwise its message names the first
    required field, in the order given, whose value is falsy. *)
Theorem validateRequired_first_missing (data : list (jsstring * JsValue))
    (requiredFields : list jsstring) :
  let result := validateRequired data requiredFields in
  (success result = true <->
   Forall (fun f => truthy_at data f = true) requiredFields) /\
  (success result = true -> message result = None) /\
  (success result = false ->
   exists before field after,
     requiredFields = before ++ field :: after /\
     Forall (fun f => truthy_at data f = true) before /\
     truthy_at data field = false /\
     message result
       = Some (lit "Required field '" ++ field ++ lit "' is missing")).
Proof.
  induction requiredFields as [|f rest IH]; cbn [validateRequired].
  - cbn. repeat split; auto; discriminate.
  - destruct (truthy_at data f) eqn:Hf; cbn [negb].
    + destruct IH as [IH1 [IH2 IH3]]. split; [|split].
      * rewrite IH1. split.
        -- intros H; constructor; assumption.
        -- intros H; inversion H; assumption.
      * exact IH2.
      * intros Hfail. destruct (IH3 Hfail) as [b [x [a [E [Hb [Hx Hm]]]]]].
        exists (f :: b), x, a.
        split; [rewrite E; reflexivity|].
        split; [constructor; assumption|]. split; assumption.
    + cbn. split; [|split].
      * split; [discriminate|]. intros H; inversion H; congruence.
      * discriminate.
      * intros _. exists [], f, rest. repeat split; auto.
Qed.

(** X2.  A required field that the data lacks but every object inherits
    (such as [toString]) is not reported: the lookup finds the inherited
    member, which is truthy. *)
Theorem validateRequired_inherited_field (data : list (jsstring * JsValue))
    (field : jsstring) :
  lookup field data = None ->
  In field Object_prototype_keys ->
  validateRequired data [field] = {| success := true; message := None |}.
Proof.
  intros Hown Hin. cbn [validateRequired]. unfold truthy_at. rewrite Hown.
  assert (H : existsb (jsstring_eqb field) Object_prototype_keys = true).
  { apply existsb_exists. exists field. split; [exact Hin|].
    apply jsstring_eqb_refl. }
  rewrite H. reflexivity.
Qed.

Lemma validateRequired_inherited_field_witness :
  validateRequired [ (lit "email", JsString (lit "a@b.c")) ] [ lit "toString" ]
  = {| success := true; message := None |}.
Proof.
  apply (validateRequired_inherited_field
           [ (lit "email", JsString (lit "a@b.c")) ] (lit "toString")).
  - reflexivity.
  - cbn. tauto.
Defined.

(** X3.  [validateResponseBody] decides exactly what the [response has
    body] check of [validateResponse] decides, so a response that
    [validateResponse] accepts always has a valid body. *)
Theorem validateResponseBody_agrees (r : K6Response) :
  response_has_body r = Normal (JsBool (success (validateResponseBody r))) /\
  (success (validateResponseBody r) = true <->
   body r <> BNull /\ body r <> BString []) /\
  forall name expected w w',
    validateResponse r name expected w = (Normal true, w') ->
    validateResponseBody r = {| success := true; message := None |}.
Proof.
  assert (Hb : Body_not_null (body r) && (0 <? List.length (String_ (body r)))%nat
               = success (validateResponseBody r)).
  { unfold validateResponseBody.
    destruct (body r) as [|s|bytes]; [reflexivity| |reflexivity].
    destruct s; reflexivity. }
  split; [|split].
  - unfold response_has_body. rewrite Hb. reflexivity.
  - rewrite <- Hb. destruct (body r) as [|s|bytes]; cbn.
    + split; [discriminate | intros [H _]; congruence].
    + destruct s; cbn.
      * split; [discriminate | intros [_ H]; congruence].
      * split; [intros _; split; discriminate | reflexivity].
    + split; [intros _; split; discriminate | reflexivity].
  - intros name expected w w' Hrun.
    rewrite validateResponse_run in Hrun.
    injection Hrun as Hok _.
    apply andb_true_iff in Hok. destruct Hok as [_ Hbody].
    rewrite Hb in Hbody. unfold validateResponseBody in *.
    destruct (negb (Body_truthy (body r))
              || (List.length (String_ (body r)) =? 0)%nat);
      [discriminate | reflexivity].
Qed.

(* ================================================================== *)
(** * Running a script *)
(* ================================================================== *)

Lemma accepted_spec (r : K6Response) (name : jsstring) (e : Z) (k : K6Runtime) :
  ValidatorService.validateResponse r name (Some e) k
  = (Normal (accepted r e), validated r name e k).
Proof.
  unfold validated. rewrite validateResponse_run. reflexivity.
Qed.

Lemma in_runtime_validateResponse (r : K6Response) (name : jsstring) (e : Z)
    (w : World) :
  in_runtime (ValidatorService.validateResponse r name (Some e)) w
  = (Normal (accepted r e),
     {| runtime := validated r name e (runtime w);
        console_log := console_log w; console_warn := console_warn w;
        requests := requests w; sleeps := sleeps w;
        clock_reads := clock_reads w; random_draws := random_draws w;
       events := events w |}).
Proof. unfold in_runtime. rewrite accepted_spec. reflexivity. Qed.

(** What [debug] does, by whether debugging is on.  The data given by
    HttpService is always an object. *)
Lemma debug_run (env : Environment) (message : jsstring)
    (props : list (jsstring * JsValue)) (w : World) :
  LoggerServiceLog.debug env message (Some (JsObject props)) w
  = (Normal tt,
     {| runtime := runtime w;
        console_log :=
          console_log w ++
            (if debug_on env
             then [ lit "[" ++ Date_toISOString env (clock_reads w) ++ lit "] "
                      ++ LoggerServiceLog.magnifier ++ lit " " ++ message;
                    match JSON_stringify_indented env (JsObject props) with
                    | Some t => t
                    | None => lit "undefined"
                    end ]
             else []);
        console_warn := console_warn w;
        requests := requests w;
        sleeps := sleeps w;
        clock_reads := (if debug_on env then S (clock_reads w) else clock_reads w);
        random_draws := random_draws w;
       events := events w |}).
Proof.
  unfold LoggerServiceLog.debug, debug_on.
  destruct (ENV_DEBUG env) as [d|].
  - destruct (jsstring_eqb d (lit "true")).
    + cbn. unfold LoggerServiceLog.log_value, console_more.log.
      cbn. rewrite <- app_assoc. reflexivity.
    + cbn. rewrite app_nil_r. destruct w; reflexivity.
  - cbn. rewrite app_nil_r. destruct w; reflexivity.
Qed.

(** A call of HttpService: the debug output, then the request. *)
Lemma debug_then_request (env : Environment) (message : jsstring)
    (props : list (jsstring * JsValue)) (req : Request) (w : World) :
  (LoggerServiceLog.debug env message (Some (JsObject props)) ;;;
   http_request env req) w
  = (Normal (http_response env (requests w ++ [req])),
     {| runtime := runtime w;
        console_log :=
          console_log w ++
            (if debug_on env
             then [ lit "[" ++ Date_toISOString env (clock_reads w) ++ lit "] "
                      ++ LoggerServiceLog.magnifier ++ lit " " ++ message;
                    match JSON_stringify_indented env (JsObject props) with
                    | Some t => t
                    | None => lit "undefined"
                    end ]
             else []);
        console_warn := console_warn w;
        requests := requests w ++ [req];
        sleeps := sleeps w;
        clock_reads := (if debug_on env then S (clock_reads w) else clock_reads w);
        random_draws := random_draws w;
       events := events w ++ [Sent req] |}).
Proof. cbn [bind Monad_Script]. rewrite debug_run. reflexivity. Qed.

Ltac run_script :=
  repeat first
    [ rewrite debug_run
    | rewrite in_runtime_validateResponse
    | progress cbn [bind ret Monad_Script Monad_VU Monad_Completion eval raise
                    in_runtime http_request tick_clock tick_random sleep
                    console_more.log console_more.warn console.error
                    LoggerServiceLog.test LoggerServiceLog.getTimestamp
                    LoggerServiceLog.success LoggerServiceLog.warn
                    LoggerServiceLog.error LoggerServiceLog.info
                    LoggerService.error SleepUtil.short
                    runtime console_log console_warn requests sleeps
                    clock_reads random_draws events
                    metrics check_results console_error fst snd negb] ].

(* ================================================================== *)
(** * HttpService and the logger *)
(* ================================================================== *)

(** X4.  The headers of a request: the content type is always JSON, and
    the authorization is [Bearer] and the token exactly when a non-empty
    token is given; an empty token is sent like no token at all.  The
    earlier helpers build the same headers. *)
Theorem headers_for_token (token : option jsstring) :
  lookup HTTP_HEADERS.CONTENT_TYPE (HttpService.headers_for token)
    = Some CONTENT_TYPE.JSON /\
  lookup HTTP_HEADERS.AUTHORIZATION (HttpService.headers_for token)
    = match token with
      | Some (c :: t) => Some (lit "Bearer " ++ c :: t)
      | _ => None
      end /\
  HttpService.headers_for (Some []) = HttpService.headers_for None /\
  HttpService.getStandardHeaders = helpers_more.getHeaders /\
  forall t, HttpService.getAuthHeaders t = helpers_more.getAuthHeaders t.
Proof.
  repeat split.
  - destruct token as [[|c t]|]; reflexivity.
  - destruct token as [[|c t]|]; reflexivity.
Qed.

Lemma HttpService_call (env : Environment) (m : Method) (message path : jsstring)
    (props : list (jsstring * JsValue)) (body : JsValue)
    (token : option jsstring) (w : World) :
  exists w',
    (LoggerServiceLog.debug env message (Some (JsObject props)) ;;;
     http_request env (request_to env m path body token)) w
    = (Normal (http_response env
                 (requests w ++ [request_to env m path body token])), w') /\
    requests w' = requests w ++ [request_to env m path body token] /\
    runtime w' = runtime w /\
    console_warn w' = console_warn w /\
    sleeps w' = sleeps w /\
    random_draws w' = random_draws w /\
    (debug_on env = false ->
     console_log w' = console_log w /\ clock_reads w' = clock_reads w).
Proof.
  eexists. split; [apply debug_then_request|].
  cbn [requests runtime console_warn sleeps random_draws console_log clock_reads].
  repeat split; try reflexivity.
  - rewrite H. apply app_nil_r.
  - rewrite H. reflexivity.
Qed.

(** X5.  Each of the five calls of HttpService sends exactly one request,
    to the given URL, with the headers of the token, and returns what the
    server answers; [post] sends [null] for a falsy payload, [put] and
    [patch] always send the JSON text.  No call touches the metrics, the
    checks or the error log, warns or sleeps; and unless [__ENV.DEBUG] is
    the string [true], none writes to the console or reads the clock. *)
Theorem HttpService_sends_one_request (env : Environment) (path : jsstring)
    (data : JsValue) (token : option jsstring) (w : World) :
  let url := config_baseUrl env ++ path in
  let effect (call : Script K6Response) (m : Method) (body : JsValue) :=
    exists w',
      call w = (Normal (http_response env
                          (requests w ++ [request_to env m path body token])), w') /\
      requests w' = requests w ++ [request_to env m path body token] /\
      runtime w' = runtime w /\
      console_warn w' = console_warn w /\
      sleeps w' = sleeps w /\
      random_draws w' = random_draws w /\
      (debug_on env = false ->
       console_log w' = console_log w /\ clock_reads w' = clock_reads w) in
  effect (HttpService.get env url token) GET JsUndefined /\
  effect (HttpService.post env url data token) POST
    (if ToBoolean data then JSON_stringify env data else JsNull) /\
  effect (HttpService.put env url data token) PUT (JSON_stringify env data) /\
  effect (HttpService.patch env url data token) PATCH (JSON_stringify env data) /\
  effect (HttpService.delete env url token) DELETE JsNull.
Proof.
  cbv zeta. repeat split; apply HttpService_call.
Qed.

(** X6.  [header] writes three lines: two separators of 60 double lines
    around the title line.  The title is padded to 56 and framed by six
    more characters, so the title line is at least 62 long and never as
    wide as the separators. *)
Theorem header_lines (title : jsstring) (w : World) :
  exists w' rule line,
    LoggerServiceLog.header title w = (Normal tt, w') /\
    console_log w' = console_log w ++ [rule; line; rule] /\
    rule = repeat 9552%N 60 /\
    line = LoggerServiceLog.double_bar ++ lit "  " ++ padEnd 56 title
             ++ lit "  " ++ LoggerServiceLog.double_bar /\
    List.length line = (6 + Nat.max 56 (List.length title))%nat /\
    List.length rule <> List.length line /\
    contains title line /\
    runtime w' = runtime w /\ console_warn w' = console_warn w.
Proof.
  eexists; eexists; eexists.
  split; [|split; [|split; [reflexivity|split; [reflexivity|]]]].
  - unfold LoggerServiceLog.header, LoggerServiceLog.separator.
    cbn. reflexivity.
  - cbn. rewrite <- !app_assoc. reflexivity.
  - assert (Hlen : List.length
                     (LoggerServiceLog.double_bar ++ lit "  " ++ padEnd 56 title
                        ++ lit "  " ++ LoggerServiceLog.double_bar)
                   = (6 + Nat.max 56 (List.length title))%nat).
    { unfold padEnd. rewrite !length_app, repeat_length. cbn [List.length].
      unfold LoggerServiceLog.double_bar. cbn [List.length lit List.map
        list_ascii_of_string]. lia. }
    split; [exact Hlen|]. split.
    + rewrite Hlen, repeat_length. lia.
    + split; [|split; reflexivity].
      exists (LoggerServiceLog.double_bar ++ lit "  "),
             (repeat 32%N (56 - List.length title) ++ lit "  "
                ++ LoggerServiceLog.double_bar).
      unfold padEnd. rewrite <- !app_assoc. reflexivity.
Qed.

(** X7.  [separator] writes one line, [length] copies of the character;
    for a negative length it throws a RangeError and writes nothing. *)
Theorem separator_line (char : jsstring) (length : Z) (w : World) :
  (0 <= length ->
   exists w',
     LoggerServiceLog.separator (Some char) (Some length) w = (Normal tt, w') /\
     console_log w'
       = console_log w ++ [List.concat (repeat char (Z.to_nat length))] /\
     List.length (List.concat (repeat char (Z.to_nat length)))
       = (Z.to_nat length * List.length char)%nat) /\
  (length < 0 ->
   LoggerServiceLog.separator (Some char) (Some length) w = (Throw RangeError, w)).
Proof.
  unfold LoggerServiceLog.separator, LoggerServiceLog.String_repeat.
  cbn [default_param]. split; intros H.
  - assert (E : (length <? 0) = false) by (apply Z.ltb_ge; exact H).
    rewrite E. eexists. split; [reflexivity|]. split; [reflexivity|].
    induction (Z.to_nat length) as [|n IH]; [reflexivity|].
    cbn [repeat List.concat]. rewrite length_app, IH. lia.
  - assert (E : (length <? 0) = true) by (apply Z.ltb_lt; exact H).
    rewrite E. reflexivity.
Qed.

Lemma separator_line_witness :
  (exists w',
     LoggerServiceLog.separator (Some (lit "=")) (Some 10) fresh_world
       = (Normal tt, w') /\
     console_log w'
       = console_log fresh_world ++ [List.concat (repeat (lit "=") (Z.to_nat 10))] /\
     List.length (List.concat (repeat (lit "=") (Z.to_nat 10)))
       = (Z.to_nat 10 * List.length (lit "="))%nat) /\
  LoggerServiceLog.separator (Some (lit "=")) (Some (-1)) fresh_world
    = (Throw RangeError, fresh_world).
Proof.
  split.
  - apply (separator_line (lit "=") 10 fresh_world). lia.
  - apply (separator_line (lit "=") (-1) fresh_world). lia.
Defined.

(* ================================================================== *)
(** * AuthHelper *)
(* ================================================================== *)

(** X8.  [logout] sends one POST to the logout endpoint with the token
    and no body, and returns what [validateResponse] decides about the
    answer (expected status 200).  A rejected answer costs one warning and
    is otherwise only recorded by the validator; nothing is thrown. *)
Theorem logout_outcome (env : Environment) (token : jsstring) (w : World) :
  let resp := http_response env (requests w ++ [logout_request env token]) in
  exists w',
    AuthHelper.logout env token w = (Normal (accepted resp 200), w') /\
    requests w' = requests w ++ [logout_request env token] /\
    runtime w' = validated resp (lit "User Logout") 200 (runtime w) /\
    console_warn w' =
      console_warn w ++
        (if accepted resp 200 then []
         else [ lit " " ++ LoggerServiceLog.warning_mark
                  ++ lit "  Logout failed but continuing" ]) /\
    sleeps w' = sleeps w.
Proof.
  intros resp.
  unfold AuthHelper.logout, UserAPI.logout, HttpService.post.
  run_script. cbn [ToBoolean].
  fold (request_to env POST API_ENDPOINTS.USERS_LOGOUT JsNull (Some token)).
  fold (logout_request env token). fold resp.
  change HTTP_STATUS.OK with 200.
  destruct (accepted resp 200); run_script.
  - eexists. split; [reflexivity|]. cbn. rewrite app_nil_r. repeat split.
  - eexists. split; [reflexivity|]. cbn. repeat split.
Qed.

Lemma app_middle {A : Type} (a b c d : list A) :
  ((a ++ b) ++ c) ++ d = a ++ (b ++ c) ++ d.
Proof. rewrite <- !app_assoc. reflexivity. Qed.

Ltac login_steps env email password resp :=
  unfold AuthHelper.login, UserAPI.login, HttpService.post;
  run_script; cbn [ToBoolean];
  fold (request_to env POST API_ENDPOINTS.USERS_LOGIN
          (JSON_stringify env
             (JsObject (object_literal [ (lit "email", JsString email);
                                         (lit "password", JsString password) ])))
          None);
  fold (login_request env email password); fold resp;
  change HTTP_STATUS.OK with 200.

(** X9.  What [login] returns is never half an authentication: either the
    failure result, with [null] for token and user identifier, or a
    success whose token is truthy (so [validateToken] accepts it) and was
    read, with the identifier, from the parsed body of an answer that
    [validateResponse] accepted.  Either way exactly one request was
    sent. *)
Theorem login_result_sound (env : Environment) (email password : jsstring)
    (w w' : World) (r : AuthHelper.AuthResult) :
  AuthHelper.login env email password w = (Normal r, w') ->
  let resp := http_response env (requests w ++ [login_request env email password]) in
  requests w' = requests w ++ [login_request env email password] /\
  (r = AuthHelper.failed \/
   (AuthHelper.success r = true /\
    accepted resp 200 = true /\
    ToBoolean (AuthHelper.token r) = true /\
    validateToken (AuthHelper.token r) = {| success := true; message := None |} /\
    exists v u,
      JSON_parse_builtin env (String_ (body resp)) = Normal v /\
      Get v (lit "token") = Normal (AuthHelper.token r) /\
      Get v (lit "user") = Normal u /\
      Get u (lit "_id") = Normal (AuthHelper.userId r))).
Proof.
  intros Hrun resp. revert Hrun.
  login_steps env email password resp.
  destruct (accepted resp 200) eqn:Hacc; run_script.
  2:{ intros H; inversion H; subst; cbn. split; [reflexivity | left; reflexivity]. }
  unfold HttpService.parseJsonResponse.
  destruct (JSON_parse_builtin env (String_ (body resp))) as [v|err] eqn:Hp;
    run_script.
  2:{ intros H; inversion H; subst; cbn. split; [reflexivity | left; reflexivity]. }
  destruct (ToBoolean v) eqn:Hv; run_script.
  2:{ intros H; inversion H; subst; cbn. split; [reflexivity | left; reflexivity]. }
  destruct (Get v (lit "token")) as [t|err] eqn:Ht; run_script.
  2:{ intros H; inversion H. }
  destruct (ToBoolean t) eqn:Htt; run_script.
  2:{ intros H; inversion H; subst; cbn. split; [reflexivity | left; reflexivity]. }
  destruct (Get v (lit "user")) as [u|err] eqn:Hu; run_script.
  2:{ intros H; inversion H. }
  destruct (Get u (lit "_id")) as [id|err] eqn:Hid; run_script.
  2:{ intros H; inversion H. }
  intros H; inversion H; subst; cbn. split; [reflexivity|]. right.
  repeat split; auto.
  - unfold validateToken. rewrite Htt. reflexivity.
  - exists v, u. auto.
Qed.

Lemma login_result_sound_witness :
  let env := sample_env login_ok_response in
  let w' := snd (AuthHelper.login env (lit "a@b.c") (lit "secret") fresh_world) in
  let r := {| AuthHelper.success := true;
              AuthHelper.token := JsString (lit "tok123");
              AuthHelper.userId := JsString (lit "u1");
              AuthHelper.user := None |} in
  let resp := http_response env
                (requests fresh_world
                   ++ [login_request env (lit "a@b.c") (lit "secret")]) in
  requests w' = requests fresh_world
                  ++ [login_request env (lit "a@b.c") (lit "secret")] /\
  (r = AuthHelper.failed \/
   (AuthHelper.success r = true /\
    accepted resp 200 = true /\
    ToBoolean (AuthHelper.token r) = true /\
    validateToken (AuthHelper.token r) = {| success := true; message := None |} /\
    exists v u,
      JSON_parse_builtin env (String_ (body resp)) = Normal v /\
      Get v (lit "token") = Normal (AuthHelper.token r) /\
      Get v (lit "user") = Normal u /\
      Get u (lit "_id") = Normal (AuthHelper.userId r))).
Proof.
  intros env w' r.
  apply (login_result_sound env (lit "a@b.c") (lit "secret") fresh_world w' r).
  vm_compute. reflexivity.
Defined.

(** X10.  When the answer is accepted and its body has a truthy token but
    no [user] (or a [null] one), [login] does not return: reading
    [user._id] throws a TypeError.  By then the validator has recorded the
    answer and the success line is the last line logged. *)
Theorem login_throws_without_user (env : Environment) (email password : jsstring)
    (w : World) (v t u : JsValue) :
  let resp := http_response env (requests w ++ [login_request env email password]) in
  accepted resp 200 = true ->
  JSON_parse_builtin env (String_ (body resp)) = Normal v ->
  Get v (lit "token") = Normal t ->
  ToBoolean t = true ->
  Get v (lit "user") = Normal u ->
  u = JsNull \/ u = JsUndefined ->
  exists w' lines,
    AuthHelper.login env email password w = (Throw TypeError, w') /\
    requests w' = requests w ++ [login_request env email password] /\
    runtime w' = validated resp (lit "User Login") 200 (runtime w) /\
    console_log w' =
      console_log w ++ lines
        ++ [ lit " " ++ LoggerServiceLog.check_mark ++ lit " "
               ++ LOG_MESSAGES.USER_LOGGED_IN ].
Proof.
  intros resp Hacc Hp Ht Htt Hu Hnull. revert Hacc Hp.
  login_steps env email password resp.
  intros Hacc Hp. rewrite Hacc. run_script.
  unfold HttpService.parseJsonResponse. rewrite Hp. run_script.
  assert (Hv : ToBoolean v = true).
  { destruct v; try reflexivity; cbn in Ht; try discriminate;
      inversion Ht; subst; discriminate. }
  rewrite Hv. run_script. rewrite Ht. run_script. rewrite Htt. run_script.
  rewrite Hu.
  assert (Hid : Get u (lit "_id") = Throw TypeError)
    by (destruct Hnull; subst; reflexivity).
  rewrite Hid.
  eexists. eexists. split; [reflexivity|]. cbn [runtime console_log requests].
  split; [reflexivity|]. split; [reflexivity|].
  apply app_middle.
Qed.

Lemma login_throws_without_user_witness :
  let env := sample_env token_without_user_response in
  exists w' lines,
    AuthHelper.login env (lit "a@b.c") (lit "secret") fresh_world
      = (Throw TypeError, w') /\
    requests w' = requests fresh_world
                    ++ [login_request env (lit "a@b.c") (lit "secret")] /\
    runtime w' =
      validated (http_response env
                   (requests fresh_world
                      ++ [login_request env (lit "a@b.c") (lit "secret")]))
        (lit "User Login") 200 (runtime fresh_world) /\
    console_log w' =
      console_log fresh_world ++ lines
        ++ [ lit " " ++ LoggerServiceLog.check_mark ++ lit " "
               ++ LOG_MESSAGES.USER_LOGGED_IN ].
Proof.
  intros env.
  apply (login_throws_without_user env (lit "a@b.c") (lit "secret") fresh_world
           (JsObject [(lit "token", JsString (lit "tok123"))])
           (JsString (lit "tok123")) JsUndefined).
  - vm_compute. reflexivity.
  - vm_compute. reflexivity.
  - vm_compute. reflexivity.
  - vm_compute. reflexivity.
  - vm_compute. reflexivity.
  - right. reflexivity.
Defined.

(* ================================================================== *)
(** * ContactHelper *)
(* ================================================================== *)

Lemma validated_series (n : jsstring) (r : K6Response) (name : jsstring) (e : Z)
    (k : K6Runtime) :
  series n (metrics (validated r name e k)) =
  series n (metrics k)
    ++ (if jsstring_eqb n (lit "errors")
        then [BoolSample (negb (accepted r e))] else [])
    ++ (if jsstring_eqb n (lit "success")
        then [BoolSample (accepted r e)] else [])
    ++ (if jsstring_eqb n (lit "api_duration")
        then [NumSample (duration (timings r))] else [])
    ++ (if jsstring_eqb n (lit "failed_requests")
        then (if accepted r e then [] else [NumSample (number_of_Z 1)]) else []).
Proof.
  unfold validated. rewrite validateResponse_run. cbn [snd metrics default_param].
  unfold accepted.
  match goal with |- context [if ?b then add_sample _ _ _ else _] => destruct b end;
    rewrite !series_add_sample_app, <- !app_assoc;
    destruct (jsstring_eqb n (lit "failed_requests")); rewrite ?app_nil_r;
    reflexivity.
Qed.

(** A conversion to text fails with a TypeError only. *)
Lemma ToString_TypeError (num : number -> jsstring) :
  forall (v : JsValue) (e : JsError), ToString num v = Throw e -> e = TypeError.
Proof.
  fix IH 1. intros v. destruct v as [ | |b|x|s|elements|props]; intros e;
    cbn [ToString]; try discriminate.
  - destruct b; discriminate.
  - match goal with
    | |- match ?t elements with _ => _ end = _ -> _ =>
        assert (Hl : forall e', t elements = Throw e' -> e' = TypeError)
    end.
    { clear e. revert elements. fix IHl 1. intros [|a rest] e'; [discriminate|].
      pose proof (IH a) as IHa. pose proof (IHl rest) as IHr.
      match goal with
      | |- match ?c with _ => _ end = _ -> _ =>
          assert (Hc : forall err, c = Throw err -> err = TypeError)
            by (destruct a; try discriminate; exact IHa);
          destruct c as [t0|err0]
      end.
      - match goal with
        | |- match ?t rest with _ => _ end = _ -> _ =>
            destruct (t rest) as [ts|err]; [discriminate|]
        end.
        intros H; inversion H; subst. apply IHr. reflexivity.
      - intros H; inversion H; subst. apply Hc. reflexivity. }
    match goal with
    | |- match ?t elements with _ => _ end = _ -> _ =>
        destruct (t elements) as [ts|err]; [discriminate|]
    end.
    intros H; inversion H; subst. apply Hl. reflexivity.
  - destruct (lookup (lit "toString") props); [|discriminate].
    intros H; inversion H. reflexivity.
Qed.

Lemma texts_of_strings (env : Environment) (texts : list jsstring) :
  texts_of env (List.map JsString texts) = Normal texts.
Proof.
  induction texts as [|t rest IH]; [reflexivity|].
  cbn [List.map texts_of ToString bind Monad_Completion]. rewrite IH. reflexivity.
Qed.

Lemma texts_of_length (env : Environment) (contactIds : list JsValue) :
  forall texts,
    texts_of env contactIds = Normal texts ->
    List.length texts = List.length contactIds.
Proof.
  induction contactIds as [|c rest IH]; intros texts; cbn [texts_of].
  - intros H; inversion H. reflexivity.
  - cbn [bind Monad_Completion].
    destruct (ToString (Number_to_string env) c) as [t|e]; [|discriminate].
    destruct (texts_of env rest) as [ts|e]; [|discriminate].
    cbn [ret Monad_Completion]. intros H; inversion H.
    cbn [List.length]. rewrite (IH ts eq_refl). reflexivity.
Qed.

(** One DELETE: the lines it leaves in the log when debugging is on, and
    nothing at all when the identifier has no text. *)
Lemma deleteOne_run (env : Environment) (token : jsstring) (contactId : JsValue)
    (text : jsstring) (w : World) :
  ToString (Number_to_string env) contactId = Normal text ->
  let resp := http_response env (requests w ++ [delete_request env token text]) in
  exists lines n,
    ContactHelper.deleteOne env token contactId w
    = (Normal (accepted resp 200),
       {| runtime := validated resp (lit "Delete Contact") 200 (runtime w);
          console_log := console_log w ++ lines;
          console_warn := console_warn w;
          requests := requests w ++ [delete_request env token text];
          sleeps := sleeps w;
          clock_reads := n;
          random_draws := random_draws w;
          events := events w ++ [Sent (delete_request env token text)] |}).
Proof.
  intros Htext resp.
  unfold ContactHelper.deleteOne, ContactAPI.delete, HttpService.delete,
    ContactAPI.contact_url.
  cbn [bind Monad_Script Monad_Completion eval]. rewrite Htext.
  run_script.
  fold (request_to env DELETE (API_ENDPOINTS.CONTACT_BY_ID text) JsNull (Some token)).
  fold (delete_request env token text). fold resp.
  change HTTP_STATUS.OK with 200.
  eexists. eexists.
  destruct (accepted resp 200); run_script; reflexivity.
Qed.

Lemma deleteOne_throws (env : Environment) (token : jsstring) (contactId : JsValue)
    (e : JsError) (w : World) :
  ToString (Number_to_string env) contactId = Throw e ->
  ContactHelper.deleteOne env token contactId w = (Throw e, w).
Proof.
  intros Htext.
  unfold ContactHelper.deleteOne, ContactAPI.delete, ContactAPI.contact_url.
  cbn [bind Monad_Script Monad_Completion eval]. rewrite Htext. reflexivity.
Qed.

Lemma deleteMultiple_loop_run (env : Environment) (token : jsstring)
    (contactIds : list JsValue) :
  forall (texts : list jsstring) (deletedCount : Z) (w : World),
  texts_of env contactIds = Normal texts ->
  let answers := delete_answers env token texts (requests w) in
  exists w' lines,
    ContactHelper.deleteMultiple_loop env token contactIds deletedCount w
    = (Normal (deletedCount + Z.of_nat (count_accepted answers 200)), w') /\
    events w' =
      events w ++
        flat_map (fun t => [ Sent (delete_request env token t);
                             Slept TEST_CONFIG_more.DEFAULT_SHORT_SLEEP ]) texts /\
    requests w' = requests w ++ List.map (delete_request env token) texts /\
    sleeps w' = sleeps w
                  ++ repeat TEST_CONFIG_more.DEFAULT_SHORT_SLEEP
                       (List.length texts) /\
    runtime w' = validated_all answers (lit "Delete Contact") 200 (runtime w) /\
    console_log w' = console_log w ++ lines /\
    console_warn w' = console_warn w /\
    random_draws w' = random_draws w.
Proof.
  induction contactIds as [|contactId rest IH];
    intros texts deletedCount w Htexts answers.
  - cbn [texts_of] in Htexts. inversion Htexts; subst texts.
    exists w, []. subst answers. cbn. rewrite Z.add_0_r, !app_nil_r.
    repeat split.
  - cbn [texts_of bind Monad_Completion] in Htexts.
    destruct (ToString (Number_to_string env) contactId) as [t|e] eqn:Ht;
      [|discriminate].
    destruct (texts_of env rest) as [ts|e] eqn:Hts; [|discriminate].
    cbn [ret Monad_Completion] in Htexts. inversion Htexts; subst texts.
    cbn [ContactHelper.deleteMultiple_loop].
    destruct (deleteOne_run env token contactId t w Ht) as (lines1 & n & Hone).
    cbn zeta in Hone. cbn [bind Monad_Script]. rewrite Hone.
    run_script.
    match goal with
    | |- context [ContactHelper.deleteMultiple_loop env token rest ?c ?w1] =>
        destruct (IH ts c w1 eq_refl)
          as (w' & lines & Hrun & Hev & Hreq & Hsl & Hrt & Hlog & Hwarn & Hrd)
    end.
    cbn [requests sleeps runtime console_log console_warn random_draws events] in *.
    exists w', (lines1 ++ lines). rewrite Hrun.
    subst answers. cbn [delete_answers].
    set (resp := http_response env (requests w ++ [delete_request env token t])) in *.
    set (rest_answers := delete_answers env token ts _) in *.
    unfold count_accepted in *. cbn [filter validated_all fold_left List.map
                                     List.length repeat flat_map].
    split.
    { f_equal. destruct (accepted resp 200); cbn [List.length]; f_equal; lia. }
    split. { rewrite Hev, <- !app_assoc. reflexivity. }
    split. { rewrite Hreq, <- app_assoc. reflexivity. }
    split. { rewrite Hsl, <- app_assoc. reflexivity. }
    split. { exact Hrt. }
    split. { rewrite Hlog, <- app_assoc. reflexivity. }
    split; assumption.
Qed.

Lemma deleteMultiple_loop_throws (env : Environment) (token : jsstring)
    (contactIds : list JsValue) :
  forall (e : JsError) (deletedCount : Z) (w : World),
  texts_of env contactIds = Throw e ->
  exists w',
    ContactHelper.deleteMultiple_loop env token contactIds deletedCount w
    = (Throw TypeError, w').
Proof.
  induction contactIds as [|contactId rest IH]; intros e deletedCount w Htexts.
  - discriminate.
  - cbn [texts_of bind Monad_Completion] in Htexts.
    cbn [ContactHelper.deleteMultiple_loop bind Monad_Script].
    destruct (ToString (Number_to_string env) contactId) as [t|e0] eqn:Ht.
    + destruct (texts_of env rest) as [ts|e1] eqn:Hts; [discriminate|].
      destruct (deleteOne_run env token contactId t w Ht) as (lines1 & n & Hone).
      cbn zeta in Hone. rewrite Hone. run_script.
      match goal with
      | |- context [ContactHelper.deleteMultiple_loop env token rest ?c ?w1] =>
          destruct (IH e1 c w1 eq_refl) as (w' & Hrun)
      end.
      exists w'. exact Hrun.
    + rewrite (deleteOne_throws env token contactId e0 w Ht).
      rewrite (ToString_TypeError _ _ _ Ht). exists w. reflexivity.
Qed.

Lemma count_accepted_le (answers : list K6Response) (e : Z) :
  (count_accepted answers e <= List.length answers)%nat.
Proof. apply filter_length_le. Qed.

Lemma delete_answers_length (env : Environment) (token : jsstring)
    (contactIds : list jsstring) :
  forall sent,
    List.length (delete_answers env token contactIds sent) = List.length contactIds.
Proof.
  induction contactIds as [|c rest IH]; intros sent; [reflexivity|].
  cbn [delete_answers List.length]. rewrite IH. reflexivity.
Qed.

Lemma deleteMultiple_run (env : Environment) (token : jsstring)
    (contactIds : list JsValue) (texts : list jsstring) (w : World) :
  texts_of env contactIds = Normal texts ->
  let answers := delete_answers env token texts (requests w) in
  let deleted := count_accepted answers 200 in
  exists w' lines,
    ContactHelper.deleteMultiple env token contactIds w
      = (Normal (Z.of_nat deleted), w') /\
    (deleted <= List.length contactIds)%nat /\
    events w' =
      events w ++
        flat_map (fun t => [ Sent (delete_request env token t);
                             Slept TEST_CONFIG_more.DEFAULT_SHORT_SLEEP ]) texts /\
    requests w' = requests w ++ List.map (delete_request env token) texts /\
    runtime w' = validated_all answers (lit "Delete Contact") 200 (runtime w) /\
    console_log w' =
      console_log w ++ lines
        ++ [ lit " " ++ LoggerServiceLog.check_mark ++ lit " "
               ++ LOG_MESSAGES.CONTACT_DELETED ++ lit " - Deleted "
               ++ Number_toString (Z.of_nat deleted) ++ lit " contact(s)" ] /\
    console_warn w' = console_warn w.
Proof.
  intros Htexts answers deleted.
  unfold ContactHelper.deleteMultiple. run_script.
  match goal with
  | |- context [ContactHelper.deleteMultiple_loop env token contactIds 0 ?w1] =>
      destruct (deleteMultiple_loop_run env token contactIds texts 0 w1 Htexts)
        as (w1' & lines & Hrun & Hev & Hreq & Hsl & Hrt & Hlog & Hwarn & _)
  end.
  cbn [requests sleeps runtime console_log console_warn events] in *.
  fold answers in Hrun, Hrt. fold deleted in Hrun. rewrite Z.add_0_l in Hrun.
  rewrite Hrun. run_script.
  eexists. eexists. split; [reflexivity|].
  cbn [requests sleeps runtime console_log console_warn events].
  split.
  { unfold deleted.
    rewrite <- (texts_of_length env contactIds texts Htexts).
    rewrite <- (delete_answers_length env token texts (requests w)).
    apply count_accepted_le. }
  split; [exact Hev|]. split; [exact Hreq|]. split; [exact Hrt|].
  split; [|exact Hwarn].
  rewrite Hlog. apply app_middle.
Qed.

Lemma deleteMultiple_throws (env : Environment) (token : jsstring)
    (contactIds : list JsValue) (e : JsError) (w : World) :
  texts_of env contactIds = Throw e ->
  exists w', ContactHelper.deleteMultiple env token contactIds w
             = (Throw TypeError, w').
Proof.
  intros Htexts.
  unfold ContactHelper.deleteMultiple. run_script.
  match goal with
  | |- context [ContactHelper.deleteMultiple_loop env token contactIds 0 ?w1] =>
      destruct (deleteMultiple_loop_throws env token contactIds e 0 w1 Htexts)
        as (w' & Hrun)
  end.
  rewrite Hrun. exists w'. reflexivity.
Qed.

(** X11.  [deleteMultiple] works through the identifiers in order: for
    each it sends one DELETE with the token and then sleeps half a
    second, so that every DELETE is followed by a sleep before the next
    one goes out.  When every identifier has a text, as every string
    has, it does not throw: it runs [validateResponse] (expected status
    200) on each answer and returns how many answers were accepted, a
    number between zero and the number of identifiers, which it reports
    in its last log line.  An identifier without a text (an object with
    an own [toString] property) makes it throw the TypeError of the URL
    template. *)
Theorem deleteMultiple_outcome (env : Environment) (token : jsstring)
    (contactIds : list JsValue) (w : World) :
  match texts_of env contactIds with
  | Normal texts =>
      let answers := delete_answers env token texts (requests w) in
      let deleted := count_accepted answers 200 in
      exists w' lines,
        ContactHelper.deleteMultiple env token contactIds w
          = (Normal (Z.of_nat deleted), w') /\
        (deleted <= List.length contactIds)%nat /\
        events w' =
          events w ++
            flat_map (fun t => [ Sent (delete_request env token t);
                                 Slept TEST_CONFIG_more.DEFAULT_SHORT_SLEEP ])
              texts /\
        requests w' = requests w ++ List.map (delete_request env token) texts /\
        runtime w' = validated_all answers (lit "Delete Contact") 200 (runtime w) /\
        console_log w' =
          console_log w ++ lines
            ++ [ lit " " ++ LoggerServiceLog.check_mark ++ lit " "
                   ++ LOG_MESSAGES.CONTACT_DELETED ++ lit " - Deleted "
                   ++ Number_toString (Z.of_nat deleted) ++ lit " contact(s)" ] /\
        console_warn w' = console_warn w
  | Throw _ =>
      exists w',
        ContactHelper.deleteMultiple env token contactIds w = (Throw TypeError, w')
  end.
Proof.
  destruct (texts_of env contactIds) as [texts|e] eqn:Htexts.
  - exact (deleteMultiple_run env token contactIds texts w Htexts).
  - exact (deleteMultiple_throws env token contactIds e w Htexts).
Qed.

(** X12.  After [validateResponse] has run on a sequence of answers, the
    success and error rates hold one sample per answer, in order and
    complementary; the failed-request counter and the error log have
    grown by one entry per rejected answer, and three check results were
    reported per answer. *)
Theorem validated_all_counts (answers : list K6Response) (name : jsstring)
    (e : Z) (k : K6Runtime) :
  let k' := validated_all answers name e k in
  let rejected := (List.length answers - count_accepted answers e)%nat in
  series MetricsService.successRate (metrics k')
    = series MetricsService.successRate (metrics k)
        ++ List.map (fun r => BoolSample (accepted r e)) answers /\
  series MetricsService.errorRate (metrics k')
    = series MetricsService.errorRate (metrics k)
        ++ List.map (fun r => BoolSample (negb (accepted r e))) answers /\
  series MetricsService.failedRequests (metrics k')
    = series MetricsService.failedRequests (metrics k)
        ++ repeat (NumSample (number_of_Z 1)) rejected /\
  List.length (console_error k')
    = (List.length (console_error k) + rejected)%nat /\
  List.length (check_results k')
    = (List.length (check_results k) + 3 * List.length answers)%nat.
Proof.
  revert k. induction answers as [|r rest IH]; intros k k' rejected.
  - subst k' rejected. cbn. rewrite !app_nil_r. repeat split; lia.
  - subst k' rejected. cbn [validated_all fold_left].
    fold (validated_all rest name e (validated r name e k)).
    destruct (IH (validated r name e k)) as (Hs & He & Hf & Hc & Hr).
    cbn zeta in *. rewrite Hs, He, Hf, Hc, Hr.
    rewrite !validated_series.
    pose proof (count_accepted_le rest e) as Hle.
    unfold count_accepted in *. cbn [filter List.map List.length].
    unfold validated. rewrite validateResponse_run.
    cbn [snd console_error check_results default_param].
    fold (accepted r e).
    rewrite !length_app.
    destruct (accepted r e) eqn:Hacc; cbn [List.length negb app];
      rewrite <- ?app_assoc; cbn [app].
    + replace (S (List.length rest) - S (List.length (filter (fun r => accepted r e) rest)))%nat
        with (List.length rest - List.length (filter (fun r => accepted r e) rest))%nat
        by lia.
      repeat split; lia.
    + replace (S (List.length rest) - List.length (filter (fun r => accepted r e) rest))%nat
        with (S (List.length rest - List.length (filter (fun r => accepted r e) rest)))%nat
        by lia.
      repeat split; cbn [repeat app]; try reflexivity; lia.
Qed.

(* ================================================================== *)
(** * DataBuilderService *)
(* ================================================================== *)

Lemma lookup_define_property {V : Type} (k k' : jsstring) (v : V)
    (o : list (jsstring * V)) :
  lookup k (define_property k' v o)
  = if jsstring_eqb k k' then Some v else lookup k o.
Proof.
  induction o as [|[k0 v0] o IH]; cbn [define_property lookup].
  - reflexivity.
  - destruct (jsstring_eqb k' k0) eqn:E0; cbn [lookup].
    + apply jsstring_eqb_eq in E0. subst k0.
      destruct (jsstring_eqb k k'); reflexivity.
    + rewrite IH. destruct (jsstring_eqb k k0) eqn:E1; [|reflexivity].
      apply jsstring_eqb_eq in E1. subst k0.
      destruct (jsstring_eqb k k') eqn:E2; [|reflexivity].
      apply jsstring_eqb_eq in E2. subst k'.
      rewrite jsstring_eqb_refl in E0. discriminate.
Qed.

(** In an object literal the last definition of a key wins. *)
Lemma lookup_object_literal_from {V : Type} (k : jsstring)
    (props : list (jsstring * V)) :
  forall o,
    lookup k (fold_left (fun o kv => define_property (fst kv) (snd kv) o) props o)
    = match lookup k (rev props) with
      | Some v => Some v
      | None => lookup k o
      end.
Proof.
  induction props as [|[k0 v0] props IH]; intros o; cbn [fold_left rev].
  - reflexivity.
  - rewrite IH. cbn [fst snd]. rewrite lookup_define_property.
    clear IH. induction (rev props) as [|[k1 v1] l IHl]; cbn [app lookup].
    + destruct (jsstring_eqb k k0); reflexivity.
    + destruct (jsstring_eqb k k1); [reflexivity | exact IHl].
Qed.

Lemma lookup_object_literal {V : Type} (k : jsstring)
    (props : list (jsstring * V)) :
  lookup k (object_literal props) = lookup k (rev props).
Proof.
  unfold object_literal. rewrite lookup_object_literal_from.
  destruct (lookup k (rev props)); reflexivity.
Qed.

Lemma lookup_app {V : Type} (k : jsstring) (a b : list (jsstring * V)) :
  lookup k (a ++ b)
  = match lookup k a with Some v => Some v | None => lookup k b end.
Proof.
  induction a as [|[k0 v0] a IH]; cbn [app lookup]; [reflexivity|].
  destruct (jsstring_eqb k k0); [reflexivity | exact IH].
Qed.

Lemma lookup_rev_None {V : Type} (k : jsstring) (o : list (jsstring * V)) :
  lookup k o = None -> lookup k (rev o) = None.
Proof.
  induction o as [|[k0 v0] o IH]; cbn [rev lookup]; [reflexivity|].
  destruct (jsstring_eqb k k0) eqn:E; [discriminate|].
  intros H. rewrite lookup_app, (IH H). cbn [lookup]. rewrite E. reflexivity.
Qed.

Lemma drew_drew (n m : nat) (w : World) : drew n (drew m w) = drew (n + m) w.
Proof. unfold drew. cbn. f_equal. lia. Qed.

Lemma only_draws_drew (n : nat) (w : World) : only_draws w (drew n w).
Proof. repeat split. Qed.

Lemma random_below_run (env : Environment) (n : N) (w : World) :
  random_below env n w
  = (Normal (if (n =? 0)%N then 0%N else (Math_random env (random_draws w) mod n)%N),
     drew 1 w).
Proof. reflexivity. Qed.

Lemma random_below_lt (env : Environment) (n : N) (i : nat) :
  (0 < n)%N ->
  ((if (n =? 0)%N then 0 else Math_random env i mod n) < n)%N.
Proof.
  intros H. destruct (n =? 0)%N eqn:E.
  - exact H.
  - apply N.mod_lt. lia.
Qed.

Lemma getRandomItem_run (env : Environment) (array : list jsstring) (w : World) :
  array <> [] ->
  exists s, In s array /\
    DataBuilderService.getRandomItem env array w = (Normal (JsString s), drew 1 w).
Proof.
  intros Hne. unfold DataBuilderService.getRandomItem.
  cbn [bind Monad_Script]. rewrite random_below_run. cbn [ret Monad_Script].
  set (i := if (_ =? 0)%N then _ else _).
  assert (Hi : (N.to_nat i < List.length array)%nat).
  { assert (i < N.of_nat (List.length array))%N.
    { apply random_below_lt. destruct array; [congruence|]. cbn [List.length]. lia. }
    lia. }
  destruct (nth_error array (N.to_nat i)) as [s|] eqn:E.
  - exists s. split; [eapply nth_error_In; exact E | reflexivity].
  - apply nth_error_None in E. lia.
Qed.

Lemma generatePassword_loop_run (env : Environment) (n : nat) :
  forall (password : jsstring) (w : World),
  exists s,
    DataBuilderService.generatePassword_loop env n password w
      = (Normal (password ++ s), drew n w) /\
    List.length s = n /\
    Forall (fun c => In c DataBuilderService.chars) s.
Proof.
  induction n as [|n IH]; intros password w.
  - exists []. rewrite app_nil_r. split; [destruct w; reflexivity|].
    split; [reflexivity | constructor].
  - cbn [DataBuilderService.generatePassword_loop bind Monad_Script].
    rewrite random_below_run.
    set (i := if (_ =? 0)%N then _ else _).
    assert (Hi : (N.to_nat i < List.length DataBuilderService.chars)%nat).
    { assert (i < N.of_nat (List.length DataBuilderService.chars))%N
        by (apply random_below_lt; reflexivity).
      lia. }
    unfold DataBuilderService.charAt.
    destruct (nth_error DataBuilderService.chars (N.to_nat i)) as [c|] eqn:E.
    2:{ apply nth_error_None in E. lia. }
    destruct (IH (password ++ [c]) (drew 1 w)) as (s & Hrun & Hlen & Hall).
    exists (c :: s). rewrite Hrun, drew_drew, <- app_assoc.
    replace (n + 1)%nat with (S n) by lia.
    split; [reflexivity|]. split; [cbn; lia|].
    constructor; [eapply nth_error_In; exact E | exact Hall].
Qed.

(** X13.  [generatePassword] returns a string of exactly the requested
    number of characters (twelve by default, none for a negative
    length), each of them from the alphabet of the function; it reads the
    random generator once per character and does nothing else. *)
Theorem generatePassword_alphabet (env : Environment) (length : option Z)
    (w : World) :
  let n := Z.to_nat (default_param length TEST_CONFIG_more.DEFAULT_PASSWORD_LENGTH) in
  exists password,
    DataBuilderService.generatePassword env length w = (Normal password, drew n w) /\
    List.length password = n /\
    Forall (fun c => In c DataBuilderService.chars) password.
Proof.
  intros n. unfold DataBuilderService.generatePassword.
  destruct (generatePassword_loop_run env n [] w) as (s & Hrun & Hlen & Hall).
  exists s. split; [exact Hrun|]. split; assumption.
Qed.

Lemma forallb_below (f : N -> bool) (n : nat) :
  forallb f (List.map N.of_nat (seq 0 n)) = true ->
  forall k, (k < N.of_nat n)%N -> f k = true.
Proof.
  intros H k Hk. rewrite forallb_forall in H. apply H.
  apply in_map_iff. exists (N.to_nat k). split; [lia|].
  apply in_seq. lia.
Qed.

Lemma year_digits (k : N) :
  (k < 50)%N ->
  Number_toString (1950 + Z.of_N k) = decimal 4 (1950 + Z.of_N k).
Proof.
  intros H. apply jsstring_eqb_eq. revert k H.
  apply (forallb_below
           (fun k => jsstring_eqb (Number_toString (1950 + Z.of_N k))
                       (decimal 4 (1950 + Z.of_N k))) 50).
  vm_compute. reflexivity.
Qed.

Lemma two_digits (k : N) :
  (k < 28)%N ->
  padStart0 2 (Number_toString (Z.of_N k + 1)) = decimal 2 (Z.of_N k + 1).
Proof.
  intros H. apply jsstring_eqb_eq. revert k H.
  apply (forallb_below
           (fun k => jsstring_eqb (padStart0 2 (Number_toString (Z.of_N k + 1)))
                       (decimal 2 (Z.of_N k + 1))) 28).
  vm_compute. reflexivity.
Qed.

(** X14.  [generateBirthdate] always returns a date written YYYY-MM-DD on
    ten characters: a year from 1950 to 1999 on four digits, a month from
    01 to 12 and a day from 01 to 28 on two digits each.  It reads the
    random generator three times and does nothing else. *)
Theorem generateBirthdate_format (env : Environment) (w : World) :
  exists year month day,
    1950 <= year <= 1999 /\ 1 <= month <= 12 /\ 1 <= day <= 28 /\
    DataBuilderService.generateBirthdate env w
      = (Normal (decimal 4 year ++ lit "-" ++ decimal 2 month ++ lit "-"
                   ++ decimal 2 day),
         drew 3 w) /\
    List.length (decimal 4 year ++ lit "-" ++ decimal 2 month ++ lit "-"
                   ++ decimal 2 day) = 10%nat.
Proof.
  unfold DataBuilderService.generateBirthdate.
  cbn [bind Monad_Script]. rewrite !random_below_run.
  cbn [N.eqb ret Monad_Script]. rewrite !drew_drew. cbn [Nat.add].
  cbn [drew random_draws].
  set (y := (Math_random env (random_draws w) mod 50)%N).
  set (m := (Math_random env (1 + random_draws w) mod 12)%N).
  set (d := (Math_random env (2 + random_draws w) mod 28)%N).
  assert (Hy : (y < 50)%N) by (apply N.mod_lt; lia).
  assert (Hm : (m < 12)%N) by (apply N.mod_lt; lia).
  assert (Hd : (d < 28)%N) by (apply N.mod_lt; lia).
  exists (1950 + Z.of_N y), (Z.of_N m + 1), (Z.of_N d + 1).
  split; [lia|]. split; [lia|]. split; [lia|].
  rewrite (year_digits y Hy), (two_digits m) by lia.
  rewrite (two_digits d Hd).
  split; [reflexivity|].
  cbn [decimal]. rewrite !length_app. reflexivity.
Qed.

Ltac draw_item s Hin :=
  match goal with
  | |- context [DataBuilderService.getRandomItem ?env ?arr ?w0] =>
      let H := fresh "Hitem" in
      destruct (getRandomItem_run env arr w0) as (s & Hin & H);
      [ discriminate | rewrite H; clear H ]
  end.

Ltac run_builder :=
  repeat first
    [ rewrite random_below_run
    | rewrite drew_drew
    | progress cbn [bind ret Monad_Script Monad_Completion eval
                    DataBuilderService.lower Nat.add] ].

(** X15.  [buildContact] never throws and only reads the random
    generator (eleven times).  In the object it returns the overrides
    win, a key given twice holding its last value.  Unless overridden, the
    first and last names are drawn from the tables of names, the country
    is USA, and the e-mail address is made of the two names drawn, in
    lower case, whether or not the names themselves were overridden. *)
Theorem buildContact_result (env : Environment)
    (overrides : option (list (jsstring * JsValue))) (w : World) :
  exists firstName lastName props,
    In firstName TEST_DATA.FIRST_NAMES /\ In lastName TEST_DATA.LAST_NAMES /\
    DataBuilderService.buildContact env overrides w
      = (Normal (JsObject props), drew 11 w) /\
    (forall k v,
       lookup k (rev (DataBuilderService.spread overrides)) = Some v ->
       lookup k props = Some v) /\
    (lookup (lit "firstName") (DataBuilderService.spread overrides) = None ->
     lookup (lit "firstName") props = Some (JsString firstName)) /\
    (lookup (lit "lastName") (DataBuilderService.spread overrides) = None ->
     lookup (lit "lastName") props = Some (JsString lastName)) /\
    (lookup (lit "email") (DataBuilderService.spread overrides) = None ->
     lookup (lit "email") props
       = Some (JsString (toLowerCase firstName ++ lit "." ++ toLowerCase lastName
                           ++ lit "@example.com"))) /\
    (lookup (lit "country") (DataBuilderService.spread overrides) = None ->
     lookup (lit "country") props = Some (JsString (lit "USA"))).
Proof.
  unfold DataBuilderService.buildContact.
  cbn [bind Monad_Script].
  draw_item firstName Hfirst. draw_item lastName Hlast.
  unfold DataBuilderService.generateBirthdate,
    DataBuilderService.generatePhoneNumber,
    DataBuilderService.generateStreetAddress,
    DataBuilderService.generateApartment,
    DataBuilderService.generatePostalCode.
  run_builder.
  draw_item city Hcity. run_builder.
  draw_item state Hstate. run_builder.
  exists firstName, lastName. eexists.
  split; [exact Hfirst|]. split; [exact Hlast|].
  split; [reflexivity|].
  split.
  { intros k v Hk. rewrite lookup_object_literal, rev_app_distr, lookup_app, Hk.
    reflexivity. }
  repeat split; intros Hno; apply lookup_rev_None in Hno;
    rewrite lookup_object_literal, rev_app_distr, lookup_app, Hno; reflexivity.
Qed.

(* ================================================================== *)
(** * Creating contacts *)
(* ================================================================== *)

Lemma buildContact_returns (env : Environment)
    (overrides : option (list (jsstring * JsValue))) (w : World) :
  exists props,
    DataBuilderService.buildContact env overrides w
      = (Normal (JsObject props), drew 11 w).
Proof.
  unfold DataBuilderService.buildContact.
  cbn [bind Monad_Script].
  draw_item firstName Hfirst. draw_item lastName Hlast.
  unfold DataBuilderService.generateBirthdate,
    DataBuilderService.generatePhoneNumber,
    DataBuilderService.generateStreetAddress,
    DataBuilderService.generateApartment,
    DataBuilderService.generatePostalCode.
  run_builder.
  draw_item city Hcity. run_builder.
  draw_item state Hstate. run_builder.
  eexists. reflexivity.
Qed.

Lemma contact_or_built_run (env : Environment) (contactData : option JsValue)
    (w : World) :
  exists contact w1,
    ContactHelper.contact_or_built env contactData w = (Normal contact, w1) /\
    only_draws w w1 /\
    ToBoolean contact = true /\
    given_or_built contactData (DataBuilderService.buildContact env None) w contact.
Proof.
  unfold ContactHelper.contact_or_built, given_or_built.
  destruct contactData as [c|].
  - destruct (ToBoolean c) eqn:E.
    + exists c, w. split; [reflexivity|]. split; [repeat split|].
      split; [exact E | reflexivity].
    + destruct (buildContact_returns env None w) as (props & Hrun).
      exists (JsObject props), (drew 11 w). split; [exact Hrun|].
      split; [apply only_draws_drew|]. split; [reflexivity|].
      rewrite Hrun. reflexivity.
  - destruct (buildContact_returns env None w) as (props & Hrun).
    exists (JsObject props), (drew 11 w). split; [exact Hrun|].
    split; [apply only_draws_drew|]. split; [reflexivity|].
    rewrite Hrun. reflexivity.
Qed.

Lemma truthy_Get_normal (v : JsValue) (k : jsstring) :
  ToBoolean v = true -> exists x, Get v k = Normal x.
Proof.
  destruct v; cbn; try discriminate; intros _; try (eexists; reflexivity).
  destruct (lookup k props); eexists; reflexivity.
Qed.

Lemma createOne_run (env : Environment) (token : jsstring)
    (contactData : option JsValue) (w : World) :
  exists contact id w',
    let resp := http_response env (requests w ++ [create_request env token contact]) in
    ContactHelper.createOne env token contactData w = (Normal id, w') /\
    given_or_built contactData (DataBuilderService.buildContact env None) w
      contact /\
    events w' = events w ++ [Sent (create_request env token contact)] /\
    requests w' = requests w ++ [create_request env token contact] /\
    sleeps w' = sleeps w /\
    console_warn w' = console_warn w /\
    (id = JsNull \/
     (ToBoolean id = true /\ accepted resp 201 = true /\
      exists v, JSON_parse_builtin env (String_ (body resp)) = Normal v /\
                Get v (lit "_id") = Normal id)).
Proof.
  destruct (contact_or_built_run env contactData w)
    as (contact & w1 & Hbuilt & (Hrt & Hlog & Hwarn & Hreq & Hsl & Hev)
        & Htruthy & Hgiven).
  exists contact.
  unfold ContactHelper.createOne. cbn [bind Monad_Script]. rewrite Hbuilt.
  unfold ContactAPI.create, HttpService.post. rewrite Htruthy.
  run_script. rewrite Hreq, Hsl, Hwarn, Hev.
  fold (request_to env POST API_ENDPOINTS.CONTACTS (JSON_stringify env contact)
          (Some token)).
  fold (create_request env token contact).
  set (resp := http_response env (requests w ++ [create_request env token contact])).
  change HTTP_STATUS.CREATED with 201.
  destruct (accepted resp 201) eqn:Hacc; run_script.
  2:{ eexists. eexists. split; [reflexivity|]. cbn [requests sleeps console_warn events].
      repeat split; try assumption. left. reflexivity. }
  unfold HttpService.parseJsonResponse.
  destruct (JSON_parse_builtin env (String_ (body resp))) as [v|e] eqn:Hp; run_script.
  2:{ eexists. eexists. split; [reflexivity|]. cbn [requests sleeps console_warn events].
      repeat split; try assumption. left. reflexivity. }
  destruct (ToBoolean v) eqn:Hv; run_script.
  2:{ eexists. eexists. split; [reflexivity|]. cbn [requests sleeps console_warn events].
      repeat split; try assumption. left. reflexivity. }
  destruct (truthy_Get_normal v (lit "_id") Hv) as (id & Hid). rewrite Hid.
  run_script.
  destruct (ToBoolean id) eqn:Ht; run_script.
  - exists id. eexists. split; [reflexivity|]. cbn [requests sleeps console_warn events].
    repeat split; try assumption. right. split; [exact Ht|]. split; [reflexivity|].
    exists v. split; [reflexivity | exact Hid].
  - eexists. eexists. split; [reflexivity|]. cbn [requests sleeps console_warn events].
    repeat split; try assumption. left. reflexivity.
Qed.

(** X16.  [createOne] never throws and sends exactly one POST to the
    contacts endpoint, carrying the token and a contact: the one given
    when it is truthy, otherwise the one [buildContact] returns when run
    at that point.  It returns either [null] or a truthy identifier; the
    latter only when the answer met the three criteria with status 201
    and its body parsed to a value whose [_id] is that identifier. *)
Theorem createOne_outcome (env : Environment) (token : jsstring)
    (contactData : option JsValue) (w : World) :
  exists contact id w',
    let resp := http_response env (requests w ++ [create_request env token contact]) in
    ContactHelper.createOne env token contactData w = (Normal id, w') /\
    given_or_built contactData (DataBuilderService.buildContact env None) w
      contact /\
    events w' = events w ++ [Sent (create_request env token contact)] /\
    requests w' = requests w ++ [create_request env token contact] /\
    sleeps w' = sleeps w /\
    console_warn w' = console_warn w /\
    (id = JsNull \/
     (ToBoolean id = true /\ accepted resp 201 = true /\
      exists v, JSON_parse_builtin env (String_ (body resp)) = Normal v /\
                Get v (lit "_id") = Normal id)).
Proof. exact (createOne_run env token contactData w). Qed.

(** A request that creates a contact with the token. *)
Lemma create_request_shape (env : Environment) (token : jsstring)
    (contact : JsValue) :
  method (create_request env token contact) = POST /\
  url (create_request env token contact)
    = config_baseUrl env ++ API_ENDPOINTS.CONTACTS /\
  headers (create_request env token contact)
    = HttpService.headers_for (Some token).
Proof. repeat split. Qed.

Lemma createMultiple_loop_run (env : Environment) (token : jsstring) (n : nat) :
  forall (contactIds : list JsValue) (w : World),
  exists created w' reqs,
    ContactHelper.createMultiple_loop env token n contactIds w
      = (Normal (contactIds ++ created), w') /\
    (List.length created <= n)%nat /\
    Forall (fun id => ToBoolean id = true) created /\
    events w' =
      events w ++
        flat_map (fun r => [ Sent r; Slept TEST_CONFIG_more.DEFAULT_SHORT_SLEEP ])
          reqs /\
    requests w' = requests w ++ reqs /\
    List.length reqs = n /\
    Forall (fun r => exists contact w0,
                fst (DataBuilderService.buildContact env None w0) = Normal contact /\
                r = create_request env token contact) reqs /\
    console_warn w' = console_warn w.
Proof.
  induction n as [|n IH]; intros contactIds w.
  - exists [], w, [].
    cbn [ContactHelper.createMultiple_loop ret Monad_Script flat_map List.length].
    rewrite !app_nil_r. repeat split; constructor.
  - cbn [ContactHelper.createMultiple_loop bind Monad_Script].
    destruct (createOne_run env token None w)
      as (contact & id & w1 & Hone & Hbuilt & Hev1 & Hreq1 & Hsl1 & Hwarn1 & Hid).
    cbn zeta in Hone. rewrite Hone. run_script.
    match goal with
    | |- context [ContactHelper.createMultiple_loop env token n ?ids ?w2] =>
        destruct (IH ids w2)
          as (created & w' & reqs & Hrun & Hlen & Hall & Hev & Hreq & Hlr & Hpost
              & Hwarn)
    end.
    cbn [requests sleeps console_warn events] in *.
    rewrite Hrun.
    exists (if ToBoolean id then id :: created else created), w',
      (create_request env token contact :: reqs).
    split.
    { destruct (ToBoolean id); [rewrite <- app_assoc|]; reflexivity. }
    split. { destruct (ToBoolean id); cbn [List.length]; lia. }
    split.
    { destruct (ToBoolean id) eqn:Ht; [constructor|]; assumption. }
    split. { rewrite Hev, Hev1. cbn [flat_map]. rewrite <- !app_assoc. reflexivity. }
    split. { rewrite Hreq, Hreq1, <- app_assoc. reflexivity. }
    split. { cbn [List.length]. lia. }
    split. { constructor; [exists contact, w; split; [exact Hbuilt|reflexivity]
                          | exact Hpost]. }
    rewrite Hwarn. exact Hwarn1.
Qed.

(** X17.  [createMultiple] never throws.  It makes as many creation
    requests as the count says (five by default, none for a count below
    one), each for a contact that [buildContact] returned and each
    followed by a sleep of half a second before the next one goes out.
    The identifiers it returns are all truthy, [count] is their number,
    and [success] holds exactly when that number equals the count asked
    for; otherwise one warning is logged. *)
Theorem createMultiple_outcome (env : Environment) (token : jsstring)
    (count : option Z) (w : World) :
  let asked := default_param count TEST_CONFIG_more.DEFAULT_CONTACTS_COUNT in
  exists r w' reqs,
    ContactHelper.createMultiple env token count w = (Normal r, w') /\
    ContactHelper.count r = Z.of_nat (List.length (ContactHelper.contactIds r)) /\
    (List.length (ContactHelper.contactIds r) <= Z.to_nat asked)%nat /\
    Forall (fun id => ToBoolean id = true) (ContactHelper.contactIds r) /\
    (ContactHelper.success r = true <-> ContactHelper.count r = asked) /\
    events w' =
      events w ++
        flat_map (fun r => [ Sent r; Slept TEST_CONFIG_more.DEFAULT_SHORT_SLEEP ])
          reqs /\
    requests w' = requests w ++ reqs /\
    List.length reqs = Z.to_nat asked /\
    Forall (fun r => exists contact w0,
                fst (DataBuilderService.buildContact env None w0) = Normal contact /\
                r = create_request env token contact) reqs /\
    console_warn w' =
      console_warn w ++
        (if ContactHelper.success r then []
         else [ lit " " ++ LoggerServiceLog.warning_mark ++ lit "  Created "
                  ++ Number_toString (ContactHelper.count r) ++ lit "/"
                  ++ Number_toString asked ++ lit " contacts" ]).
Proof.
  intros asked. unfold ContactHelper.createMultiple. fold asked. run_script.
  match goal with
  | |- context [ContactHelper.createMultiple_loop env token ?n [] ?w1] =>
      destruct (createMultiple_loop_run env token n [] w1)
        as (created & w2 & reqs & Hrun & Hlen & Hall & Hev & Hreq & Hlr & Hpost
            & Hwarn)
  end.
  cbn [requests sleeps console_warn events app] in *.
  rewrite Hrun.
  destruct (Z.of_nat (List.length created) =? asked) eqn:E; run_script.
  - eexists. eexists. exists reqs. split; [reflexivity|].
    cbn [ContactHelper.count ContactHelper.contactIds ContactHelper.success
         requests sleeps console_warn events].
    rewrite app_nil_r.
    split; [reflexivity|]. split; [exact Hlen|]. split; [exact Hall|].
    split; [split; [intros _; apply Z.eqb_eq; exact E | reflexivity]|].
    repeat split; assumption.
  - eexists. eexists. exists reqs. split; [reflexivity|].
    cbn [ContactHelper.count ContactHelper.contactIds ContactHelper.success
         requests sleeps console_warn events].
    split; [reflexivity|]. split; [exact Hlen|]. split; [exact Hall|].
    split; [split; [discriminate | intros H; apply Z.eqb_neq in E; contradiction]|].
    split; [exact Hev|].
    split; [exact Hreq|]. split; [exact Hlr|]. split; [exact Hpost|].
    rewrite Hwarn. reflexivity.
Qed.

(* ================================================================== *)
(** * Listing and deleting contacts *)
(* ================================================================== *)

Lemma getAll_run (env : Environment) (token : jsstring) (w : World) :
  let resp := http_response env (requests w ++ [get_all_request env token]) in
  exists r w',
    ContactHelper.getAll env token w = (Normal r, w') /\
    requests w' = requests w ++ [get_all_request env token] /\
    sleeps w' = sleeps w /\
    console_warn w' = console_warn w /\
    (r = JsNull \/
     exists items, r = JsArray items /\ accepted resp 200 = true /\
       JSON_parse_builtin env (String_ (body resp)) = Normal (JsArray items)) /\
    (forall items, r = JsArray items -> items = listed_contacts env resp) /\
    (r = JsNull -> listed_contacts env resp = []) /\
    events w' = events w ++ [Sent (get_all_request env token)].
Proof.
  intros resp.
  unfold ContactHelper.getAll, ContactAPI.getAll, HttpService.get.
  run_script.
  fold (get_all_request env token). fold resp.
  change HTTP_STATUS.OK with 200.
  unfold listed_contacts.
  destruct (accepted resp 200) eqn:Hacc; run_script.
  2:{ eexists. eexists. split; [reflexivity|]. cbn [requests sleeps console_warn events].
      repeat split; try discriminate. left. reflexivity. }
  unfold HttpService.parseJsonResponse.
  destruct (JSON_parse_builtin env (String_ (body resp))) as [v|e] eqn:Hp; run_script.
  2:{ eexists. eexists. split; [reflexivity|]. cbn [requests sleeps console_warn events].
      repeat split; try discriminate. left. reflexivity. }
  destruct v; run_script;
    eexists; eexists; (split; [reflexivity|]); cbn [requests sleeps console_warn events];
    repeat split; try discriminate; try (left; reflexivity).
  - right. eexists. split; [reflexivity|]. split; reflexivity.
  - intros items H. inversion H. reflexivity.
Qed.

(** X18.  [getAll] never throws and sends exactly one GET to the contacts
    endpoint with the token.  It returns [null] or an array, the latter
    only when the answer met the three criteria with status 200 and its
    body parsed to that array. *)
Theorem getAll_outcome (env : Environment) (token : jsstring) (w : World) :
  let resp := http_response env (requests w ++ [get_all_request env token]) in
  exists r w',
    ContactHelper.getAll env token w = (Normal r, w') /\
    requests w' = requests w ++ [get_all_request env token] /\
    (r = JsNull \/
     exists items, r = JsArray items /\ accepted resp 200 = true /\
       JSON_parse_builtin env (String_ (body resp)) = Normal (JsArray items)).
Proof.
  intros resp.
  destruct (getAll_run env token w) as (r & w' & Hrun & Hreq & _ & _ & Hr & _).
  exists r, w'. repeat split; assumption.
Qed.

Lemma ids_of_throw (contacts : list JsValue) (e : JsError) :
  ContactHelper.ids_of contacts = Throw e ->
  e = TypeError /\ exists c, In c contacts /\ (c = JsNull \/ c = JsUndefined).
Proof.
  induction contacts as [|c rest IH]; cbn [ContactHelper.ids_of]; [discriminate|].
  cbn [bind Monad_Completion].
  destruct (Get c (lit "_id")) as [id|e'] eqn:Hg.
  - destruct (ContactHelper.ids_of rest) as [ids|e'']; [discriminate|].
    intros H. inversion H; subst e''.
    destruct (IH eq_refl) as (He & c' & Hin & Hc).
    split; [exact He|]. exists c'. split; [right; exact Hin | exact Hc].
  - intros H. inversion H; subst e'.
    destruct c; unfold Get in Hg; try discriminate.
    + inversion Hg. split; [reflexivity|]. exists JsUndefined.
      split; [left; reflexivity | right; reflexivity].
    + inversion Hg. split; [reflexivity|]. exists JsNull.
      split; [left; reflexivity | left; reflexivity].
    + destruct (lookup _ props); discriminate.
Qed.

Lemma ids_of_normal (contacts : list JsValue) (ids : list JsValue) :
  ContactHelper.ids_of contacts = Normal ids ->
  List.length ids = List.length contacts /\
  forall c, In c contacts -> c <> JsNull /\ c <> JsUndefined.
Proof.
  revert ids. induction contacts as [|c rest IH]; intros ids;
    cbn [ContactHelper.ids_of].
  - intros H. inversion H. split; [reflexivity|]. intros c [].
  - cbn [bind Monad_Completion].
    destruct (Get c (lit "_id")) as [id|e'] eqn:Hg; [|discriminate].
    destruct (ContactHelper.ids_of rest) as [ids'|e'']; [|discriminate].
    cbn [ret Monad_Completion]. intros H. inversion H; subst ids.
    destruct (IH ids' eq_refl) as (Hlen & Hall).
    split; [cbn [List.length]; lia|].
    intros c' [Hc|Hin]; [subst c'|exact (Hall c' Hin)].
    split; intros ->; discriminate.
Qed.

Lemma texts_of_throw (env : Environment) (contactIds : list JsValue)
    (e : JsError) :
  texts_of env contactIds = Throw e ->
  exists id, In id contactIds /\
             ToString (Number_to_string env) id = Throw TypeError.
Proof.
  induction contactIds as [|c rest IH]; cbn [texts_of]; [discriminate|].
  cbn [bind Monad_Completion].
  destruct (ToString (Number_to_string env) c) as [t|e0] eqn:Ht.
  - destruct (texts_of env rest) as [ts|e1]; [discriminate|].
    intros H. destruct (IH H) as (id & Hin & Hid).
    exists id. split; [right; exact Hin | exact Hid].
  - intros _. exists c. split; [left; reflexivity|].
    rewrite Ht, (ToString_TypeError _ _ _ Ht). reflexivity.
Qed.

Lemma texts_of_normal (env : Environment) (contactIds : list JsValue)
    (texts : list jsstring) :
  texts_of env contactIds = Normal texts ->
  forall id, In id contactIds ->
    exists t, ToString (Number_to_string env) id = Normal t.
Proof.
  revert texts. induction contactIds as [|c rest IH]; intros texts;
    cbn [texts_of]; [intros _ id []|].
  cbn [bind Monad_Completion].
  destruct (ToString (Number_to_string env) c) as [t|e0] eqn:Ht; [|discriminate].
  destruct (texts_of env rest) as [ts|e1]; [|discriminate].
  intros _ id [Hid|Hin].
  - subst id. exists t. exact Ht.
  - exact (IH ts eq_refl id Hin).
Qed.

Lemma deleteAll_run (env : Environment) (token : jsstring) (w : World) :
  let sent := requests w ++ [get_all_request env token] in
  let contacts := listed_contacts env (http_response env sent) in
  match ContactHelper.ids_of contacts with
  | Normal ids =>
      match texts_of env ids with
      | Normal texts =>
          exists w',
            ContactHelper.deleteAll env token w
              = (Normal (Z.of_nat (count_accepted
                                     (delete_answers env token texts sent) 200)),
                 w') /\
            events w' =
              events w ++ Sent (get_all_request env token)
                :: flat_map (fun t => [ Sent (delete_request env token t);
                                        Slept TEST_CONFIG_more.DEFAULT_SHORT_SLEEP ])
                     texts /\
            requests w' = sent ++ List.map (delete_request env token) texts
      | Throw _ =>
          exists w', ContactHelper.deleteAll env token w = (Throw TypeError, w')
      end
  | Throw _ =>
      exists w',
        ContactHelper.deleteAll env token w = (Throw TypeError, w') /\
        requests w' = sent /\ sleeps w' = sleeps w
  end.
Proof.
  intros sent contacts.
  destruct (getAll_run env token w)
    as (r & w1 & Hrun & Hreq & Hsl & _ & Hr & Harr & Hnull & Hev).
  fold sent in Hreq, Hr, Harr, Hnull. cbn zeta in Hr, Harr, Hnull.
  fold contacts in Harr, Hnull.
  unfold ContactHelper.deleteAll. cbn [bind Monad_Script]. rewrite Hrun.
  assert (Hnone : contacts = [] -> (r = JsNull \/ r = JsArray [])).
  { intros Hc. destruct Hr as [->|(items & -> & _)]; [left; reflexivity|].
    right. rewrite (Harr items eq_refl). fold contacts. rewrite Hc. reflexivity. }
  destruct contacts as [|c items] eqn:Hcs.
  - cbn [ContactHelper.ids_of texts_of].
    assert (Hquiet : exists w',
              (LoggerServiceLog.info env (lit "No contacts to delete") None ;;; ret 0)
                w1 = (Normal 0, w') /\ requests w' = requests w1 /\
              events w' = events w1).
    { run_script. eexists. split; [reflexivity|]. split; reflexivity. }
    destruct Hquiet as (w' & Hq & Hq1 & Hq2). cbn [bind Monad_Script] in Hq.
    exists w'.
    cbn [delete_answers count_accepted filter List.length List.map flat_map].
    rewrite app_nil_r.
    destruct (Hnone eq_refl) as [->| ->]; rewrite Hq;
      (split; [reflexivity|]); (split; congruence).
  - destruct Hr as [->|(items' & -> & _)].
    { specialize (Hnull eq_refl). discriminate. }
    specialize (Harr items' eq_refl). subst items'.
    destruct (ContactHelper.ids_of (c :: items)) as [ids|e] eqn:Hids.
    + cbn [eval].
      destruct (texts_of env ids) as [texts|e] eqn:Htexts.
      * destruct (deleteMultiple_run env token ids texts w1 Htexts)
          as (w' & lines & Hdel & _ & Hev' & Hreq' & _).
        cbn zeta in Hdel. rewrite Hreq in Hdel, Hreq'. rewrite Hdel.
        exists w'. split; [reflexivity|]. split; [|exact Hreq'].
        rewrite Hev', Hev, <- app_assoc. reflexivity.
      * destruct (deleteMultiple_throws env token ids e w1 Htexts) as (w' & Hdel).
        rewrite Hdel. exists w'. reflexivity.
    + cbn [eval]. destruct (ids_of_throw _ _ Hids) as (-> & _).
      exists w1. split; [reflexivity|]. split; assumption.
Qed.

(** X19.  When every contact listed by the answer to the GET has an
    [_id] to read and every such identifier has a text (as every string
    has), [deleteAll] returns normally: after the GET it sends one DELETE
    per listed contact, for its [_id] and in order, each followed by a
    sleep of half a second, and returns how many of the DELETE answers
    were accepted.  With nothing listed (a rejected answer, a body that
    is no array, an empty array) only the GET is sent and the result is
    zero. *)
Theorem deleteAll_outcome (env : Environment) (token : jsstring) (w : World)
    (ids : list JsValue) (texts : list jsstring) :
  let sent := requests w ++ [get_all_request env token] in
  let contacts := listed_contacts env (http_response env sent) in
  ContactHelper.ids_of contacts = Normal ids ->
  texts_of env ids = Normal texts ->
  exists n w',
    ContactHelper.deleteAll env token w = (Normal (Z.of_nat n), w') /\
    n = count_accepted (delete_answers env token texts sent) 200 /\
    (n <= List.length contacts)%nat /\
    List.length texts = List.length contacts /\
    events w' =
      events w ++ Sent (get_all_request env token)
        :: flat_map (fun t => [ Sent (delete_request env token t);
                                Slept TEST_CONFIG_more.DEFAULT_SHORT_SLEEP ])
             texts /\
    requests w' = sent ++ List.map (delete_request env token) texts.
Proof.
  intros sent contacts Hids Htexts.
  pose proof (deleteAll_run env token w) as Hrun. cbn zeta in Hrun.
  fold sent in Hrun. fold contacts in Hrun. rewrite Hids, Htexts in Hrun.
  destruct Hrun as (w' & Hrun & Hev & Hreq).
  destruct (ids_of_normal contacts ids Hids) as (Hlen & _).
  pose proof (texts_of_length env ids texts Htexts) as Hlen'.
  eexists. exists w'. split; [exact Hrun|]. split; [reflexivity|].
  split.
  { rewrite <- Hlen, <- Hlen', <- (delete_answers_length env token texts sent).
    apply count_accepted_le. }
  split; [congruence|]. split; assumption.
Qed.

Lemma deleteAll_outcome_witness :
  let env := sample_env two_contacts_response in
  let token := lit "tok123" in
  let texts := [lit "c1"; lit "c2"] in
  let sent := requests fresh_world ++ [get_all_request env token] in
  let contacts := listed_contacts env (http_response env sent) in
  exists n w',
    ContactHelper.deleteAll env token fresh_world = (Normal (Z.of_nat n), w') /\
    n = count_accepted (delete_answers env token texts sent) 200 /\
    (n <= List.length contacts)%nat /\
    List.length texts = List.length contacts /\
    events w' =
      events fresh_world ++ Sent (get_all_request env token)
        :: flat_map (fun t => [ Sent (delete_request env token t);
                                Slept TEST_CONFIG_more.DEFAULT_SHORT_SLEEP ])
             texts /\
    requests w' = sent ++ List.map (delete_request env token) texts.
Proof.
  intros env token texts.
  apply (deleteAll_outcome env token fresh_world
           [JsString (lit "c1"); JsString (lit "c2")] texts).
  - vm_compute. reflexivity.
  - vm_compute. reflexivity.
Defined.

(** X20.  [deleteAll] throws only a TypeError, and in two cases only.
    When the answer to the GET lists a contact that is [null] (or
    [undefined]), reading its [_id] throws after the GET and before any
    DELETE has been sent.  When every contact has an [_id] to read but one
    of them has no text (an object with an own [toString] property),
    writing it into the URL throws.  In every other case [deleteAll]
    returns normally. *)
Theorem deleteAll_throws_iff (env : Environment) (token : jsstring) (w : World) :
  let sent := requests w ++ [get_all_request env token] in
  let contacts := listed_contacts env (http_response env sent) in
  let null_contact :=
    exists c, In c contacts /\ (c = JsNull \/ c = JsUndefined) in
  let id_without_text :=
    exists ids id,
      ContactHelper.ids_of contacts = Normal ids /\ In id ids /\
      ToString (Number_to_string env) id = Throw TypeError in
  (null_contact ->
   exists w',
     ContactHelper.deleteAll env token w = (Throw TypeError, w') /\
     requests w' = sent /\ sleeps w' = sleeps w) /\
  (id_without_text ->
   exists w', ContactHelper.deleteAll env token w = (Throw TypeError, w')) /\
  (forall e w',
     ContactHelper.deleteAll env token w = (Throw e, w') ->
     e = TypeError /\ (null_contact \/ id_without_text)).
Proof.
  intros sent contacts null_contact id_without_text.
  subst null_contact id_without_text.
  pose proof (deleteAll_run env token w) as Hrun. cbn zeta in Hrun.
  fold sent in Hrun. fold contacts in Hrun.
  destruct (ContactHelper.ids_of contacts) as [ids|e0] eqn:Hids.
  - destruct (ids_of_normal contacts ids Hids) as (_ & Hall).
    destruct (texts_of env ids) as [texts|e1] eqn:Htexts.
    + destruct Hrun as (w1 & Hrun & _).
      split; [|split].
      * intros (c & Hin & Hc). destruct (Hall c Hin) as (Hn & Hu).
        destruct Hc; contradiction.
      * intros (ids' & id & Hids' & Hin & Hid).
        inversion Hids'; subst ids'.
        destruct (texts_of_normal env ids texts Htexts id Hin) as (t & Ht).
        congruence.
      * intros e w' H. rewrite Hrun in H. discriminate.
    + destruct Hrun as (w1 & Hrun).
      destruct (texts_of_throw env ids e1 Htexts) as (id & Hin & Hid).
      split; [|split].
      * intros (c & Hin' & Hc). destruct (Hall c Hin') as (Hn & Hu).
        destruct Hc; contradiction.
      * intros _. exists w1. exact Hrun.
      * intros e w' H. rewrite Hrun in H. inversion H.
        split; [reflexivity|]. right. exists ids, id. repeat split; assumption.
  - destruct (ids_of_throw contacts e0 Hids) as (_ & Hex).
    destruct Hrun as (w1 & Hrun & Hreq & Hsl).
    split; [|split].
    + intros _. exists w1. repeat split; assumption.
    + intros (ids' & id & Hids' & _). discriminate.
    + intros e w' H. rewrite Hrun in H. inversion H.
      split; [reflexivity|]. left. exact Hex.
Qed.

Lemma deleteAll_throws_iff_witness :
  let env := sample_env contacts_with_null_response in
  let token := lit "tok123" in
  let sent := requests fresh_world ++ [get_all_request env token] in
  exists w',
    ContactHelper.deleteAll env token fresh_world = (Throw TypeError, w') /\
    requests w' = sent /\ sleeps w' = sleeps fresh_world.
Proof.
  intros env token sent.
  apply (proj1 (deleteAll_throws_iff env token fresh_world)).
  exists JsNull. split; [vm_compute; right; left; reflexivity | left; reflexivity].
Defined.

(* ================================================================== *)
(** * Parsing a response body *)
(* ================================================================== *)

(** X21.  The two [parseJsonResponse] functions never throw and return
    the same value: what [JSON.parse] gives for the body as a string, or
    [null] when it throws.  Neither touches the metrics or the check
    results; on failure each writes one error line holding the body, the
    service through [LoggerService.error] with a cross mark and the words
    "Failed to parse JSON response", the earlier helper with the words
    "Failed to parse JSON". *)
Theorem parseJsonResponse_agree (JSON_parse : JSONParser) (r : K6Response)
    (k : K6Runtime) :
  let v := match JSON_parse (String_ (body r)) with
           | Normal v => v
           | Throw _ => JsNull
           end in
  let failed := match JSON_parse (String_ (body r)) with
                | Normal _ => false
                | Throw _ => true
                end in
  exists k1 k2,
    HttpService.parseJsonResponse JSON_parse r k = (Normal v, k1) /\
    helpers_more.parseJsonResponse JSON_parse r k = (Normal v, k2) /\
    metrics k1 = metrics k /\ metrics k2 = metrics k /\
    check_results k1 = check_results k /\ check_results k2 = check_results k /\
    console_error k1 =
      console_error k ++
        (if failed
         then [ lit " " ++ LoggerService.cross_mark
                  ++ lit " Failed to parse JSON response: " ++ String_ (body r) ]
         else []) /\
    console_error k2 =
      console_error k ++
        (if failed then [ lit "Failed to parse JSON: " ++ String_ (body r) ]
         else []).
Proof.
  unfold HttpService.parseJsonResponse, helpers_more.parseJsonResponse.
  destruct (JSON_parse (String_ (body r))) as [v|e]; cbn.
  - exists k, k. rewrite app_nil_r. repeat split.
  - eexists. eexists. repeat split.
Qed.

(* ================================================================== *)
(** * Registration *)
(* ================================================================== *)

Lemma buildUser_returns (env : Environment)
    (overrides : option (list (jsstring * JsValue))) (w : World) :
  exists props w1,
    DataBuilderService.buildUser env overrides w = (Normal (JsObject props), w1) /\
    only_draws w w1.
Proof.
  unfold DataBuilderService.buildUser.
  cbn [bind Monad_Script].
  draw_item firstName Hfirst. draw_item lastName Hlast.
  unfold DataBuilderService.generateEmail, DataBuilderService.generatePassword.
  cbn [bind ret Monad_Script tick_clock tick_random].
  match goal with
  | |- context [DataBuilderService.generatePassword_loop env ?n [] ?w0] =>
      destruct (generatePassword_loop_run env n [] w0) as (pw & Hrun & _ & _)
  end.
  rewrite Hrun. eexists. eexists. split; [reflexivity|]. repeat split.
Qed.

Lemma user_or_built_run (env : Environment) (userData : option JsValue)
    (w : World) :
  exists user w1,
    match userData with
    | Some u => if ToBoolean u then ret u
                else DataBuilderService.buildUser env None
    | None => DataBuilderService.buildUser env None
    end w = (Normal user, w1) /\
    only_draws w w1 /\
    ToBoolean user = true /\
    given_or_built userData (DataBuilderService.buildUser env None) w user.
Proof.
  unfold given_or_built.
  destruct userData as [u|].
  - destruct (ToBoolean u) eqn:E.
    + exists u, w. split; [reflexivity|]. split; [repeat split|].
      split; [exact E | reflexivity].
    + destruct (buildUser_returns env None w) as (props & w1 & Hrun & Hq).
      exists (JsObject props), w1. split; [exact Hrun|].
      split; [exact Hq|]. split; [reflexivity|].
      rewrite Hrun. reflexivity.
  - destruct (buildUser_returns env None w) as (props & w1 & Hrun & Hq).
    exists (JsObject props), w1. split; [exact Hrun|].
    split; [exact Hq|]. split; [reflexivity|].
    rewrite Hrun. reflexivity.
Qed.

(** X22.  Whenever [registerAndLogin] returns, it has sent exactly one
    registration request, for the user data given when they are truthy
    and otherwise for the data [buildUser] returns when run at that
    point.  Its result is either the failure record or a success that
    carries that same user data, and then the answer met the three
    criteria with status 201 and its body parsed to a value whose truthy
    [token] and whose [user._id] are the ones returned. *)
Theorem registerAndLogin_result_sound (env : Environment)
    (userData : option JsValue) (w w' : World) (r : AuthHelper.AuthResult) :
  AuthHelper.registerAndLogin env userData w = (Normal r, w') ->
  exists user,
    let resp := http_response env (requests w ++ [register_request env user]) in
    given_or_built userData (DataBuilderService.buildUser env None) w user /\
    ToBoolean user = true /\
    events w' = events w ++ [Sent (register_request env user)] /\
    requests w' = requests w ++ [register_request env user] /\
    (r = AuthHelper.failed \/
     (AuthHelper.success r = true /\
      AuthHelper.user r = Some user /\
      accepted resp 201 = true /\
      ToBoolean (AuthHelper.token r) = true /\
      exists v u,
        JSON_parse_builtin env (String_ (body resp)) = Normal v /\
        Get v (lit "token") = Normal (AuthHelper.token r) /\
        Get v (lit "user") = Normal u /\
        Get u (lit "_id") = Normal (AuthHelper.userId r))).
Proof.
  destruct (user_or_built_run env userData w)
    as (user & w1 & Hbuilt & (Hrt & Hlog & Hwarn & Hreq & Hsl & Hev)
        & Htruthy & Hgiven).
  intros Hrun. exists user. cbn zeta.
  split; [exact Hgiven|]. split; [exact Htruthy|].
  revert Hrun.
  unfold AuthHelper.registerAndLogin. cbn [bind Monad_Script]. rewrite Hbuilt.
  destruct (truthy_Get_normal user (lit "email") Htruthy) as (email & Hemail).
  rewrite Hemail. run_script.
  destruct (ToString (Number_to_string env) email) as [emailText|err] eqn:Hetext;
    run_script.
  2:{ intros H; inversion H. }
  unfold UserAPI.register, HttpService.post. rewrite Htruthy. run_script.
  rewrite Hreq, Hev.
  fold (request_to env POST API_ENDPOINTS.USERS (JSON_stringify env user) None).
  fold (register_request env user).
  set (resp := http_response env (requests w ++ [register_request env user])).
  change HTTP_STATUS.CREATED with 201.
  destruct (accepted resp 201) eqn:Hacc; run_script.
  2:{ intros H; inversion H; subst; cbn. repeat split. left. reflexivity. }
  unfold HttpService.parseJsonResponse.
  destruct (JSON_parse_builtin env (String_ (body resp))) as [v|err] eqn:Hp;
    run_script.
  2:{ intros H; inversion H; subst; cbn. repeat split. left. reflexivity. }
  destruct (ToBoolean v) eqn:Hv; run_script.
  2:{ intros H; inversion H; subst; cbn. repeat split. left. reflexivity. }
  destruct (Get v (lit "token")) as [t|err] eqn:Ht; run_script.
  2:{ intros H; inversion H. }
  destruct (ToBoolean t) eqn:Htt; run_script.
  2:{ intros H; inversion H; subst; cbn. repeat split. left. reflexivity. }
  destruct (Get v (lit "user")) as [u|err] eqn:Hu; run_script.
  2:{ intros H; inversion H. }
  destruct (Get u (lit "_id")) as [id|err] eqn:Hid; run_script.
  2:{ intros H; inversion H. }
  destruct (ToString (Number_to_string env) id) as [idText|err] eqn:Hitext;
    run_script.
  2:{ intros H; inversion H. }
  intros H; inversion H; subst; cbn. split; [reflexivity|].
  split; [reflexivity|]. right.
  repeat split; auto.
  exists v, u. auto.
Qed.

Lemma registerAndLogin_result_sound_witness :
  let env := sample_env register_ok_response in
  let data := JsObject [(lit "email", JsString (lit "a@b.c"));
                        (lit "password", JsString (lit "secret"))] in
  let w' := snd (AuthHelper.registerAndLogin env (Some data) fresh_world) in
  let r := {| AuthHelper.success := true;
              AuthHelper.token := JsString (lit "tok123");
              AuthHelper.userId := JsString (lit "u1");
              AuthHelper.user := Some data |} in
  exists user,
    let resp := http_response env
                  (requests fresh_world ++ [register_request env user]) in
    given_or_built (Some data) (DataBuilderService.buildUser env None)
      fresh_world user /\
    ToBoolean user = true /\
    events w' = events fresh_world ++ [Sent (register_request env user)] /\
    requests w' = requests fresh_world ++ [register_request env user] /\
    (r = AuthHelper.failed \/
     (AuthHelper.success r = true /\
      AuthHelper.user r = Some user /\
      accepted resp 201 = true /\
      ToBoolean (AuthHelper.token r) = true /\
      exists v u,
        JSON_parse_builtin env (String_ (body resp)) = Normal v /\
        Get v (lit "token") = Normal (AuthHelper.token r) /\
        Get v (lit "user") = Normal u /\
        Get u (lit "_id") = Normal (AuthHelper.userId r))).
Proof.
  intros env data w' r.
  apply (registerAndLogin_result_sound env (Some data) fresh_world w' r).
  vm_compute. reflexivity.
Defined.

(* ================================================================== *)
(** * Numbers written in decimal *)
(* ================================================================== *)

Lemma digit_cases (z : Z) :
  z mod 10 = 0 \/ z mod 10 = 1 \/ z mod 10 = 2 \/ z mod 10 = 3 \/ z mod 10 = 4 \/
  z mod 10 = 5 \/ z mod 10 = 6 \/ z mod 10 = 7 \/ z mod 10 = 8 \/ z mod 10 = 9.
Proof. pose proof (Z.mod_pos_bound z 10). lia. Qed.

Ltac by_digit z :=
  destruct (digit_cases z) as [E|[E|[E|[E|[E|[E|[E|[E|[E|E]]]]]]]]]; rewrite E.

Lemma of_lu_little_digits (width : nat) :
  forall z, 0 <= z ->
    DecimalPos.Unsigned.of_lu (little_digits width z)
    = Z.to_N (z mod 10 ^ Z.of_nat width).
Proof.
  induction width as [|width IH]; intros z Hz.
  - cbn. rewrite Z.mod_1_r. reflexivity.
  - cbn [little_digits].
    assert (Hq : 0 <= z / 10) by (apply Z.div_pos; lia).
    pose proof (IH (z / 10) Hq) as IHq.
    assert (Hpow : 0 < 10 ^ Z.of_nat width) by (apply Z.pow_pos_nonneg; lia).
    replace (10 ^ Z.of_nat (S width)) with (10 * 10 ^ Z.of_nat width)
      by (rewrite Nat2Z.inj_succ, Z.pow_succ_r; lia).
    rewrite Z.rem_mul_r by lia.
    pose proof (Z.mod_pos_bound (z / 10) (10 ^ Z.of_nat width) Hpow) as Hb.
    pose proof (Z.mod_pos_bound z 10 ltac:(lia)) as Hd.
    rewrite Z2N.inj_add, Z2N.inj_mul by lia. rewrite <- IHq.
    by_digit z; reflexivity.
Qed.

Lemma lit_cons (c : ascii) (s : string) :
  lit (String c s) = N_of_ascii c :: lit s.
Proof. reflexivity. Qed.

Lemma string_of_revapp_little_digits (width : nat) :
  forall z acc,
    lit (NilEmpty.string_of_uint (Decimal.revapp (little_digits width z) acc))
    = decimal width z ++ lit (NilEmpty.string_of_uint acc).
Proof.
  induction width as [|width IH]; intros z acc.
  - reflexivity.
  - cbn [little_digits decimal]. rewrite <- app_assoc.
    by_digit z; cbn [digit Decimal.revapp]; rewrite IH; reflexivity.
Qed.

Lemma nb_digits_little_digits (width : nat) :
  forall z, Decimal.nb_digits (little_digits width z) = width.
Proof.
  induction width as [|width IH]; intros z; [reflexivity|].
  cbn [little_digits]. by_digit z; cbn [digit Decimal.nb_digits]; rewrite IH;
    reflexivity.
Qed.

Lemma length_string_of_uint (u : Decimal.uint) :
  List.length (lit (NilEmpty.string_of_uint u)) = Decimal.nb_digits u.
Proof.
  induction u; [reflexivity|..];
    cbn [NilEmpty.string_of_uint Decimal.nb_digits];
    rewrite lit_cons; cbn [List.length]; f_equal; assumption.
Qed.

Lemma string_of_iter_D0 (k : nat) (u : Decimal.uint) :
  lit (NilEmpty.string_of_uint (Nat.iter k Decimal.D0 u))
  = repeat 48%N k ++ lit (NilEmpty.string_of_uint u).
Proof.
  induction k as [|k IH]; [reflexivity|].
  cbn [Nat.iter nat_rect NilEmpty.string_of_uint repeat app].
  rewrite lit_cons. change (Nat.iter k Decimal.D0 u) with (Nat.iter k Decimal.D0 u) in IH.
  unfold Nat.iter in IH. rewrite IH. reflexivity.
Qed.

Lemma unorm_not_Nil (d : Decimal.uint) : Decimal.unorm d <> Decimal.Nil.
Proof. unfold Decimal.unorm. destruct (Decimal.nzhead d); discriminate. Qed.

Lemma Number_toString_to_uint (z : Z) :
  0 <= z ->
  Number_toString z = lit (NilEmpty.string_of_uint (N.to_uint (Z.to_N z))).
Proof.
  intros Hz. unfold Number_toString.
  destruct z as [|p|p]; [reflexivity| |lia].
  cbn [Z.to_int NilZero.string_of_int Z.to_N N.to_uint].
  unfold NilZero.string_of_uint.
  pose proof (DecimalN.Unsigned.of_to (N.pos p)) as H. cbn [N.to_uint] in H.
  destruct (Pos.to_uint p); try reflexivity. discriminate.
Qed.

(** A number below [10 ^ width], written by [String] and padded with
    zeros, shows its [width] decimal digits. *)
Lemma padStart0_Number_toString (width : nat) (z : Z) :
  (0 < width)%nat -> 0 <= z < 10 ^ Z.of_nat width ->
  padStart0 width (Number_toString z) = decimal width z.
Proof.
  intros Hw Hz.
  rewrite Number_toString_to_uint by lia.
  set (d := Decimal.rev (little_digits width z)).
  assert (Hd : N.of_uint d = Z.to_N z).
  { unfold d, N.of_uint. rewrite DecimalPos.Unsigned.of_lu_rev.
    rewrite of_lu_little_digits by lia. rewrite Z.mod_small by lia. reflexivity. }
  rewrite <- Hd, DecimalN.Unsigned.to_of.
  assert (Hn : Decimal.nb_digits d = width).
  { unfold d. rewrite DecimalFacts.nb_digits_rev. apply nb_digits_little_digits. }
  assert (Hnil : d <> Decimal.Nil).
  { intros E. rewrite E in Hn. cbn in Hn. lia. }
  unfold padStart0. rewrite length_string_of_uint.
  replace (width - Decimal.nb_digits (Decimal.unorm d))%nat
    with (Decimal.nb_digits d - Decimal.nb_digits (Decimal.unorm d))%nat
    by (rewrite Hn; reflexivity).
  rewrite <- string_of_iter_D0, (DecimalFacts.iter_D0_unorm d Hnil).
  unfold d, Decimal.rev. rewrite string_of_revapp_little_digits.
  apply app_nil_r.
Qed.

Lemma decimal_head (width : nat) :
  forall z, 0 <= z ->
    decimal (S width) z
    = Z.to_N (48 + (z / 10 ^ Z.of_nat width) mod 10) :: decimal width z.
Proof.
  induction width as [|width IH]; intros z Hz.
  - cbn [decimal app]. cbn [Z.of_nat]. rewrite Z.pow_0_r, Z.div_1_r. reflexivity.
  - assert (Hq : 0 <= z / 10) by (apply Z.div_pos; lia).
    change (decimal (S (S width)) z)
      with (decimal (S width) (z / 10) ++ [Z.to_N (48 + z mod 10)]).
    rewrite (IH (z / 10) Hq). cbn [app decimal].
    rewrite Z.div_div by (try apply Z.pow_pos_nonneg; lia).
    replace (10 * 10 ^ Z.of_nat width) with (10 ^ Z.of_nat (S width))
      by (rewrite Nat2Z.inj_succ, Z.pow_succ_r; lia).
    reflexivity.
Qed.

(** A number with exactly [width] digits is written by [String] as those
    digits. *)
Lemma Number_toString_decimal (width : nat) (z : Z) :
  (0 < width)%nat ->
  10 ^ Z.of_nat (width - 1) <= z < 10 ^ Z.of_nat width ->
  Number_toString z = decimal width z.
Proof.
  intros Hw Hz.
  assert (Hpos : 0 < 10 ^ Z.of_nat (width - 1)) by (apply Z.pow_pos_nonneg; lia).
  pose proof (padStart0_Number_toString width z Hw ltac:(lia)) as Hpad.
  unfold padStart0 in Hpad.
  destruct (width - List.length (Number_toString z))%nat as [|k] eqn:Ek.
  - exact Hpad.
  - exfalso. destruct width as [|width]; [lia|].
    rewrite decimal_head in Hpad by lia. cbn [repeat app] in Hpad.
    pose proof (f_equal (hd 0%N) Hpad) as Hhead. cbn [hd] in Hhead.
    replace (S width - 1)%nat with width in * by lia.
    assert (Hq : 1 <= z / 10 ^ Z.of_nat width < 10).
    { split.
      - apply Z.div_le_lower_bound; lia.
      - apply Z.div_lt_upper_bound; [lia|].
        replace (10 ^ Z.of_nat width * 10) with (10 ^ Z.of_nat (S width))
          by (rewrite Nat2Z.inj_succ, Z.pow_succ_r; lia).
        lia. }
    rewrite Z.mod_small in Hhead by lia. lia.
Qed.

(** X23.  [generatePhoneNumber] always returns ten digits: the prefix 555
    followed by a number below ten million on exactly seven places,
    leading zeros included.  It reads the random generator once and does
    nothing else. *)
Theorem generatePhoneNumber_format (env : Environment) (w : World) :
  exists n,
    0 <= n < 10000000 /\
    DataBuilderService.generatePhoneNumber env w
      = (Normal (lit "555" ++ decimal 7 n), drew 1 w) /\
    List.length (lit "555" ++ decimal 7 n) = 10%nat.
Proof.
  unfold DataBuilderService.generatePhoneNumber.
  cbn [bind Monad_Script]. rewrite random_below_run. cbn [N.eqb ret Monad_Script].
  set (n := (Math_random env (random_draws w) mod 10000000)%N).
  assert (Hn : (n < 10000000)%N) by (apply N.mod_lt; lia).
  exists (Z.of_N n). split; [lia|].
  rewrite (padStart0_Number_toString 7 (Z.of_N n)) by (cbn; lia).
  split; [reflexivity|].
  cbn [decimal]. rewrite !length_app. reflexivity.
Qed.

(** X24.  [generatePostalCode] always returns the five digits of a number
    from 10000 to 99999.  It reads the random generator once and does
    nothing else. *)
Theorem generatePostalCode_format (env : Environment) (w : World) :
  exists z,
    10000 <= z <= 99999 /\
    DataBuilderService.generatePostalCode env w = (Normal (decimal 5 z), drew 1 w) /\
    List.length (decimal 5 z) = 5%nat.
Proof.
  unfold DataBuilderService.generatePostalCode.
  cbn [bind Monad_Script]. rewrite random_below_run. cbn [N.eqb ret Monad_Script].
  set (n := (Math_random env (random_draws w) mod 90000)%N).
  assert (Hn : (n < 90000)%N) by (apply N.mod_lt; lia).
  exists (Z.of_N n + 10000). split; [lia|].
  rewrite (Number_toString_decimal 5 (Z.of_N n + 10000)) by (cbn; lia).
  split; [reflexivity|].
  cbn [decimal]. rewrite !length_app. reflexivity.
Qed.

(* ================================================================== *)
(** * Reading and changing one contact *)
(* ================================================================== *)

(** X25.  [update], [partialUpdate] and [deleteOne] on an identifier
    that has a text, as every string has, do not throw.  Each sends
    exactly one request for the contact: a PUT with the contact given
    when it is truthy and otherwise with the one [buildContact] returns
    when run at that point, a PATCH with the updates, a DELETE.  Each
    returns what [validateResponse] decides about the answer with
    expected status 200; nothing else is recorded, and none sleeps or
    warns.  On an identifier without a text (an object with an own
    [toString] property) each throws the TypeError of the URL template
    and sends nothing. *)
Theorem contact_change_outcome (env : Environment) (token : jsstring)
    (contactId : JsValue) (contactData : option JsValue) (updates : JsValue)
    (w : World) :
  let effect (call : Script bool) (req : Request) (name : jsstring) :=
    let resp := http_response env (requests w ++ [req]) in
    exists w',
      call w = (Normal (accepted resp 200), w') /\
      events w' = events w ++ [Sent req] /\
      requests w' = requests w ++ [req] /\
      runtime w' = validated resp name 200 (runtime w) /\
      sleeps w' = sleeps w /\ console_warn w' = console_warn w in
  match ToString (Number_to_string env) contactId with
  | Normal text =>
      (exists contact,
         given_or_built contactData (DataBuilderService.buildContact env None) w
           contact /\
         effect (ContactHelper.update env token contactId contactData)
           (update_request env token text contact)
           (lit "Update Contact (PUT)")) /\
      effect (ContactHelper.partialUpdate env token contactId updates)
        (patch_request env token text updates) (lit "Update Contact (PATCH)") /\
      effect (ContactHelper.deleteOne env token contactId)
        (delete_request env token text) (lit "Delete Contact")
  | Throw _ =>
      (exists w',
         ContactHelper.update env token contactId contactData w
           = (Throw TypeError, w') /\
         only_draws w w') /\
      ContactHelper.partialUpdate env token contactId updates w
        = (Throw TypeError, w) /\
      ContactHelper.deleteOne env token contactId w = (Throw TypeError, w)
  end.
Proof.
  cbv zeta.
  destruct (contact_or_built_run env contactData w)
    as (contact & w1 & Hbuilt & (Hrt & Hlog & Hwarn & Hreq & Hsl & Hev)
        & Htruthy & Hgiven).
  destruct (ToString (Number_to_string env) contactId) as [text|e] eqn:Htext.
  - split; [|split].
    + exists contact. split; [exact Hgiven|].
      unfold ContactHelper.update. cbn [bind Monad_Script]. rewrite Hbuilt.
      unfold ContactAPI.update, HttpService.put, ContactAPI.contact_url.
      cbn [bind Monad_Script Monad_Completion eval]. rewrite Htext.
      run_script. rewrite Hreq, Hsl, Hwarn, Hrt, Hev.
      fold (request_to env PUT (API_ENDPOINTS.CONTACT_BY_ID text)
              (JSON_stringify env contact) (Some token)).
      fold (update_request env token text contact).
      change HTTP_STATUS.OK with 200.
      destruct (accepted _ 200); run_script; eexists; (split; [reflexivity|]);
        repeat split.
    + unfold ContactHelper.partialUpdate, ContactAPI.partialUpdate, HttpService.patch,
        ContactAPI.contact_url.
      cbn [bind Monad_Script Monad_Completion eval]. rewrite Htext.
      run_script.
      fold (request_to env PATCH (API_ENDPOINTS.CONTACT_BY_ID text)
              (JSON_stringify env updates) (Some token)).
      fold (patch_request env token text updates).
      change HTTP_STATUS.OK with 200.
      destruct (accepted _ 200); run_script; eexists; (split; [reflexivity|]);
        repeat split.
    + destruct (deleteOne_run env token contactId text w Htext) as (lines & n & Hrun).
      cbn zeta in Hrun. rewrite Hrun. eexists. split; [reflexivity|]. repeat split.
  - pose proof (ToString_TypeError _ _ _ Htext) as He. subst e.
    split; [|split].
    + exists w1. split; [|repeat split; assumption].
      unfold ContactHelper.update. cbn [bind Monad_Script]. rewrite Hbuilt.
      unfold ContactAPI.update, ContactAPI.contact_url.
      cbn [bind Monad_Script Monad_Completion eval]. rewrite Htext. reflexivity.
    + unfold ContactHelper.partialUpdate, ContactAPI.partialUpdate,
        ContactAPI.contact_url.
      cbn [bind Monad_Script Monad_Completion eval]. rewrite Htext. reflexivity.
    + exact (deleteOne_throws env token contactId TypeError w Htext).
Qed.

(** X26.  [getById] on an identifier that has a text, as every string
    has, does not throw and sends exactly one GET for the contact.  It
    returns [null] or a truthy value, the latter only when the answer met
    the three criteria with status 200 and its body parsed to that value.
    On an identifier without a text (an object with an own [toString]
    property) it throws the TypeError of the URL template and sends
    nothing. *)
Theorem getById_outcome (env : Environment) (token : jsstring)
    (contactId : JsValue) (w : World) :
  match ToString (Number_to_string env) contactId with
  | Normal text =>
      let req := get_by_id_request env token text in
      let resp := http_response env (requests w ++ [req]) in
      exists r w',
        ContactHelper.getById env token contactId w = (Normal r, w') /\
        events w' = events w ++ [Sent req] /\
        requests w' = requests w ++ [req] /\
        (r = JsNull \/
         (ToBoolean r = true /\ accepted resp 200 = true /\
          JSON_parse_builtin env (String_ (body resp)) = Normal r))
  | Throw _ =>
      ContactHelper.getById env token contactId w = (Throw TypeError, w)
  end.
Proof.
  destruct (ToString (Number_to_string env) contactId) as [text|e] eqn:Htext.
  2:{ pose proof (ToString_TypeError _ _ _ Htext) as He. subst e.
      unfold ContactHelper.getById, ContactAPI.getById, ContactAPI.contact_url.
      cbn [bind Monad_Script Monad_Completion eval]. rewrite Htext. reflexivity. }
  intros req resp.
  unfold ContactHelper.getById, ContactAPI.getById, HttpService.get,
    ContactAPI.contact_url.
  cbn [bind Monad_Script Monad_Completion eval]. rewrite Htext.
  run_script.
  fold (request_to env GET (API_ENDPOINTS.CONTACT_BY_ID text) JsUndefined
          (Some token)).
  fold (get_by_id_request env token text). fold req. fold resp.
  change HTTP_STATUS.OK with 200.
  destruct (accepted resp 200) eqn:Hacc; run_script.
  2:{ eexists. eexists. split; [reflexivity|]. split; [reflexivity|].
      split; [reflexivity|]. left. reflexivity. }
  unfold HttpService.parseJsonResponse.
  destruct (JSON_parse_builtin env (String_ (body resp))) as [v|e] eqn:Hp; run_script.
  2:{ eexists. eexists. split; [reflexivity|]. split; [reflexivity|].
      split; [reflexivity|]. left. reflexivity. }
  destruct (ToBoolean v) eqn:Hv; run_script.
  - exists v. eexists. split; [reflexivity|]. split; [reflexivity|].
    split; [reflexivity|]. right. repeat split; assumption.
  - eexists. eexists. split; [reflexivity|]. split; [reflexivity|].
    split; [reflexivity|]. left. reflexivity.
Qed.

(* ================================================================== *)
(** * Building users and lists of contacts *)
(* ================================================================== *)

Lemma buildContacts_from_run (env : Environment) (n : nat) :
  forall w,
  exists contacts,
    DataBuilderService.buildContacts_from env n w
      = (Normal contacts, drew (11 * n) w) /\
    List.length contacts = n /\
    Forall (fun c => exists props, c = JsObject props) contacts.
Proof.
  induction n as [|n IH]; intros w.
  - exists []. split; [destruct w; reflexivity|]. split; [reflexivity|constructor].
  - cbn [DataBuilderService.buildContacts_from bind Monad_Script].
    destruct (buildContact_returns env None w) as (props & Hone). rewrite Hone.
    destruct (IH (drew 11 w)) as (rest & Hrest & Hlen & Hall). rewrite Hrest.
    exists (JsObject props :: rest). rewrite drew_drew.
    replace (11 * n + 11)%nat with (11 * S n)%nat by lia.
    split; [reflexivity|]. split; [cbn [List.length]; lia|].
    constructor; [exists props; reflexivity | exact Hall].
Qed.

(** X27.  For a count up to 2^32 - 1, the longest an array can be,
    [buildContacts] does not throw and returns exactly [count] contacts
    (none for a count below one), each of them an object; it reads the
    random generator eleven times per contact and does nothing else.  For
    a larger count [Array.from] throws a RangeError before any contact
    is built. *)
Theorem buildContacts_length (env : Environment) (count : Z) (w : World) :
  (count <= 4294967295 ->
   exists contacts,
     DataBuilderService.buildContacts env count w
       = (Normal contacts, drew (11 * Z.to_nat count) w) /\
     List.length contacts = Z.to_nat count /\
     Forall (fun c => exists props, c = JsObject props) contacts) /\
  (4294967295 < count ->
   DataBuilderService.buildContacts env count w = (Throw RangeError, w)).
Proof.
  unfold DataBuilderService.buildContacts. split; intros H.
  - assert (E : (4294967295 <? count) = false) by (apply Z.ltb_ge; exact H).
    rewrite E. apply buildContacts_from_run.
  - assert (E : (4294967295 <? count) = true) by (apply Z.ltb_lt; exact H).
    rewrite E. reflexivity.
Qed.

Lemma buildContacts_length_witness :
  (exists contacts,
     DataBuilderService.buildContacts (sample_env ok_response) 3 fresh_world
       = (Normal contacts, drew (11 * Z.to_nat 3) fresh_world) /\
     List.length contacts = Z.to_nat 3 /\
     Forall (fun c => exists props, c = JsObject props) contacts) /\
  DataBuilderService.buildContacts (sample_env ok_response) 4294967296 fresh_world
    = (Throw RangeError, fresh_world).
Proof.
  split.
  - apply (buildContacts_length (sample_env ok_response) 3 fresh_world). lia.
  - apply (buildContacts_length (sample_env ok_response) 4294967296 fresh_world). lia.
Defined.

(** X28.  [buildUser] never throws; it reads the clock once and the
    random generator fifteen times and does nothing else.  In the object
    it returns the overrides win; unless overridden, the first name is
    drawn from the table of first names and the password has twelve
    characters of the password alphabet. *)
Theorem buildUser_result (env : Environment)
    (overrides : option (list (jsstring * JsValue))) (w : World) :
  exists firstName password props w',
    In firstName TEST_DATA.FIRST_NAMES /\
    List.length password = 12%nat /\
    Forall (fun c => In c DataBuilderService.chars) password /\
    DataBuilderService.buildUser env overrides w = (Normal (JsObject props), w') /\
    only_draws w w' /\
    clock_reads w' = S (clock_reads w) /\
    random_draws w' = (15 + random_draws w)%nat /\
    (forall k v,
       lookup k (rev (DataBuilderService.spread overrides)) = Some v ->
       lookup k props = Some v) /\
    (lookup (lit "firstName") (DataBuilderService.spread overrides) = None ->
     lookup (lit "firstName") props = Some (JsString firstName)) /\
    (lookup (lit "password") (DataBuilderService.spread overrides) = None ->
     lookup (lit "password") props = Some (JsString password)).
Proof.
  unfold DataBuilderService.buildUser.
  cbn [bind Monad_Script].
  draw_item firstName Hfirst. draw_item lastName Hlast.
  unfold DataBuilderService.generateEmail, DataBuilderService.generatePassword.
  cbn [bind ret Monad_Script tick_clock tick_random].
  match goal with
  | |- context [DataBuilderService.generatePassword_loop env ?n [] ?w0] =>
      destruct (generatePassword_loop_run env n [] w0) as (pw & Hrun & Hlen & Hall)
  end.
  rewrite Hrun.
  exists firstName, pw. eexists. eexists.
  split; [exact Hfirst|]. split; [exact Hlen|]. split; [exact Hall|].
  split; [reflexivity|]. split; [repeat split|].
  split; [reflexivity|]. split; [reflexivity|].
  split.
  { intros k v Hk. rewrite lookup_object_literal, rev_app_distr, lookup_app, Hk.
    reflexivity. }
  split; intros Hno; apply lookup_rev_None in Hno;
    rewrite lookup_object_literal, rev_app_distr, lookup_app, Hno; reflexivity.
Qed.

(* ================================================================== *)
(** * Deleting in bulk through the API client *)
(* ================================================================== *)

(** X29.  [ContactAPI.deleteMultiple], given identifiers that all have a
    text, as every string has, does not throw: it sends one DELETE per
    identifier, in order and without a pause, and returns the answers of
    the server in the same order.  Unlike [ContactHelper.deleteMultiple]
    it validates nothing: the metrics, the checks and the error log are
    untouched, and it neither sleeps nor warns.  An identifier without a
    text (an object with an own [toString] property) makes it throw the
    TypeError of the URL template. *)
Theorem ContactAPI_deleteMultiple_answers (env : Environment) (token : jsstring)
    (contactIds : list JsValue) (w : World) :
  match texts_of env contactIds with
  | Normal texts =>
      exists w',
        ContactAPI_more.deleteMultiple env token contactIds w
          = (Normal (delete_answers env token texts (requests w)), w') /\
        List.length (delete_answers env token texts (requests w))
          = List.length contactIds /\
        events w' =
          events w ++ List.map (fun t => Sent (delete_request env token t)) texts /\
        requests w' = requests w ++ List.map (delete_request env token) texts /\
        runtime w' = runtime w /\
        sleeps w' = sleeps w /\
        console_warn w' = console_warn w
  | Throw _ =>
      exists w',
        ContactAPI_more.deleteMultiple env token contactIds w
          = (Throw TypeError, w')
  end.
Proof.
  revert w. induction contactIds as [|id rest IH]; intros w.
  - cbn [texts_of]. exists w. cbn. rewrite !app_nil_r. repeat split.
  - cbn [texts_of bind Monad_Completion].
    cbn [ContactAPI_more.deleteMultiple bind Monad_Script].
    unfold ContactAPI.delete, HttpService.delete, ContactAPI.contact_url.
    cbn [bind Monad_Script Monad_Completion eval].
    destruct (ToString (Number_to_string env) id) as [t|e] eqn:Ht.
    2:{ rewrite (ToString_TypeError _ _ _ Ht). exists w. reflexivity. }
    run_script.
    fold (request_to env DELETE (API_ENDPOINTS.CONTACT_BY_ID t) JsNull (Some token)).
    fold (delete_request env token t).
    match goal with
    | |- context [ContactAPI_more.deleteMultiple env token rest ?w1] =>
        pose proof (IH w1) as IHw
    end.
    destruct (texts_of env rest) as [ts|e] eqn:Hts.
    + destruct IHw as (w' & Hrun & Hlen & Hev & Hreq & Hrt & Hsl & Hwarn).
      cbn [requests runtime sleeps console_warn events] in *.
      rewrite Hrun. run_script. exists w'.
      cbn [delete_answers List.map List.length].
      split; [reflexivity|]. split; [rewrite Hlen; reflexivity|].
      split; [rewrite Hev, <- app_assoc; reflexivity|].
      split; [rewrite Hreq, <- app_assoc; reflexivity|].
      repeat split; assumption.
    + destruct IHw as (w' & Hrun). rewrite Hrun. exists w'. reflexivity.
Qed.

(* ================================================================== *)
(** * Identifiers without a text *)
(* ================================================================== *)

(** An identifier that is an object with an own [toString] property, as
    [JSON.parse] makes of [{"toString":"x"}], cannot be written into a
    URL: [getById] throws before sending anything, and [deleteAll] throws
    once the GET has listed a contact with such an [_id]. *)
Example scenario_id_without_text :
  let id := JsObject [(lit "toString", JsString (lit "x"))] in
  let env := sample_env
               (response 200 (BString (litq "[{'_id':{'toString':'x'}}]")) 90) in
  ToString (Number_to_string env) id = Throw TypeError /\
  ContactHelper.getById env (lit "tok123") id fresh_world
    = (Throw TypeError, fresh_world) /\
  JSON_parse_builtin env (litq "[{'_id':{'toString':'x'}}]")
    = Normal (JsArray [JsObject [(lit "_id", id)]]) /\
  fst (ContactHelper.deleteAll env (lit "tok123") fresh_world) = Throw TypeError /\
  requests (snd (ContactHelper.deleteAll env (lit "tok123") fresh_world))
    = [get_all_request env (lit "tok123")].
Proof. repeat split; vm_compute; reflexivity. Qed.
